(** * The cross-platform build orchestrator ([scripts/build-cross-platform.py])

    A shallow embedding of the script and the properties of its pipeline:
    toolchain probe, per-target build with the host-dependent skip, artifact
    collection, checksum manifest and report.

    The script is a sequence of effects on three things: the working tree,
    the external processes it spawns, and its own standard output.  They are
    modelled as

    - a file system [gmap (list string) node], keyed by the parts of a
      [pathlib.Path] relative to the working directory;
    - a [Host]: the machine the script runs on, which fixes what
      [platform.system()], [shutil.which] and every spawned process do
      (a process is a function on the file system and on the rest of the
      machine, the latter a type the host chooses);
    - a [World]: file system, machine, the lines printed so far and the list
      of processes spawned so far with their outcomes.

    Python exceptions are the [Raise] results of a state-and-exception monad;
    an exception keeps the effects made before it was raised.

    Boundaries of the model.  The errors of file operations are those decided
    by the kind of node found at a path (absent, regular file, directory);
    permissions, symbolic links and I/O failures are outside.  Path components
    are compared exactly (a case-sensitive file system).  Strings are byte
    strings; [lower] and [strip] act on the ASCII range. *)

From Stdlib Require Import ZArith NArith Ascii String List Bool Lia.
From stdpp Require Import gmap strings list fin_maps.

Local Open Scope Z_scope.

(** ** Python string builtins used by the script *)

Module Py.

(** [c in s] for a one-character [c]. *)
Fixpoint contains (c : ascii) (s : string) : bool :=
  match s with
  | EmptyString => false
  | String d s' => if Ascii.eqb d c then true else contains c s'
  end.

(** [s.split(sep)] for a one-character separator: the fields between the
    separators, empty fields included; never the empty list. *)
Fixpoint split (sep : ascii) (s : string) : list string :=
  match s with
  | EmptyString => [EmptyString]
  | String c s' =>
      if Ascii.eqb c sep then EmptyString :: split sep s'
      else match split sep s' with
           | [] => [String c EmptyString]
           | f :: fs => String c f :: fs
           end
  end.

Definition lower_char (c : ascii) : ascii :=
  let n := N_of_ascii c in
  if ((65 <=? n) && (n <=? 90))%N then ascii_of_N (n + 32) else c.

(** [s.lower()]. *)
Fixpoint lower (s : string) : string :=
  match s with
  | EmptyString => EmptyString
  | String c s' => String (lower_char c) (lower s')
  end.

(** [sep.join(l)]. *)
Fixpoint join (sep : string) (l : list string) : string :=
  match l with
  | [] => EmptyString
  | [x] => x
  | x :: l' => x +:+ sep +:+ join sep l'
  end.

(** [c.isspace()] on the ASCII range: tab, newline, vertical tab, form
    feed, carriage return, the four separators 28..31 and the space. *)
Definition isspace (c : ascii) : bool :=
  let n := N_of_ascii c in
  (((9 <=? n) && (n <=? 13)) || ((28 <=? n) && (n <=? 32)))%N.

Fixpoint lstrip (s : string) : string :=
  match s with
  | EmptyString => EmptyString
  | String c s' => if isspace c then lstrip s' else s
  end.

Fixpoint rstrip (s : string) : string :=
  match s with
  | EmptyString => EmptyString
  | String c s' =>
      match rstrip s' with
      | EmptyString => if isspace c then EmptyString else String c EmptyString
      | r => String c r
      end
  end.

(** [s.strip()]. *)
Definition strip (s : string) : string := rstrip (lstrip s).

(** Truth value of a string: non-empty. *)
Definition truthy (s : string) : bool :=
  match s with EmptyString => false | _ => true end.

(** [s.startswith(p)]. *)
Definition startswith (p s : string) : bool := String.prefix p s.

End Py.

(** ** The working tree *)

(** A regular file: its content, permission bits and modification time. *)
Record file := mkFile { data : string; mode : N; mtime : Z }.

Inductive node :=
| File (f : file)
| Dir.

(** A path is the list of its parts below the working directory;
    [Path("a") / "b"] is [["a"; "b"]] and the working directory itself is
    [[]].  A target triple is taken as one part, which is what [/] does for
    a string without separator that is neither empty nor ["."]. *)
Abbreviation path := (list string) (only parsing).
Abbreviation FS := (gmap (list string) node) (only parsing).

Module Fs.

(** The node at a path; the working directory always exists. *)
Definition node_at (t : FS) (p : path) : option node :=
  match p with
  | [] => Some Dir
  | _ => t !! p
  end.

Definition exists_ (t : FS) (p : path) : bool :=
  match node_at t p with Some _ => true | None => false end.

Definition is_file (t : FS) (p : path) : bool :=
  match node_at t p with Some (File _) => true | _ => false end.

Definition is_dir (t : FS) (p : path) : bool :=
  match node_at t p with Some Dir => true | _ => false end.

Definition parent (p : path) : path := removelast p.

(** [Path.name]: the last part. *)
Definition name (p : path) : string := List.last p EmptyString.

(** The name of [p] when [p] is an entry of the directory [d]. *)
Fixpoint child_name (d p : path) : option string :=
  match d, p with
  | [], [n] => Some n
  | x :: d', y :: p' => if String.eqb x y then child_name d' p' else None
  | _, _ => None
  end.

(** The entries of directory [d], in the enumeration order of the map. *)
Definition entries (t : FS) (d : path) : list string :=
  omap (fun kv => child_name d (fst kv)) (map_to_list t).

End Fs.

(** ** Hosts, worlds and the effect monad *)

(** The outcome of [subprocess.run]: the program could not be started
    (Python raises [FileNotFoundError]), or it ran and exited.  A program
    that is found but may not be executed, for which Python raises
    [PermissionError], is outside the model. *)
Inductive spawn :=
| NotFound
| Completed (returncode : Z) (stdout stderr : string).

Definition exited_zero (r : spawn) : bool :=
  match r with
  | Completed rc _ _ => rc =? 0
  | NotFound => false
  end.

(** The machine the script runs on.  [Env] is whatever lies outside the
    working tree (installed programs, network, clock); a process maps the
    tree and the environment to its outcome and their new values. *)
Record Host := mkHost {
  Env : Type;
  platform_system : string;
  which : string -> FS * Env -> bool;
  exec : list string -> FS * Env -> spawn * (FS * Env);
  now : Env -> Z;
  new_file_mode : N;
  str_CalledProcessError : list string -> Z -> string;
  format_mb : nat -> string
}.
Existing Class Host.

Inductive exn :=
| CalledProcessError (cmd : list string) (returncode : Z) (stdout stderr : string)
| FileNotFoundError
| FileExistsError
| IsADirectoryError
| NotADirectoryError
| SameFileError
| IndexError
| SystemExit (code : Z).

Inductive result (A : Type) :=
| Normal (a : A)
| Raise (e : exn).
Arguments Normal {A} a.
Arguments Raise {A} e.

(** The status the interpreter exits with: 0 when [main] returns, the
    argument of [sys.exit], and 1 for any other uncaught exception. *)
Definition exit_status {A} (r : result A) : Z :=
  match r with
  | Normal _ => 0
  | Raise (SystemExit c) => c
  | Raise _ => 1
  end.

(** The state-and-exception monad of the script, over a state [S]. *)
Section Monad.

Context {S : Type}.

Definition M (A : Type) : Type := S -> result A * S.

Definition ret {A} (a : A) : M A := fun w => (Normal a, w).

Definition bind {A B} (m : M A) (k : A -> M B) : M B :=
  fun w =>
    match m w with
    | (Normal a, w') => k a w'
    | (Raise e, w') => (Raise e, w')
    end.

Definition raise {A} (e : exn) : M A := fun w => (Raise e, w).

(** [try: m] with an [except] clause for the exceptions [h] accepts. *)
Definition try_except {A} (m : M A) (h : exn -> option (M A)) : M A :=
  fun w =>
    match m w with
    | (Normal a, w') => (Normal a, w')
    | (Raise e, w') =>
        match h e with
        | Some k => k w'
        | None => (Raise e, w')
        end
    end.

Definition gets {A} (f : S -> A) : M A := fun w => (Normal (f w), w).

(** [for x in xs: body x]. *)
Fixpoint for_ {A} (xs : list A) (body : A -> M unit) : M unit :=
  match xs with
  | [] => ret tt
  | x :: xs' => bind (body x) (fun _ => for_ xs' body)
  end.

End Monad.

Arguments M S A : clear implicits.

Declare Scope py_scope.
Delimit Scope py_scope with py.
Notation "x <- c1 ;; c2" := (bind c1 (fun x => c2))
  (at level 100, c1 at next level, right associativity) : py_scope.
Notation "c1 ;; c2" := (bind c1 (fun _ => c2))
  (at level 100, c2 at level 200, right associativity) : py_scope.
Local Open Scope py_scope.

(** ** The script *)

Section Script.

Context {H : Host}.

Record World := mkWorld {
  fs : FS;
  env : Env H;
  out : list string;
  trace : list (list string * spawn)
}.

Definition set_fs (t : FS) : M World unit :=
  fun w => (Normal tt, mkWorld t (env w) (out w) (trace w)).

(** *** Standard output *)

Definition print (s : string) : M World unit :=
  fun w => (Normal tt, mkWorld (fs w) (env w) (out w ++ [s]) (trace w)).

(** *** File operations *)

Definition path_exists (p : path) : M World bool := gets (fun w => Fs.exists_ (fs w) p).

Definition path_is_file (p : path) : M World bool := gets (fun w => Fs.is_file (fs w) p).

(** [os.sep] and [str(p)]. *)
Definition os_sep : string :=
  if String.eqb (platform_system H) "Windows" then "\" else "/".

Definition path_str (p : path) : string := Py.join os_sep p.

(** Creating an entry needs its parent to be a directory. *)
Definition create (p : path) (n : node) : M World unit :=
  fun w =>
    match Fs.node_at (fs w) (Fs.parent p) with
    | Some Dir => set_fs (<[p := n]> (fs w)) w
    | Some (File _) => (Raise NotADirectoryError, w)
    | None => (Raise FileNotFoundError, w)
    end.

(** [p.mkdir(exist_ok=True)]. *)
Definition mkdir_exist_ok (p : path) : M World unit :=
  fun w =>
    match Fs.node_at (fs w) p with
    | Some Dir => (Normal tt, w)
    | Some (File _) => (Raise FileExistsError, w)
    | None => create p Dir w
    end.

(** [open(p, "w")]: an existing file is truncated and keeps its mode. *)
Definition open_w (p : path) : M World unit :=
  fun w =>
    match Fs.node_at (fs w) p with
    | Some Dir => (Raise IsADirectoryError, w)
    | Some (File f) =>
        set_fs (<[p := File (mkFile EmptyString (mode f) (now H (env w)))]> (fs w)) w
    | None =>
        create p (File (mkFile EmptyString (new_file_mode H) (now H (env w)))) w
    end.

(** [f.write(s)] on the file opened at [p].  Writes are applied as they are
    issued; Python holds them in a buffer until the [with] block is left,
    which no step of the script can observe. *)
Definition write (p : path) (s : string) : M World unit :=
  fun w =>
    match fs w !! p with
    | Some (File f) =>
        set_fs (<[p := File (mkFile (data f +:+ s) (mode f) (now H (env w)))]> (fs w)) w
    | _ => (Normal tt, w)
    end.

(** [open(p).read()]. *)
Definition read_text (p : path) : M World string :=
  fun w =>
    match Fs.node_at (fs w) p with
    | Some (File f) => (Normal (data f), w)
    | Some Dir => (Raise IsADirectoryError, w)
    | None => (Raise FileNotFoundError, w)
    end.

(** [shutil.copy2(src, dst)]: content, permission bits and modification
    time of [src]; a directory as [dst] receives the file under its name. *)
Definition copy2 (src dst : path) : M World unit :=
  fun w =>
    let dst' := if Fs.is_dir (fs w) dst then dst ++ [Fs.name src] else dst in
    match Fs.node_at (fs w) src with
    | None => (Raise FileNotFoundError, w)
    | Some Dir => (Raise IsADirectoryError, w)
    | Some (File f) =>
        if decide (src = dst') then (Raise SameFileError, w)
        else match Fs.node_at (fs w) dst' with
             | Some Dir => (Raise IsADirectoryError, w)
             | Some (File _) => set_fs (<[dst' := File f]> (fs w)) w
             | None => create dst' (File f) w
             end
    end.

(** [os.chmod(p, m)]; the mode of a directory is not tracked. *)
Definition chmod (p : path) (m : N) : M World unit :=
  fun w =>
    match Fs.node_at (fs w) p with
    | Some (File f) => set_fs (<[p := File (mkFile (data f) m (mtime f))]> (fs w)) w
    | Some Dir => (Normal tt, w)
    | None => (Raise FileNotFoundError, w)
    end.

(** [d.glob(prefix + "*")]: the entries of [d] whose name starts with
    [prefix]; nothing when [d] is not a directory. *)
Definition glob (d : path) (prefix : string) : M World (list path) :=
  gets (fun w =>
    if Fs.is_dir (fs w) d
    then (fun n => d ++ [n]) <$>
           filter (fun n => Is_true (Py.startswith prefix n)) (Fs.entries (fs w) d)
    else []).

(** [d.iterdir()]. *)
Definition iterdir (d : path) : M World (list path) :=
  fun w =>
    match Fs.node_at (fs w) d with
    | Some Dir => (Normal ((fun n => d ++ [n]) <$> Fs.entries (fs w) d), w)
    | Some (File _) => (Raise NotADirectoryError, w)
    | None => (Raise FileNotFoundError, w)
    end.

(** [p.stat().st_size]. *)
Definition stat_size (p : path) : M World nat :=
  fun w =>
    match Fs.node_at (fs w) p with
    | Some (File f) => (Normal (String.length (data f)), w)
    | Some Dir => (Normal 0%nat, w)
    | None => (Raise FileNotFoundError, w)
    end.

(** *** Processes *)

Record CompletedProcess := mkCompleted { returncode : Z; stdout : string; stderr : string }.

(** [subprocess.run(cmd, check=check, capture_output=True, text=True)]. *)
Definition subprocess_run (cmd : list string) (check : bool) : M World CompletedProcess :=
  fun w =>
    let '(r, (t, e)) := exec H cmd (fs w, env w) in
    let w' := mkWorld t e (out w) (trace w ++ [(cmd, r)]) in
    match r with
    | NotFound => (Raise FileNotFoundError, w')
    | Completed rc so se =>
        if check && negb (rc =? 0)
        then (Raise (CalledProcessError cmd rc so se), w')
        else (Normal (mkCompleted rc so se), w')
    end.

Definition shutil_which (name : string) : M World bool :=
  gets (fun w => which H name (fs w, env w)).

Definition sys_exit {A} (code : Z) : M World A := raise (SystemExit code).

(** *** [build-cross-platform.py] *)

Definition ESC : string := String "027" EmptyString.
Definition RED : string := ESC +:+ "[0;31m".
Definition GREEN : string := ESC +:+ "[0;32m".
Definition YELLOW : string := ESC +:+ "[1;33m".
Definition BLUE : string := ESC +:+ "[0;34m".
Definition NC : string := ESC +:+ "[0m".

Definition print_status (message : string) : M World unit :=
  print (BLUE +:+ "[INFO]" +:+ NC +:+ " " +:+ message).

Definition print_success (message : string) : M World unit :=
  print (GREEN +:+ "[SUCCESS]" +:+ NC +:+ " " +:+ message).

Definition print_warning (message : string) : M World unit :=
  print (YELLOW +:+ "[WARNING]" +:+ NC +:+ " " +:+ message).

Definition print_error (message : string) : M World unit :=
  print (RED +:+ "[ERROR]" +:+ NC +:+ " " +:+ message).

Definition when (b : bool) (m : M World unit) : M World unit :=
  if b then m else ret tt.

Definition run_command (cmd : list string) (check : bool) : M World CompletedProcess :=
  print_status ("Running: " +:+ Py.join " " cmd) ;;
  try_except
    (result <- subprocess_run cmd check ;;
     when (Py.truthy (stdout result)) (print (stdout result)) ;;
     ret result)
    (fun e =>
       match e with
       | CalledProcessError c rc _ se =>
           Some (print_error ("Command failed: " +:+ str_CalledProcessError H c rc) ;;
                 when (Py.truthy se) (print se) ;;
                 raise e)
       | _ => None
       end).

Definition rustc_version : list string := ["rustc"; "--version"].

Definition cargo_version : list string := ["cargo"; "--version"].

Definition check_rust_installed : M World bool :=
  try_except
    (run_command rustc_version true ;;
     run_command cargo_version true ;;
     ret true)
    (fun e =>
       match e with
       | CalledProcessError _ _ _ _ | FileNotFoundError =>
           Some (print_error "Rust is not installed. Please install Rust from https://rustup.rs/" ;;
                 ret false)
       | _ => None
       end).

(** The list the script writes out in [install_targets], [copy_binaries]
    and [main]. *)
Definition targets : list string :=
  ["x86_64-unknown-linux-gnu"; "aarch64-unknown-linux-gnu"].

Definition rustup_add (target : string) : list string :=
  ["rustup"; "target"; "add"; target].

Definition install_targets : M World unit :=
  for_ targets (fun target =>
    print_status ("Installing target: " +:+ target) ;;
    run_command (rustup_add target) true ;;
    ret tt).

(** [lst[i]]. *)
Definition index {A} (l : list A) (i : nat) : M World A :=
  match nth_error l i with
  | Some x => ret x
  | None => raise IndexError
  end.

(** [target.split('-')[2] if '-' in target else 'unknown']. *)
Definition target_os_of (target : string) : M World string :=
  if Py.contains "-" target then index (Py.split "-" target) 2 else ret "unknown".

Definition cargo_build (target : string) : list string :=
  ["cargo"; "build"; "--release"; "--target"; target].

Definition binary_path (target : string) : path :=
  ["target"; target; "release"; "rbx-studio-mcp"].

Definition strip_cmd (target : string) : list string :=
  ["strip"; path_str (binary_path target)].

Definition build_target (target : string) : M World unit :=
  print_status ("Building for " +:+ target +:+ "...") ;;
  let host_os := Py.lower (platform_system H) in
  target_os <- target_os_of target ;;
  if String.eqb host_os "windows" && String.eqb target_os "linux" then
    print_warning "Cross-compiling from Windows to Linux is not supported in this script." ;;
    print_warning "Please use the GitHub Actions workflow or build on a Linux system." ;;
    print_status "Skipping build for this target..." ;;
    ret tt
  else
    let cmd := cargo_build target in
    run_command cmd true ;;
    strip <- shutil_which "strip" ;;
    present <- path_exists (binary_path target) ;;
    if strip && present then
      print_status ("Stripping " +:+ target +:+ " binary...") ;;
      run_command (strip_cmd target) true ;;
      ret tt
    else ret tt.

Definition release_dir : path := ["release"].

Definition checksum_file : path := release_dir ++ ["checksums.txt"].

Definition artifact (target : string) : path :=
  release_dir ++ ["rbx-studio-mcp-" +:+ target].

Definition copy_binaries : M World unit :=
  mkdir_exist_ok release_dir ;;
  for_ targets (fun target =>
    let source := binary_path target in
    let dest := artifact target in
    present <- path_exists source ;;
    if present then
      copy2 source dest ;;
      when (negb (String.eqb (platform_system H) "Windows")) (chmod dest 493) ;;
      print_success ("Copied " +:+ target +:+ " binary")
    else
      print_error ("Binary not found: " +:+ path_str source)).

Definition newline : string := String "010" EmptyString.

(** The hashing command for one file: PowerShell on Windows, [sha256sum]
    elsewhere. *)
Definition hash_cmd (binary : path) : list string :=
  if String.eqb (platform_system H) "Windows" then
    ["powershell"; "-Command";
     "Get-FileHash '" +:+ path_str binary +:+
       "' -Algorithm SHA256 | Select-Object -ExpandProperty Hash"]
  else ["sha256sum"; path_str binary].

(** What is written to the manifest for a file hashed with exit status 0. *)
Definition hash_line (binary : path) (output : string) : string :=
  if String.eqb (platform_system H) "Windows" then
    Py.strip output +:+ "  " +:+ Fs.name binary +:+ newline
  else output.

Definition create_checksums : M World unit :=
  print_status "Creating checksums..." ;;
  open_w checksum_file ;;
  binaries <- glob release_dir "rbx-studio-mcp-" ;;
  for_ binaries (fun binary =>
    regular <- path_is_file binary ;;
    if regular then
      if String.eqb (platform_system H) "Windows" then
        result <- subprocess_run
          ["powershell"; "-Command";
           "Get-FileHash '" +:+ path_str binary +:+
             "' -Algorithm SHA256 | Select-Object -ExpandProperty Hash"] false ;;
        if returncode result =? 0 then
          let hash_value := Py.strip (stdout result) in
          write checksum_file (hash_value +:+ "  " +:+ Fs.name binary +:+ newline)
        else ret tt
      else
        result <- subprocess_run ["sha256sum"; path_str binary] false ;;
        if returncode result =? 0 then write checksum_file (stdout result)
        else ret tt
    else ret tt).

Definition display_results : M World unit :=
  print_success "Build completed successfully!" ;;
  print_status "Release artifacts:" ;;
  items <- iterdir release_dir ;;
  for_ items (fun item =>
    regular <- path_is_file item ;;
    if regular then
      size <- stat_size item ;;
      print ("  " +:+ Fs.name item +:+ ": " +:+ format_mb H size +:+ " MB")
    else ret tt) ;;
  print_status "Checksums:" ;;
  present <- path_exists checksum_file ;;
  if present then
    content <- read_text checksum_file ;;
    print content
  else ret tt.

Definition main : M World unit :=
  print_status "Starting cross-platform Linux build process..." ;;
  marker <- path_exists ["Cargo.toml"] ;;
  (if negb marker then
     print_error "Please run this script from the project root directory" ;;
     sys_exit 1
   else ret tt) ;;
  installed <- check_rust_installed ;;
  (if negb installed then sys_exit 1 else ret tt) ;;
  install_targets ;;
  for_ targets build_target ;;
  copy_binaries ;;
  create_checksums ;;
  display_results ;;
  print_success "Linux builds are ready in the release directory!".

End Script.

(** ** [test-config.py] *)

From stdpp Require Import pretty.

Local Open Scope Z_scope.
Local Open Scope py_scope.

(** The second script checks that the repository is set up for the Linux
    builds.  Its [Colors] class and its four [print_*] helpers are the
    ones of the build script, word for word, and are shared here. *)
Module TestConfig.

(** [needle in haystack] for strings. *)
Fixpoint contains (needle haystack : string) : bool :=
  String.prefix needle haystack ||
  match haystack with
  | EmptyString => false
  | String _ rest => contains needle rest
  end.

(** [Path(s)] for a relative [s]: the parts between the separators, empty
    parts and ["."] dropped. *)
Definition Path (s : string) : path :=
  filter (fun part => Is_true (negb (String.eqb part EmptyString) &&
                               negb (String.eqb part ".")))
    (Py.split "/" s).

Definition quote : string := String "034" EmptyString.

(** The literal ['target_os = "linux"']. *)
Definition target_os_linux : string :=
  "target_os = " +:+ quote +:+ "linux" +:+ quote.

Section Script.

Context {H : Host}.

(** [for x in xs: body], where the body assigns to the local [acc]. *)
Fixpoint for_with {A B} (xs : list A) (acc : B) (body : A -> B -> M World B)
    : M World B :=
  match xs with
  | [] => ret acc
  | x :: xs' => acc' <- body x acc ;; for_with xs' acc' body
  end.

Definition check_rust_installed : M World bool :=
  try_except
    (result <- subprocess_run ["rustc"; "--version"] false ;;
     if returncode result =? 0 then
       print_success ("Rust is installed: " +:+ Py.strip (stdout result)) ;;
       ret true
     else
       print_error "Rust is not installed" ;;
       ret false)
    (fun e =>
       match e with
       | FileNotFoundError => Some (print_error "Rust is not installed" ;; ret false)
       | _ => None
       end).

Definition check_cargo_toml : M World bool :=
  let cargo_toml := Path "Cargo.toml" in
  present <- path_exists cargo_toml ;;
  if negb present then
    print_error "Cargo.toml not found" ;;
    ret false
  else
    content <- read_text cargo_toml ;;
    if contains "zenity-dialog" content then
      print_success "Linux dependencies found in Cargo.toml" ;;
      ret true
    else
      print_error "Linux dependencies not found in Cargo.toml" ;;
      ret false.

Definition check_install_rs : M World bool :=
  let install_rs := Path "src/install.rs" in
  present <- path_exists install_rs ;;
  if negb present then
    print_error "src/install.rs not found" ;;
    ret false
  else
    content <- read_text install_rs ;;
    if contains "zenity_dialog" content && contains target_os_linux content then
      print_success "Linux support found in install.rs" ;;
      ret true
    else
      print_error "Linux support not found in install.rs" ;;
      ret false.

Definition check_github_actions : M World bool :=
  let workflow_path := Path ".github/workflows/build-linux.yml" in
  present <- path_exists workflow_path ;;
  if present then
    print_success "GitHub Actions workflow found" ;;
    ret true
  else
    print_error "GitHub Actions workflow not found" ;;
    ret false.

Definition scripts : list string :=
  ["scripts/build-linux.sh"; "scripts/build-linux.ps1"; "scripts/build-cross-platform.py"].

Definition check_build_scripts : M World bool :=
  for_with scripts true (fun script all_exist =>
    present <- path_exists (Path script) ;;
    if present then
      print_success ("Build script found: " +:+ script) ;;
      ret all_exist
    else
      print_error ("Build script not found: " +:+ script) ;;
      ret false).

Definition docs : list string := ["docs/linux-builds.md"].

Definition check_documentation : M World bool :=
  for_with docs true (fun doc all_exist =>
    present <- path_exists (Path doc) ;;
    if present then
      print_success ("Documentation found: " +:+ doc) ;;
      ret all_exist
    else
      print_error ("Documentation not found: " +:+ doc) ;;
      ret false).

Definition tests : list (string * M World bool) :=
  [("Rust Installation", check_rust_installed);
   ("Cargo.toml Configuration", check_cargo_toml);
   ("Install.rs Linux Support", check_install_rs);
   ("GitHub Actions Workflow", check_github_actions);
   ("Build Scripts", check_build_scripts);
   ("Documentation", check_documentation)].

Definition main : M World unit :=
  print_status "Testing Linux build configuration..." ;;
  print EmptyString ;;
  marker <- path_exists (Path "Cargo.toml") ;;
  (if negb marker then
     print_error "Please run this script from the project root directory" ;;
     sys_exit 1
   else ret tt) ;;
  let total := length tests in
  passed <- for_with tests 0%nat (fun test passed =>
    print_status ("Testing " +:+ fst test +:+ "...") ;;
    ok <- snd test ;;
    let passed := if ok then S passed else passed in
    print EmptyString ;;
    ret passed) ;;
  print_status ("Test Results: " +:+ pretty passed +:+ "/" +:+ pretty total +:+
                " tests passed") ;;
  if Nat.eqb passed total then
    print_success "All tests passed! Linux build configuration is ready." ;;
    print EmptyString ;;
    print_status "Next steps:" ;;
    print "1. Push changes to GitHub" ;;
    print "2. GitHub Actions will automatically build Linux binaries" ;;
    print "3. Linux users can download pre-built binaries from releases" ;;
    print "4. Linux users can also build locally using the provided scripts"
  else
    print_error "Some tests failed. Please fix the issues above." ;;
    sys_exit 1.

End Script.

End TestConfig.

(** ** Vocabulary of the properties *)

Section Vocabulary.

Context {H : Host}.

(** The OS component [build_target] derives from a triple, [None] where the
    indexing raises. *)
Definition derive_os (target : string) : option string :=
  if Py.contains "-" target then nth_error (Py.split "-" target) 2
  else Some "unknown".

(** The skip condition: a Windows host and a triple whose OS is linux. *)
Definition skips (target : string) : bool :=
  String.eqb (Py.lower (platform_system H)) "windows" &&
  match derive_os target with
  | Some o => String.eqb o "linux"
  | None => false
  end.

(** The exception [subprocess.run(..., check=True)] raises for a process
    that did not exit with status 0. *)
Definition failure (cmd : list string) (r : spawn) : exn :=
  match r with
  | NotFound => FileNotFoundError
  | Completed rc so se => CalledProcessError cmd rc so se
  end.

(** What [run_command cmd] prints when the process ends as [r]. *)
Definition run_log (cmd : list string) (r : spawn) : list string :=
  (BLUE +:+ "[INFO]" +:+ NC +:+ " " +:+ ("Running: " +:+ Py.join " " cmd)) ::
  match r with
  | NotFound => []
  | Completed rc so se =>
      if rc =? 0 then (if Py.truthy so then [so] else [])
      else (RED +:+ "[ERROR]" +:+ NC +:+ " " +:+
              ("Command failed: " +:+ str_CalledProcessError H cmd rc)) ::
           (if Py.truthy se then [se] else [])
  end.

(** What [run_command cmd] returns or raises when the process ends as [r]. *)
Definition run_outcome (cmd : list string) (r : spawn) : result CompletedProcess :=
  match r with
  | NotFound => Raise FileNotFoundError
  | Completed rc so se =>
      if rc =? 0 then Normal (mkCompleted rc so se)
      else Raise (CalledProcessError cmd rc so se)
  end.

(** The world [run_command cmd] leaves. *)
Definition after_run (cmd : list string) (w : World) : World :=
  let x := exec H cmd (fs w, env w) in
  mkWorld (fst (snd x)) (snd (snd x)) (out w ++ run_log cmd (fst x))
    (trace w ++ [(cmd, fst x)]).

(** How the process [cmd] ends when it is spawned in the world [w]. *)
Definition outcome (cmd : list string) (w : World) : spawn :=
  fst (exec H cmd (fs w, env w)).

(** The tree and the machine of a world. *)
Definition state_of (w : World) : FS * Env H := (fs w, env w).

(** The world after printing [lines]. *)
Definition printed (lines : list string) (w : World) : World :=
  mkWorld (fs w) (env w) (out w ++ lines) (trace w).

Definition not_installed_line : string :=
  RED +:+ "[ERROR]" +:+ NC +:+ " " +:+
  "Rust is not installed. Please install Rust from https://rustup.rs/".

(** The steps of [main] before the first build. *)
Definition startup : M World unit :=
  print_status "Starting cross-platform Linux build process..." ;;
  marker <- path_exists ["Cargo.toml"] ;;
  (if negb marker then
     print_error "Please run this script from the project root directory" ;;
     sys_exit 1
   else ret tt) ;;
  installed <- check_rust_installed ;;
  (if negb installed then sys_exit 1 else ret tt) ;;
  install_targets.

(** [main] up to and including the builds of the targets in [built]. *)
Definition main_until (built : list string) : M World unit :=
  startup ;; for_ built build_target.

(** The world in which [main] stands once the targets in [built] are built. *)
Definition reached (built : list string) (w : World) : World :=
  snd (main_until built w).

(** The steps of [main] after the last build. *)
Definition after_builds : M World unit :=
  copy_binaries ;;
  create_checksums ;;
  display_results ;;
  print_success "Linux builds are ready in the release directory!".

(** The processes spawned since the world [w0]. *)
Definition spawned_since (w0 w : World) : list (list string * spawn) :=
  drop (length (trace w0)) (trace w).

(** How often [cmd] was spawned since [w0]. *)
Definition attempts (cmd : list string) (w0 w : World) : nat :=
  length (filter (fun ev => fst ev = cmd) (spawned_since w0 w)).

(** The line [copy_binaries] prints for a target. *)
Definition copy_report (t : FS) (target : string) : string :=
  if Fs.exists_ t (binary_path target)
  then GREEN +:+ "[SUCCESS]" +:+ NC +:+ " " +:+ "Copied " +:+ target +:+ " binary"
  else RED +:+ "[ERROR]" +:+ NC +:+ " " +:+ "Binary not found: " +:+ path_str (binary_path target).

(** The file [copy_binaries] leaves at the artifact path for a source [f]. *)
Definition collected (f : file) : file :=
  if String.eqb (platform_system H) "Windows" then f
  else mkFile (data f) 493 (mtime f).

(** One round of the loop of [copy_binaries]. *)
Definition copy_round (target : string) : M World unit :=
  let source := binary_path target in
  let dest := artifact target in
  present <- path_exists source ;;
  if present then
    copy2 source dest ;;
    when (negb (String.eqb (platform_system H) "Windows")) (chmod dest 493) ;;
    print_success ("Copied " +:+ target +:+ " binary")
  else
    print_error ("Binary not found: " +:+ path_str source).

(** What one round of the loop of [copy_binaries] does to the tree. *)
Definition collect (t : FS) (target : string) : FS :=
  match t !! binary_path target with
  | Some (File f) => <[artifact target := File (collected f)]> t
  | _ => t
  end.

(** The tree once [copy_binaries] has made sure of the output directory. *)
Definition with_release_dir (t : FS) : FS :=
  match t !! release_dir with
  | None => <[release_dir := Dir]> t
  | Some _ => t
  end.

(** The layout [copy_binaries] expects: the output directory is absent or a
    directory, and neither the expected binary nor the artifact path of a
    configured target is a directory. *)
Definition regular_layout (t : FS) : bool :=
  negb (Fs.is_file t release_dir) &&
  forallb (fun target =>
    negb (Fs.is_dir t (binary_path target)) && negb (Fs.is_dir t (artifact target)))
    targets.

(** An artifact file: a regular file of the output directory whose name
    starts with the fixed prefix. *)
Definition is_artifact (t : FS) (p : path) : Prop :=
  exists n, p = release_dir ++ [n] /\
            Py.startswith "rbx-studio-mcp-" n = true /\
            Fs.is_file t p = true.

(** The entry of the manifest for one hashed file. *)
Definition manifest_entry (hashed : path * spawn) : option string :=
  match snd hashed with
  | Completed rc so _ => if rc =? 0 then Some (hash_line (fst hashed) so) else None
  | NotFound => None
  end.

Definition manifest_entries (hs : list (path * spawn)) : list string :=
  omap manifest_entry hs.

Definition manifest_text (hs : list (path * spawn)) : string :=
  foldr String.append EmptyString (manifest_entries hs).

(** One round of the loop of [create_checksums]. *)
Definition checksum_round (binary : path) : M World unit :=
  regular <- path_is_file binary ;;
  if regular then
    if String.eqb (platform_system H) "Windows" then
      result <- subprocess_run
        ["powershell"; "-Command";
         "Get-FileHash '" +:+ path_str binary +:+
           "' -Algorithm SHA256 | Select-Object -ExpandProperty Hash"] false ;;
      if returncode result =? 0 then
        let hash_value := Py.strip (stdout result) in
        write checksum_file (hash_value +:+ "  " +:+ Fs.name binary +:+ newline)
      else ret tt
    else
      result <- subprocess_run ["sha256sum"; path_str binary] false ;;
      if returncode result =? 0 then write checksum_file (stdout result)
      else ret tt
  else ret tt.

(** The files [create_checksums] enumerates in the tree [t]. *)
Definition globbed (t : FS) : list path :=
  (fun n => release_dir ++ [n]) <$>
    filter (fun n => Is_true (Py.startswith "rbx-studio-mcp-" n))
      (Fs.entries t release_dir).

(** The tree once the manifest has been opened for writing. *)
Definition opened (t : FS) (mode_ : N) (time : Z) : FS :=
  <[checksum_file := File (mkFile EmptyString mode_ time)]> t.

(** The process [create_checksums] spawns for a hashed file. *)
Definition hash_event (h : path * spawn) : list string * spawn :=
  (hash_cmd (fst h), snd h).

Definition started (r : spawn) : bool :=
  match r with NotFound => false | Completed _ _ _ => true end.

(** The manifest [m] after the round for a file hashed with outcome [r]. *)
Definition extended (m : file) (h : path * spawn) (time : Z) : file :=
  match manifest_entry h with
  | Some line => mkFile (data m +:+ line) (mode m) time
  | None => m
  end.



(** The hashing utility only reads the tree. *)
Definition hashing_reads_only : Prop :=
  forall (b : path) (s : FS * Env H), fst (snd (exec H (hash_cmd b) s)) = fst s.

(** What the output directory must be for the manifest to be opened. *)
Definition manifest_writable (t : FS) : bool :=
  Fs.is_dir t release_dir && negb (Fs.is_dir t checksum_file).

(** The toolchain is absent: the version query of the compiler or of the
    package manager does not exit with status 0. *)
Definition toolchain_absent (w : World) : Prop :=
  exited_zero (fst (exec H rustc_version (fs w, env w))) = false \/
  exited_zero (fst (exec H cargo_version (fs w, env w))) = false.

(** The probe as the specification words it: with the toolchain absent the
    run exits with status 1 after one attempt each for [rustc] and [cargo],
    and neither a target installation nor a build is attempted. *)
Definition probe_as_specified (w : World) : Prop :=
  toolchain_absent w ->
  let w' := snd (main w) in
  exit_status (fst (main w)) = 1 /\
  attempts rustc_version w w' = 1%nat /\
  attempts cargo_version w w' = 1%nat /\
  forall target, attempts (rustup_add target) w w' = 0%nat /\
                 attempts (cargo_build target) w w' = 0%nat.

(** The skip policy as the specification words it: after the run, no
    artifact has appeared for a skipped target. *)
Definition skip_as_specified (w : World) : Prop :=
  forall target,
    target ∈ targets ->
    skips target = true ->
    Fs.exists_ (fs w) (artifact target) = false ->
    Fs.exists_ (fs (snd (main w))) (artifact target) = false.

(** Per-target isolation as the specification words it: a release build
    that does not exit with status 0 leaves the exit status at 0 and every
    configured target is still built. *)
Definition isolation_as_specified (w : World) : Prop :=
  let w' := snd (main w) in
  forall target r,
    (cargo_build target, r) ∈ spawned_since w w' ->
    exited_zero r = false ->
    exit_status (fst (main w)) = 0 /\
    forall target', target' ∈ targets ->
      exists r', (cargo_build target', r') ∈ spawned_since w w'.

(** Tolerated hashing failures as the specification words them: a file
    whose hashing fails is left out of the manifest and the generation of
    the manifest is not aborted. *)
Definition failed_hashing_tolerated_as_specified (w : World) : Prop :=
  let w' := snd (create_checksums w) in
  forall b r,
    (hash_cmd b, r) ∈ spawned_since w w' ->
    exited_zero r = false ->
    fst (create_checksums w) = Normal tt.

(** Best-effort stripping as the specification words it: a [strip] that
    does not exit with status 0 does not abort the batch; every configured
    target is still built and the later steps run to the end. *)
Definition strip_tolerated_as_specified (w : World) : Prop :=
  let w' := snd (main w) in
  forall target r,
    (strip_cmd target, r) ∈ spawned_since w w' ->
    exited_zero r = false ->
    fst (main w) = Normal tt /\
    (forall target', target' ∈ targets ->
       exists r', (cargo_build target', r') ∈ spawned_since w w') /\
    Fs.is_file (fs w') checksum_file = true.

End Vocabulary.

(** ** Concrete hosts *)

Module Scenario.

(** What each external program does on a test machine. *)
Record tools := mkTools {
  rustc_r : spawn;
  cargo_r : spawn;
  build_r : string -> spawn;
  strip_r : spawn;
  hash_r : string -> spawn
}.

(** A release build that succeeds leaves the binary in the target tree. *)
Definition produce (target : string) (t : FS) : FS :=
  <[binary_path target := File (mkFile ("ELF " +:+ target) 493 1700000100)]>
    (<[["target"; target; "release"] := Dir]>
       (<[["target"; target] := Dir]> (<[["target"] := Dir]> t))).

Definition machine (k : tools) (cmd : list string) (s : FS * unit) : spawn * (FS * unit) :=
  match cmd with
  | [prog; arg] =>
      if String.eqb prog "rustc" then (rustc_r k, s)
      else if String.eqb prog "cargo" then (cargo_r k, s)
      else if String.eqb prog "strip" then (strip_r k, s)
      else if String.eqb prog "sha256sum" then (hash_r k arg, s)
      else (NotFound, s)
  | [prog; _; arg] =>
      if String.eqb prog "powershell" then (hash_r k arg, s) else (NotFound, s)
  | [prog; _; _; _] =>
      if String.eqb prog "rustup" then (Completed 0 "" "", s) else (NotFound, s)
  | [prog; sub; _; _; target] =>
      if String.eqb prog "cargo" && String.eqb sub "build" then
        let r := build_r k target in
        (r, (if exited_zero r then produce target (fst s) else fst s, tt))
      else (NotFound, s)
  | _ => (NotFound, s)
  end.

Definition host (system : string) (strip_on_path : bool) (k : tools) : Host :=
  mkHost unit system
    (fun name _ => strip_on_path && String.eqb name "strip")
    (machine k)
    (fun _ => 1700000200)
    420
    (fun _ _ => "Command returned non-zero exit status")
    (fun _ => "0.00").

Definition ok (output : string) : spawn := Completed 0 output "".

Definition digest (arg : string) : spawn :=
  ok ("9f86d081884c7d65  " +:+ arg +:+ newline).

Definition healthy : tools :=
  mkTools (ok "rustc 1.75.0") (ok "cargo 1.75.0") (fun _ => ok "") (ok "") digest.

(** On Windows the hashing command prints the digest alone. *)
Definition healthy_windows : tools :=
  mkTools (ok "rustc 1.75.0") (ok "cargo 1.75.0") (fun _ => ok "") (ok "")
    (fun _ => ok ("9F86D081884C7D65" +:+ String "013" newline)).

(** The first configured target fails to build. *)
Definition x86_64_fails : tools :=
  mkTools (ok "rustc 1.75.0") (ok "cargo 1.75.0")
    (fun target => if String.eqb target "x86_64-unknown-linux-gnu"
                   then Completed 101 "" "error: linker `cc` not found"
                   else ok "")
    (ok "") digest.

(** [strip] is installed but rejects the binary. *)
Definition strip_fails : tools :=
  mkTools (ok "rustc 1.75.0") (ok "cargo 1.75.0") (fun _ => ok "")
    (Completed 1 "" "strip: file format not recognized") digest.

(** No compiler on the search path. *)
Definition no_rustc : tools :=
  mkTools NotFound (ok "cargo 1.75.0") (fun _ => ok "") (ok "") digest.

(** The hashing utility fails on the aarch64 artifact. *)
Definition one_hash_fails : tools :=
  mkTools (ok "rustc 1.75.0") (ok "cargo 1.75.0") (fun _ => ok "") (ok "")
    (fun arg => if String.eqb arg "release/rbx-studio-mcp-aarch64-unknown-linux-gnu"
                then Completed 1 "" "sha256sum: Permission denied"
                else digest arg).

(** No hashing utility on the search path. *)
Definition no_sha256sum : tools :=
  mkTools (ok "rustc 1.75.0") (ok "cargo 1.75.0") (fun _ => ok "") (ok "")
    (fun _ => NotFound).

Definition project : FS :=
  {[ ["Cargo.toml"] := File (mkFile "[package]" 420 1700000000) ]}.

(** A project tree with a binary left by an earlier aarch64 build. *)
Definition project_with_stale_binary : FS :=
  <[binary_path "aarch64-unknown-linux-gnu" := File (mkFile "ELF stale" 493 1600000000)]>
    (<[["target"; "aarch64-unknown-linux-gnu"; "release"] := Dir]>
       (<[["target"; "aarch64-unknown-linux-gnu"] := Dir]>
          (<[["target"] := Dir]> project))).

(** An output directory with one artifact per target, an unrelated file, a
    directory that carries the prefix, and a manifest from an earlier run. *)
Definition project_with_release : FS :=
  <[artifact "x86_64-unknown-linux-gnu" := File (mkFile "ELF x86_64" 493 1700000100)]>
    (<[artifact "aarch64-unknown-linux-gnu" := File (mkFile "ELF aarch64" 493 1700000100)]>
       (<[release_dir ++ ["notes.txt"] := File (mkFile "notes" 420 1700000000)]>
          (<[release_dir ++ ["rbx-studio-mcp-debug"] := Dir]>
             (<[checksum_file := File (mkFile "stale line" 384 1600000000)]>
                (<[release_dir := Dir]> project))))).

(** A project tree in which [release] is a regular file. *)
Definition project_with_release_file : FS :=
  <[release_dir := File (mkFile "v1.0" 420 1700000000)]> project_with_stale_binary.

Definition start (h : Host) (t : FS) (e : Env h) : @World h := @mkWorld h t e [] [].

Definition x86_64 : string := "x86_64-unknown-linux-gnu".
Definition aarch64 : string := "aarch64-unknown-linux-gnu".

(** Linux, the first build fails. *)
Definition linux_build_fails : Host := host "Linux" true x86_64_fails.
Definition w_build_fails : @World linux_build_fails := start linux_build_fails project tt.

(** Linux, [strip] fails. *)
Definition linux_strip_fails : Host := host "Linux" true strip_fails.
Definition w_strip_fails : @World linux_strip_fails := start linux_strip_fails project tt.

(** Windows, with an old aarch64 binary in the target tree. *)
Definition windows : Host := host "Windows" false healthy_windows.
Definition w_windows_stale : @World windows := start windows project_with_stale_binary tt.

(** Linux without [rustc]. *)
Definition linux_no_rustc : Host := host "Linux" true no_rustc.
Definition w_no_rustc : @World linux_no_rustc := start linux_no_rustc project tt.

(** Linux, everything in place. *)
Definition linux : Host := host "Linux" true healthy.
Definition w_outside_project : @World linux := start linux ∅ tt.
Definition w_stale : @World linux := start linux project_with_stale_binary tt.

(** Linux, hashing fails for one artifact. *)
Definition linux_hash_fails : Host := host "Linux" true one_hash_fails.
Definition w_release : @World linux_hash_fails := start linux_hash_fails project_with_release tt.

(** Linux without a hashing utility. *)
Definition linux_no_sha256sum : Host := host "Linux" true no_sha256sum.
Definition w_release_no_sha256sum : @World linux_no_sha256sum :=
  start linux_no_sha256sum project_with_release tt.

Definition w_release_file : @World linux := start linux project_with_release_file tt.

End Scenario.

(** ** Vocabulary of the further properties *)

Section FurtherVocabulary.

Context {H : Host}.

(** One round of the loop of [install_targets]. *)
Definition install_round (target : string) : M World unit :=
  print_status ("Installing target: " +:+ target) ;;
  run_command (rustup_add target) true ;;
  ret tt.

(** The steps of [main] before the targets are installed. *)
Definition before_install : M World unit :=
  print_status "Starting cross-platform Linux build process..." ;;
  marker <- path_exists ["Cargo.toml"] ;;
  (if negb marker then
     print_error "Please run this script from the project root directory" ;;
     sys_exit 1
   else ret tt) ;;
  installed <- check_rust_installed ;;
  (if negb installed then sys_exit 1 else ret tt).

(** [main] up to and including the installation of the targets in [added]. *)
Definition installed_until (added : list string) : M World unit :=
  before_install ;; for_ added install_round.

Definition reached_install (added : list string) (w : World) : World :=
  snd (installed_until added w).

(** A step that spawns no process but those whose command satisfies [P]. *)
Definition spawns_only {A} (P : list string -> Prop) (m : M World A) : Prop :=
  forall w, exists evs,
    trace (snd (m w)) = trace w ++ evs /\ Forall (fun ev => P (fst ev)) evs.

(** A step that raises [SystemExit] with no code but 1. *)
Definition exits_with_1_only {A} (m : M World A) : Prop :=
  forall w c, fst (m w) = Raise (SystemExit c) -> c = 1.

(** The probe of the build script answers that there is no toolchain: it
    returns [false], the installation hint the last line printed. *)
Definition reports_no_toolchain (w : World) : Prop :=
  fst (check_rust_installed w) = Normal false /\
  last (out (snd (check_rust_installed w))) = Some not_installed_line.

(** The commands of the toolchain probe and of the target installation. *)
Definition setup_command (cmd : list string) : Prop :=
  cmd = rustc_version \/ cmd = cargo_version \/
  exists target, target ∈ targets /\ cmd = rustup_add target.

(** The commands of the build of a configured target. *)
Definition build_command (cmd : list string) : Prop :=
  exists target, target ∈ targets /\
    (cmd = cargo_build target \/ cmd = strip_cmd target).

(** The hashing command of an entry of the output directory that carries
    the prefix. *)
Definition hash_command (cmd : list string) : Prop :=
  exists n, Py.startswith "rbx-studio-mcp-" n = true /\
            cmd = hash_cmd (release_dir ++ [n]).

(** One round of the loop of [display_results]. *)
Definition display_round (item : path) : M World unit :=
  regular <- path_is_file item ;;
  if regular then
    size <- stat_size item ;;
    print ("  " +:+ Fs.name item +:+ ": " +:+ format_mb H size +:+ " MB")
  else ret tt.

(** The line [display_results] prints for an entry: none unless it is a
    regular file. *)
Definition size_lines (t : FS) (item : path) : list string :=
  match Fs.node_at t item with
  | Some (File f) =>
      ["  " +:+ Fs.name item +:+ ": " +:+ format_mb H (String.length (data f)) +:+ " MB"]
  | _ => []
  end.

(** What [display_results] prints last: the manifest, when there is one. *)
Definition manifest_lines (t : FS) : list string :=
  match t !! checksum_file with
  | Some (File f) => [data f]
  | _ => []
  end.

(** The entries of the output directory, as [iterdir] yields them. *)
Definition listing (t : FS) : list path :=
  (fun n => release_dir ++ [n]) <$> Fs.entries t release_dir.

(** The two lines [display_results] starts with, and the heading of the
    manifest. *)
Definition completed_lines : list string :=
  [GREEN +:+ "[SUCCESS]" +:+ NC +:+ " " +:+ "Build completed successfully!";
   BLUE +:+ "[INFO]" +:+ NC +:+ " " +:+ "Release artifacts:"].

Definition checksums_heading : string :=
  BLUE +:+ "[INFO]" +:+ NC +:+ " " +:+ "Checksums:".

(** Whether [build_target] goes on to strip the binary of [target]: [strip]
    is on the search path and the binary exists. *)
Definition strips (target : string) (w : World) : bool :=
  which H "strip" (fs w, env w) && Fs.exists_ (fs w) (binary_path target).

(** *** The test script *)

(** The file at [p] is a regular file whose text contains each of the
    [needles]. *)
Definition has_text (p : path) (needles : list string) (t : FS) : bool :=
  match Fs.node_at t p with
  | Some (File f) => forallb (fun n => TestConfig.contains n (data f)) needles
  | _ => false
  end.

(** Each of the files named in [items] exists. *)
Definition all_present (items : list string) (t : FS) : bool :=
  forallb (fun item => Fs.exists_ t (TestConfig.Path item)) items.

(** What the checks after the toolchain probe look for in the tree, in the
    order of the list of tests. *)
Definition requirements : list (FS -> bool) :=
  [has_text ["Cargo.toml"] ["zenity-dialog"];
   has_text ["src"; "install.rs"] ["zenity_dialog"; TestConfig.target_os_linux];
   (fun t => Fs.exists_ t [".github"; "workflows"; "build-linux.yml"]);
   all_present TestConfig.scripts;
   all_present TestConfig.docs].

Definition configured (t : FS) : bool :=
  forallb (fun P => P t) requirements.

(** The repository passes the test script: the marker is there, the
    compiler answers the version query with status 0, and the tree it
    leaves meets the requirements. *)
Definition ready (w : World) : bool :=
  Fs.exists_ (fs w) ["Cargo.toml"] &&
  exited_zero (outcome rustc_version w) &&
  configured (fst (snd (exec H rustc_version (fs w, env w)))).

(** A check that only reads the tree: it leaves tree, machine and the list
    of spawned processes alone, returns [true] exactly when [P] holds of
    the tree, and does not exit. *)
Definition decides (c : M World bool) (P : FS -> bool) : Prop :=
  forall w,
    state_of (snd (c w)) = state_of w /\
    trace (snd (c w)) = trace w /\
    (fst (c w) = Normal true <-> P (fs w) = true) /\
    (forall code, fst (c w) <> Raise (SystemExit code)).

(** One round of the loop of [main] in the test script. *)
Definition tally_round (test : string * M World bool) (passed : nat) : M World nat :=
  print_status ("Testing " +:+ fst test +:+ "...") ;;
  ok <- snd test ;;
  let passed := if ok then S passed else passed in
  print EmptyString ;;
  ret passed.

(** The steps of [main] in the test script once the tests are counted. *)
Definition report (passed : nat) : M World unit :=
  let total := length (TestConfig.tests (H:=H)) in
  print_status ("Test Results: " +:+ pretty passed +:+ "/" +:+ pretty total +:+
                " tests passed") ;;
  if Nat.eqb passed total then
    print_success "All tests passed! Linux build configuration is ready." ;;
    print EmptyString ;;
    print_status "Next steps:" ;;
    print "1. Push changes to GitHub" ;;
    print "2. GitHub Actions will automatically build Linux binaries" ;;
    print "3. Linux users can download pre-built binaries from releases" ;;
    print "4. Linux users can also build locally using the provided scripts"
  else
    print_error "Some tests failed. Please fix the issues above." ;;
    sys_exit 1.

(** The line a presence check prints for one item. *)
Definition presence_line (found missing : string) (t : FS) (item : string) : string :=
  if Fs.exists_ t (TestConfig.Path item)
  then GREEN +:+ "[SUCCESS]" +:+ NC +:+ " " +:+ (found +:+ item)
  else RED +:+ "[ERROR]" +:+ NC +:+ " " +:+ (missing +:+ item).

End FurtherVocabulary.

(** ** Further test machines *)

Module Cases.

(** A machine on which the aarch64 target cannot be installed. *)
Definition machine_without_aarch64 (cmd : list string) (s : FS * unit)
    : spawn * (FS * unit) :=
  if decide (cmd = rustup_add "aarch64-unknown-linux-gnu")
  then (Completed 1 EmptyString "error: component 'rust-std' is unavailable", s)
  else Scenario.machine Scenario.healthy cmd s.

Definition linux_without_aarch64 : Host :=
  mkHost unit "Linux"
    (fun name _ => String.eqb name "strip")
    machine_without_aarch64
    (fun _ => 1700000200)
    420
    (fun _ _ => "Command returned non-zero exit status")
    (fun _ => "0.00").

Definition w_without_aarch64 : @World linux_without_aarch64 :=
  Scenario.start linux_without_aarch64 Scenario.project tt.

(** The healthy Linux host in the bare project tree. *)
Definition w_project : @World Scenario.linux :=
  Scenario.start Scenario.linux Scenario.project tt.

(** A repository set up for the Linux builds. *)
Definition repository : FS :=
  <[["Cargo.toml"] :=
      File (mkFile ("[target.'cfg(target_os = " +:+ TestConfig.quote +:+ "linux" +:+
                    TestConfig.quote +:+ ")'.dependencies]" +:+ newline +:+
                    "native-dialog = { version = " +:+ TestConfig.quote +:+ "0.8" +:+
                    TestConfig.quote +:+ ", features = [" +:+ TestConfig.quote +:+
                    "zenity-dialog" +:+ TestConfig.quote +:+ "] }")
              420 1700000000)]>
  (<[["src"] := Dir]>
  (<[["src"; "install.rs"] :=
      File (mkFile ("#[cfg(target_os = " +:+ TestConfig.quote +:+ "linux" +:+
                    TestConfig.quote +:+ ")]" +:+ newline +:+
                    "use native_dialog::zenity_dialog;")
              420 1700000000)]>
  (<[[".github"] := Dir]>
  (<[[".github"; "workflows"] := Dir]>
  (<[[".github"; "workflows"; "build-linux.yml"] :=
      File (mkFile "name: Build Linux" 420 1700000000)]>
  (<[["scripts"] := Dir]>
  (<[["scripts"; "build-linux.sh"] := File (mkFile "#!/bin/bash" 493 1700000000)]>
  (<[["scripts"; "build-linux.ps1"] := File (mkFile "# PowerShell" 420 1700000000)]>
  (<[["scripts"; "build-cross-platform.py"] :=
      File (mkFile "#!/usr/bin/env python3" 493 1700000000)]>
  (<[["docs"] := Dir]>
  (<[["docs"; "linux-builds.md"] := File (mkFile "# Linux builds" 420 1700000000)]>
     ∅))))))))))).

Definition w_repository : @World Scenario.linux :=
  Scenario.start Scenario.linux repository tt.

(** The same repository without the PowerShell build script. *)
Definition w_repository_without_ps1 : @World Scenario.linux :=
  Scenario.start Scenario.linux (delete ["scripts"; "build-linux.ps1"] repository) tt.

End Cases.

(** ** Properties *)

Example split_triple :
  Py.split "-" "x86_64-unknown-linux-gnu" = ["x86_64"; "unknown"; "linux"; "gnu"].
Proof. reflexivity. Qed.

Example split_no_separator : Py.split "-" "wasm" = ["wasm"].
Proof. reflexivity. Qed.

Example strip_hash : Py.strip (String "010" "  AB12 " +:+ String "013" (String "010" "")) = "AB12".
Proof. reflexivity. Qed.


Section Properties.

Context {H : Host}.

Implicit Types (w : @World H) (p : list string).

Ltac conjuncts := repeat match goal with |- _ /\ _ => split end.

(** *** Evaluation of the monad *)

Lemma bind_normal {A B} (m : M World A) (k : A -> M World B) w a w' :
  m w = (Normal a, w') -> bind m k w = k a w'.
Proof. intros E. unfold bind. by rewrite E. Qed.

Lemma bind_raise {A B} (m : M World A) (k : A -> M World B) w e w' :
  m w = (Raise e, w') -> bind m k w = (Raise e, w').
Proof. intros E. unfold bind. by rewrite E. Qed.

Lemma for_app {A} (xs ys : list A) (body : A -> M World unit) w :
  for_ (xs ++ ys) body w = bind (for_ xs body) (fun _ => for_ ys body) w.
Proof.
  revert w. induction xs as [|x xs IH]; intros w; simpl.
  - reflexivity.
  - unfold bind in *. destruct (body x w) as [[[]|e] w1]; [apply IH | reflexivity].
Qed.

(** *** Printing and running commands *)


Lemma print_eq s w : print s w = (Normal tt, printed [s] w).
Proof. reflexivity. Qed.


Lemma run_command_eq cmd w :
  run_command cmd true w =
  (run_outcome cmd (fst (exec H cmd (fs w, env w))), after_run cmd w).
Proof.
  unfold run_command, after_run, run_outcome, run_log, bind, try_except,
    subprocess_run, print_status, print_error, print, when, raise, ret; simpl.
  destruct (exec H cmd (fs w, env w)) as [[|rc so se] [t e]]; simpl.
  - reflexivity.
  - destruct (rc =? 0) eqn:Erc; simpl.
    + destruct (Py.truthy so); simpl; by rewrite <- ?app_assoc.
    + destruct (Py.truthy se); simpl; by rewrite <- ?app_assoc.
Qed.

Lemma run_outcome_normal cmd r :
  exited_zero r = true ->
  exists c, run_outcome cmd r = Normal c.
Proof.
  destruct r as [|rc so se]; simpl; [done|]. intros ->. eauto.
Qed.

Lemma run_outcome_raise cmd r :
  exited_zero r = false -> run_outcome cmd r = Raise (failure cmd r).
Proof. destruct r as [|rc so se]; simpl; [done|]. by intros ->. Qed.


(** *** The toolchain probe *)

Lemma check_rust_installed_eq w :
  check_rust_installed w =
  let w1 := after_run rustc_version w in
  if exited_zero (fst (exec H rustc_version (fs w, env w))) then
    let w2 := after_run cargo_version w1 in
    if exited_zero (fst (exec H cargo_version (fs w1, env w1)))
    then (Normal true, w2)
    else (Normal false, printed [not_installed_line] w2)
  else (Normal false, printed [not_installed_line] w1).
Proof.
  unfold check_rust_installed, try_except, bind. rewrite run_command_eq.
  destruct (fst (exec H rustc_version (fs w, env w))) as [|rc so se] eqn:E1; simpl.
  - reflexivity.
  - destruct (rc =? 0) eqn:Erc; simpl; [|reflexivity].
    rewrite run_command_eq.
    destruct (fst (exec H cargo_version _)) as [|rc2 so2 se2] eqn:E2; simpl.
    + reflexivity.
    + destruct (rc2 =? 0); reflexivity.
Qed.

Lemma spawned_since_app w0 w l :
  trace w = trace w0 ++ l -> spawned_since w0 w = l.
Proof. unfold spawned_since. intros ->. apply drop_app_length. Qed.

Lemma failed_probe_run w r1 s1 r2 s2 :
  Fs.exists_ (fs w) ["Cargo.toml"] = true ->
  exec H rustc_version (fs w, env w) = (r1, s1) ->
  exec H cargo_version s1 = (r2, s2) ->
  exited_zero r1 && exited_zero r2 = false ->
  fst (main w) = Raise (SystemExit 1) /\
  exit_status (fst (main w)) = 1 /\
  spawned_since w (snd (main w)) =
    (if exited_zero r1 then [(rustc_version, r1); (cargo_version, r2)]
     else [(rustc_version, r1)]) /\
  (fs (snd (main w)), env (snd (main w))) = (if exited_zero r1 then s2 else s1).
Proof.
  intros Em E1 E2 Ef.
  unfold main, bind, print_status, print_error, print, path_exists, gets,
    sys_exit, raise, ret; simpl.
  rewrite Em; simpl. rewrite check_rust_installed_eq.
  unfold after_run, printed; simpl. rewrite !E1; simpl.
  destruct s1 as [t1 e1], s2 as [t2 e2]; simpl. rewrite !E2; simpl.
  destruct (exited_zero r1) eqn:Z1; simpl.
  - simpl in Ef. rewrite Ef; simpl.
    repeat split; try reflexivity.
    apply spawned_since_app; simpl. by rewrite <- app_assoc.
  - repeat split; try reflexivity.
    by apply spawned_since_app.
Qed.

(** C6, as the script behaves: when the version query of the compiler or of
    the package manager does not exit with status 0, [main] exits with
    status 1; the compiler is queried once, the package manager once if the
    compiler answered and not at all otherwise, and no other process is
    spawned. *)
Theorem failed_probe_exits_at_first_failure w :
  Fs.exists_ (fs w) ["Cargo.toml"] = true ->
  exited_zero (outcome rustc_version w) &&
    exited_zero (outcome cargo_version (after_run rustc_version w)) = false ->
  fst (main w) = Raise (SystemExit 1) /\
  exit_status (fst (main w)) = 1 /\
  spawned_since w (snd (main w)) =
    (if exited_zero (outcome rustc_version w)
     then [(rustc_version, outcome rustc_version w);
           (cargo_version, outcome cargo_version (after_run rustc_version w))]
     else [(rustc_version, outcome rustc_version w)]) /\
  state_of (snd (main w)) =
    state_of (if exited_zero (outcome rustc_version w)
              then after_run cargo_version (after_run rustc_version w)
              else after_run rustc_version w).
Proof.
  intros Em Ef. unfold outcome, state_of, after_run in *. cbn [fs env] in *.
  destruct (exec H rustc_version (fs w, env w)) as [r1 [t1 e1]] eqn:E1.
  cbn [fst snd] in *.
  destruct (exec H cargo_version (t1, e1)) as [r2 [t2 e2]] eqn:E2.
  cbn [fst snd] in *.
  destruct (failed_probe_run w r1 (t1, e1) r2 (t2, e2) Em E1 E2 Ef)
    as (Hr & Hx & Hsp & Hst).
  conjuncts; try done. rewrite Hst. by destruct (exited_zero r1).
Qed.

(** *** Building one target *)

Lemma target_os_of_eq target w :
  target_os_of target w =
  match derive_os target with
  | Some o => (Normal o, w)
  | None => (Raise IndexError, w)
  end.
Proof.
  unfold target_os_of, derive_os, index.
  destruct (Py.contains "-" target); [|reflexivity].
  by destruct (nth_error _ 2).
Qed.

Lemma build_target_eq target w :
  build_target target w =
  let w0 := printed [BLUE +:+ "[INFO]" +:+ NC +:+ " " +:+ ("Building for " +:+ target +:+ "...")] w in
  match derive_os target with
  | None => (Raise IndexError, w0)
  | Some o =>
      if skips target then
        (Normal tt,
         printed [YELLOW +:+ "[WARNING]" +:+ NC +:+ " " +:+
                    "Cross-compiling from Windows to Linux is not supported in this script.";
                  YELLOW +:+ "[WARNING]" +:+ NC +:+ " " +:+
                    "Please use the GitHub Actions workflow or build on a Linux system.";
                  BLUE +:+ "[INFO]" +:+ NC +:+ " " +:+ "Skipping build for this target..."] w0)
      else
        let r := fst (exec H (cargo_build target) (fs w, env w)) in
        let w1 := after_run (cargo_build target) w0 in
        if exited_zero r then
          if which H "strip" (fs w1, env w1) && Fs.exists_ (fs w1) (binary_path target) then
            let w2 := printed [BLUE +:+ "[INFO]" +:+ NC +:+ " " +:+
                                 ("Stripping " +:+ target +:+ " binary...")] w1 in
            let r2 := fst (exec H (strip_cmd target) (fs w1, env w1)) in
            (if exited_zero r2 then Normal tt else Raise (failure (strip_cmd target) r2),
             after_run (strip_cmd target) w2)
          else (Normal tt, w1)
        else (Raise (failure (cargo_build target) r), w1)
  end.
Proof.
  unfold build_target, bind, print_status, print_warning, print, shutil_which,
    path_exists, gets, ret, skips, printed; simpl.
  rewrite target_os_of_eq.
  destruct (derive_os target) as [o|]; simpl; [|reflexivity].
  destruct (String.eqb (Py.lower (platform_system H)) "windows" && String.eqb o "linux")%bool.
  - simpl. by rewrite <- !app_assoc.
  - rewrite run_command_eq. simpl.
    destruct (exited_zero (exec H (cargo_build target) (fs w, env w)).1) eqn:Z.
    + destruct (run_outcome_normal (cargo_build target) _ Z) as [c ->].
      destruct (which H "strip" _ && Fs.exists_ _ (binary_path target))%bool; [|reflexivity].
      rewrite run_command_eq; simpl.
      destruct (exited_zero (exec H (strip_cmd target) _).1) eqn:Z2.
      * by destruct (run_outcome_normal (strip_cmd target) _ Z2) as [c2 ->].
      * by rewrite (run_outcome_raise _ _ Z2).
    + by rewrite (run_outcome_raise _ _ Z).
Qed.

(** *** The shape of [main] *)

Lemma bind_assoc {A B C} (m : M World A) (k : A -> M World B) (k' : B -> M World C) w :
  bind (bind m k) k' w = bind m (fun a => bind (k a) k') w.
Proof. unfold bind. by destruct (m w) as [[a|e] w1]. Qed.

Lemma main_split w : main w = bind (main_until targets) (fun _ => after_builds) w.
Proof.
  unfold main, main_until, startup, after_builds.
  unfold bind. repeat case_match; simplify_eq; done.
Qed.

Lemma main_until_app xs ys w :
  main_until (xs ++ ys) w = bind (main_until xs) (fun _ => for_ ys build_target) w.
Proof.
  unfold main_until. rewrite bind_assoc. unfold bind at 1 2.
  destruct (startup w) as [[[]|e] w1]; [apply for_app | reflexivity].
Qed.

Lemma reached_eq built w :
  fst (main_until built w) = Normal tt ->
  main_until built w = (Normal tt, reached built w).
Proof. unfold reached. by destruct (main_until built w) as [r w1]; simpl; intros ->. Qed.

Lemma main_reaches w built target rest :
  targets = built ++ target :: rest ->
  fst (main_until built w) = Normal tt ->
  main w =
  bind (build_target target)
    (fun _ => bind (for_ rest build_target) (fun _ => after_builds))
    (reached built w).
Proof.
  intros Ht Hr%reached_eq. set (w1 := reached built w) in *.
  rewrite main_split, Ht.
  unfold bind at 1. rewrite main_until_app, (bind_normal _ _ _ _ _ Hr). simpl.
  unfold bind. by destruct (build_target target w1) as [[[]|e] w2].
Qed.

Lemma configured_os target : target ∈ targets -> derive_os target = Some "linux".
Proof.
  unfold targets. rewrite !elem_of_cons, elem_of_nil.
  intros [->|[->|[]]]; reflexivity.
Qed.


Lemma failed_build_run w built target rest r s :
  targets = built ++ target :: rest ->
  fst (main_until built w) = Normal tt ->
  skips target = false ->
  exec H (cargo_build target) (fs (reached built w), env (reached built w)) = (r, s) ->
  exited_zero r = false ->
  fst (main w) = Raise (failure (cargo_build target) r) /\
  exit_status (fst (main w)) = 1 /\
  trace (snd (main w)) = trace (reached built w) ++ [(cargo_build target, r)] /\
  (fs (snd (main w)), env (snd (main w))) = s.
Proof.
  intros Ht Hr Hs E Z. set (w1 := reached built w) in *.
  assert (target ∈ targets) as Hin by (rewrite Ht; set_solver).
  assert (exists o, main w =
    (Raise (failure (cargo_build target) r),
     mkWorld (fst s) (snd s) o (trace w1 ++ [(cargo_build target, r)]))) as [o Hm].
  { rewrite (main_reaches _ _ _ _ Ht Hr). fold w1.
    unfold bind at 1. rewrite build_target_eq, (configured_os _ Hin), Hs; simpl.
    unfold after_run; simpl. rewrite !E; simpl. rewrite Z. eauto. }
  rewrite Hm; simpl. by destruct r, s.
Qed.

Lemma strip_run w built target rest r1 s1 r2 s2 :
  targets = built ++ target :: rest ->
  fst (main_until built w) = Normal tt ->
  skips target = false ->
  exec H (cargo_build target) (fs (reached built w), env (reached built w)) = (r1, s1) ->
  exited_zero r1 = true ->
  which H "strip" s1 = true ->
  Fs.exists_ (fst s1) (binary_path target) = true ->
  exec H (strip_cmd target) s1 = (r2, s2) ->
  trace (reached (built ++ [target]) w) =
    trace (reached built w) ++ [(cargo_build target, r1); (strip_cmd target, r2)] /\
  (exited_zero r2 = false ->
   fst (main w) = Raise (failure (strip_cmd target) r2) /\
   exit_status (fst (main w)) = 1 /\
   trace (snd (main w)) =
     trace (reached built w) ++ [(cargo_build target, r1); (strip_cmd target, r2)] /\
   (fs (snd (main w)), env (snd (main w))) = s2).
Proof.
  intros Ht Hr Hs E1 Z1 Hw Hb E2. set (w1 := reached built w) in *.
  destruct s1 as [t1 e1], s2 as [t2 e2]. cbn [fst snd] in *.
  assert (target ∈ targets) as Hin by (rewrite Ht; set_solver).
  assert (exists o, build_target target w1 =
    (if exited_zero r2 then Normal tt else Raise (failure (strip_cmd target) r2),
     mkWorld t2 e2 o
       (trace w1 ++ [(cargo_build target, r1); (strip_cmd target, r2)]))) as [o Hb1].
  { rewrite build_target_eq, (configured_os _ Hin), Hs; simpl.
    unfold after_run; simpl. rewrite !E1; simpl. rewrite Z1; simpl.
    rewrite Hw, Hb; simpl.
    rewrite !E2; simpl. eexists. f_equal. f_equal. by rewrite <- app_assoc. }
  split.
  - unfold reached at 1.
    rewrite main_until_app, (bind_normal _ _ _ _ _ (reached_eq _ _ Hr)). simpl.
    fold w1. unfold bind. rewrite Hb1. by destruct (exited_zero r2).
  - intros Z2.
    assert (main w =
      (Raise (failure (strip_cmd target) r2),
       mkWorld t2 e2 o
         (trace w1 ++ [(cargo_build target, r1); (strip_cmd target, r2)]))) as Hm.
    { rewrite (main_reaches _ _ _ _ Ht Hr). fold w1.
      unfold bind at 1. by rewrite Hb1, Z2. }
    rewrite Hm; simpl. by destruct r2.
Qed.

(** C1, as the script behaves: when the release build of a configured
    target does not exit with status 0, the exception of [run_command]
    leaves [main]: the exit status is 1, the failed build is the last
    process of the run, and the tree is as that process left it, so no
    later target is built and nothing is collected or hashed. *)
Theorem failed_build_aborts_the_run w built target rest :
  targets = built ++ target :: rest ->
  fst (main_until built w) = Normal tt ->
  skips target = false ->
  exited_zero (outcome (cargo_build target) (reached built w)) = false ->
  fst (main w) =
    Raise (failure (cargo_build target)
             (outcome (cargo_build target) (reached built w))) /\
  exit_status (fst (main w)) = 1 /\
  trace (snd (main w)) =
    trace (reached built w) ++
    [(cargo_build target, outcome (cargo_build target) (reached built w))] /\
  state_of (snd (main w)) =
    state_of (after_run (cargo_build target) (reached built w)).
Proof.
  intros Ht Hr Hs Z. unfold outcome, state_of, after_run in *; cbn [fs env].
  destruct (exec H (cargo_build target) (fs (reached built w), env (reached built w)))
    as [r [t e]] eqn:E.
  exact (failed_build_run w built target rest r (t, e) Ht Hr Hs E Z).
Qed.

(** C3, as the script behaves: after a release build that exited with
    status 0, with [strip] on the search path and the binary in place,
    [strip] is run on the binary; when it does not exit with status 0 the
    exception of [run_command] leaves [main]: the exit status is 1, [strip]
    is the last process of the run and the tree is as it left it. *)
Theorem strip_runs_and_its_failure_aborts w built target rest :
  targets = built ++ target :: rest ->
  fst (main_until built w) = Normal tt ->
  skips target = false ->
  exited_zero (outcome (cargo_build target) (reached built w)) = true ->
  which H "strip" (state_of (after_run (cargo_build target) (reached built w))) = true ->
  Fs.exists_ (fs (after_run (cargo_build target) (reached built w)))
    (binary_path target) = true ->
  trace (reached (built ++ [target]) w) =
    trace (reached built w) ++
    [(cargo_build target, outcome (cargo_build target) (reached built w));
     (strip_cmd target,
      outcome (strip_cmd target) (after_run (cargo_build target) (reached built w)))] /\
  (exited_zero
     (outcome (strip_cmd target) (after_run (cargo_build target) (reached built w)))
   = false ->
   fst (main w) =
     Raise (failure (strip_cmd target)
              (outcome (strip_cmd target)
                 (after_run (cargo_build target) (reached built w)))) /\
   exit_status (fst (main w)) = 1 /\
   trace (snd (main w)) =
     trace (reached built w) ++
     [(cargo_build target, outcome (cargo_build target) (reached built w));
      (strip_cmd target,
       outcome (strip_cmd target) (after_run (cargo_build target) (reached built w)))] /\
   state_of (snd (main w)) =
     state_of (after_run (strip_cmd target)
                 (after_run (cargo_build target) (reached built w)))).
Proof.
  intros Ht Hr Hs Z1 Hw Hb. unfold outcome, state_of, after_run in *.
  cbn [fs env] in *.
  destruct (exec H (cargo_build target) (fs (reached built w), env (reached built w)))
    as [r1 [t1 e1]] eqn:E1.
  cbn [fst snd] in *.
  destruct (exec H (strip_cmd target) (t1, e1)) as [r2 [t2 e2]] eqn:E2.
  cbn [fst snd] in *.
  exact (strip_run w built target rest r1 (t1, e1) r2 (t2, e2) Ht Hr Hs E1 Z1 Hw Hb E2).
Qed.

(** *** Collecting the binaries *)

Lemma append_inj_r (p a b : string) : p +:+ a = p +:+ b -> a = b.
Proof.
  induction p as [|c p IH]; [done|].
  unfold String.append; fold String.append. intros [= E]. by apply IH.
Qed.

Lemma artifact_inj x y : artifact x = artifact y -> x = y.
Proof. unfold artifact, release_dir. intros [= E]. by apply append_inj_r in E. Qed.

Lemma binary_not_artifact x y : binary_path x <> artifact y.
Proof. unfold binary_path, artifact, release_dir. discriminate. Qed.

Lemma collect_lookup_other (t : FS) target p :
  p <> artifact target -> collect t target !! p = t !! p.
Proof.
  intros Hp. unfold collect.
  destruct (t !! binary_path target) as [[f|]|]; try done.
  by rewrite lookup_insert_ne.
Qed.

Lemma collect_lookup_artifact (t : FS) x :
  collect t x !! artifact x =
  match t !! binary_path x with
  | Some (File f) => Some (File (collected f))
  | _ => t !! artifact x
  end.
Proof.
  unfold collect. destruct (t !! binary_path x) as [[f|]|]; try done.
  by rewrite lookup_insert_eq.
Qed.

Lemma collect_all_other (t : FS) ts p :
  (forall x, x ∈ ts -> p <> artifact x) -> foldl collect t ts !! p = t !! p.
Proof.
  revert t. induction ts as [|a ts IH]; intros t Hp; simpl; [done|].
  rewrite IH by (intros x Hx; apply Hp; set_solver).
  apply collect_lookup_other, Hp. set_solver.
Qed.


Lemma collect_all_artifact (t : FS) ts x :
  x ∈ ts ->
  foldl collect t ts !! artifact x =
  match t !! binary_path x with
  | Some (File f) => Some (File (collected f))
  | _ => t !! artifact x
  end.
Proof.
  revert t. induction ts as [|a ts IH]; intros t Hx; [set_solver|]. simpl.
  destruct (decide (x ∈ ts)) as [Hin|Hnin].
  - rewrite (IH _ Hin).
    rewrite (collect_lookup_other _ _ (binary_path x)) by apply binary_not_artifact.
    destruct (t !! binary_path x) as [[f|]|] eqn:E; try done.
    + destruct (decide (a = x)) as [->|Hne].
      * by rewrite collect_lookup_artifact, E.
      * apply collect_lookup_other. intros E'. by apply artifact_inj in E'.
    + destruct (decide (a = x)) as [->|Hne].
      * by rewrite collect_lookup_artifact, E.
      * apply collect_lookup_other. intros E'. by apply artifact_inj in E'.
  - apply elem_of_cons in Hx as [->|?]; [|done].
    rewrite collect_all_other.
    + apply collect_lookup_artifact.
    + intros y Hy E'. apply artifact_inj in E'. by subst.
Qed.

Lemma copy_binaries_unfold :
  copy_binaries = bind (mkdir_exist_ok release_dir) (fun _ => for_ targets copy_round).
Proof. reflexivity. Qed.

Lemma copy_round_eq w target :
  Fs.is_dir (fs w) release_dir = true ->
  Fs.is_dir (fs w) (binary_path target) = false ->
  Fs.is_dir (fs w) (artifact target) = false ->
  copy_round target w =
  (Normal tt,
   mkWorld (collect (fs w) target) (env w)
     (out w ++ [copy_report (fs w) target]) (trace w)).
Proof.
  unfold Fs.is_dir, Fs.node_at, release_dir, artifact, binary_path; simpl.
  intros Hrel Hsrc Hdst.
  unfold copy_round, collect, copy_report, collected, bind, path_exists, gets,
    copy2, chmod, create, when, print_success, print_error, print, set_fs, ret,
    Fs.exists_, Fs.is_dir, Fs.node_at, Fs.parent, release_dir, artifact,
    binary_path; simpl.
  destruct (fs w !! ["release"]) as [[|]|] eqn:Er; try done.
  destruct (fs w !! ["target"; target; "release"; "rbx-studio-mcp"])
    as [[f|]|] eqn:Es; simpl; try done.
  destruct (fs w !! ["release"; "rbx-studio-mcp-" +:+ target]) as [[g|]|] eqn:Ed;
    simpl; try done;
    rewrite ?Es, ?Ed, ?Er; simpl;
    (destruct (String.eqb (platform_system H) "Windows"); simpl;
     [reflexivity|]);
    rewrite lookup_insert_eq; simpl; by rewrite insert_insert_eq.
Qed.

Lemma node_at_artifact (t : FS) a : Fs.node_at t (artifact a) = t !! artifact a.
Proof. reflexivity. Qed.

Lemma node_at_binary (t : FS) a : Fs.node_at t (binary_path a) = t !! binary_path a.
Proof. reflexivity. Qed.

Lemma node_at_release (t : FS) : Fs.node_at t release_dir = t !! release_dir.
Proof. reflexivity. Qed.

Lemma node_at_checksum (t : FS) : Fs.node_at t checksum_file = t !! checksum_file.
Proof. reflexivity. Qed.

Lemma collect_is_dir (t : FS) a p :
  Fs.is_dir t (artifact a) = false ->
  Fs.is_dir (collect t a) p = Fs.is_dir t p.
Proof.
  intros Ha. destruct p as [|c p]; [done|].
  destruct (decide (c :: p = artifact a)) as [->|Hne].
  - rewrite Ha. unfold Fs.is_dir in *. rewrite node_at_artifact in *.
    rewrite collect_lookup_artifact.
    destruct (t !! binary_path a) as [[f|]|]; done.
  - unfold Fs.is_dir, Fs.node_at. by rewrite collect_lookup_other.
Qed.

Lemma collect_exists_binary (t : FS) a x :
  Fs.exists_ (collect t a) (binary_path x) = Fs.exists_ t (binary_path x).
Proof.
  unfold Fs.exists_. rewrite !node_at_binary.
  rewrite collect_lookup_other; [done|apply binary_not_artifact].
Qed.

Lemma copy_loop ts w :
  Fs.is_dir (fs w) release_dir = true ->
  (forall x, x ∈ ts ->
     Fs.is_dir (fs w) (binary_path x) = false /\
     Fs.is_dir (fs w) (artifact x) = false) ->
  for_ ts copy_round w =
  (Normal tt,
   mkWorld (foldl collect (fs w) ts) (env w)
     (out w ++ map (copy_report (fs w)) ts) (trace w)).
Proof.
  revert w. induction ts as [|a ts IH]; intros w Hrel Hts; simpl.
  - unfold ret. rewrite app_nil_r. by destruct w.
  - destruct (Hts a) as [Hsa Hda]; [apply list_elem_of_here|].
    unfold bind. rewrite copy_round_eq by done.
    rewrite IH; simpl.
    + rewrite <- app_assoc. simpl. do 4 f_equal.
      apply map_ext. intros x. unfold copy_report.
      by rewrite collect_exists_binary.
    + by rewrite collect_is_dir.
    + intros x Hx. rewrite !collect_is_dir by done.
      by apply Hts, list_elem_of_further.
Qed.

Lemma with_release_dir_other (t : FS) p :
  p <> release_dir -> with_release_dir t !! p = t !! p.
Proof.
  intros Hp. unfold with_release_dir.
  destruct (t !! release_dir); [done|]. by rewrite lookup_insert_ne.
Qed.

Lemma regular_layout_spec (t : FS) :
  regular_layout t = true ->
  Fs.is_file t release_dir = false /\
  forall x, x ∈ targets ->
    Fs.is_dir t (binary_path x) = false /\ Fs.is_dir t (artifact x) = false.
Proof.
  unfold regular_layout. rewrite andb_true_iff, negb_true_iff, forallb_forall.
  intros [Hr Hall]. split; [done|]. intros x Hx.
  apply list_elem_of_In, Hall in Hx.
  by rewrite andb_true_iff, !negb_true_iff in Hx.
Qed.

Lemma copy_binaries_eq w :
  regular_layout (fs w) = true ->
  copy_binaries w =
  (Normal tt,
   mkWorld (foldl collect (with_release_dir (fs w)) targets) (env w)
     (out w ++ map (copy_report (fs w)) targets) (trace w)).
Proof.
  intros [Hrel Hts]%regular_layout_spec.
  rewrite copy_binaries_unfold. unfold bind.
  assert (mkdir_exist_ok release_dir w =
    (Normal tt, mkWorld (with_release_dir (fs w)) (env w) (out w) (trace w))) as ->.
  { unfold mkdir_exist_ok, create, with_release_dir, set_fs, Fs.is_file, Fs.node_at,
      Fs.parent, release_dir in *; simpl in *.
    destruct (fs w !! ["release"]) as [[|]|]; try done. by destruct w. }
  rewrite copy_loop; cbn [fs env out trace].
  - do 3 f_equal. apply map_ext. intros x. unfold copy_report, Fs.exists_.
    rewrite !node_at_binary. by rewrite with_release_dir_other.
  - unfold with_release_dir, Fs.is_dir, Fs.node_at, release_dir.
    destruct (fs w !! ["release"]) as [[|]|] eqn:E; simpl; rewrite ?E; try done.
    + unfold Fs.is_file, Fs.node_at, release_dir in Hrel. by rewrite E in Hrel.
    + by rewrite lookup_insert_eq.
  - intros x Hx. destruct (Hts x Hx) as [Hs Hd].
    unfold Fs.is_dir, Fs.node_at, binary_path, artifact, release_dir in *; simpl in *.
    rewrite !with_release_dir_other by done. done.
Qed.

Lemma copy_binaries_release w :
  regular_layout (fs w) = true ->
  Fs.is_dir (fs (snd (copy_binaries w))) release_dir = true.
Proof.
  intros Hl. rewrite copy_binaries_eq by done. cbn [snd fs].
  destruct (regular_layout_spec _ Hl) as [Hrel _].
  unfold Fs.is_dir. rewrite node_at_release.
  rewrite collect_all_other by (intros x _; unfold artifact, release_dir; discriminate).
  unfold Fs.is_file in Hrel. rewrite node_at_release in Hrel.
  unfold with_release_dir.
  destruct (fs w !! release_dir) as [[|]|] eqn:E; rewrite ?E; try done.
  by rewrite lookup_insert_eq.
Qed.

Lemma copy_binaries_artifact w target :
  regular_layout (fs w) = true ->
  target ∈ targets ->
  fs (snd (copy_binaries w)) !! artifact target =
  match fs w !! binary_path target with
  | Some (File f) => Some (File (collected f))
  | _ => fs w !! artifact target
  end.
Proof.
  intros Hl Hin. rewrite copy_binaries_eq by done. cbn [snd fs].
  rewrite collect_all_artifact by done.
  rewrite !with_release_dir_other; [done|..];
    unfold artifact, binary_path, release_dir; discriminate.
Qed.

(** C8: on a regular layout [copy_binaries] returns normally and leaves the
    output directory in place; for a configured target whose binary exists
    the artifact holds the content and the modification time of the binary,
    with mode 0755 unless the host is Windows, and a success line is
    printed; for a target whose binary is absent the artifact path is left
    as it was and an error line naming the missing path is printed. *)
Theorem copy_binaries_collects w :
  regular_layout (fs w) = true ->
  exists w',
    copy_binaries w = (Normal tt, w') /\
    Fs.is_dir (fs w') release_dir = true /\
    forall target, target ∈ targets ->
      match fs w !! binary_path target with
      | Some (File f) =>
          (exists g, fs w' !! artifact target = Some (File g) /\
             data g = data f /\ mtime g = mtime f /\
             mode g = if String.eqb (platform_system H) "Windows" then mode f else 493%N) /\
          (GREEN +:+ "[SUCCESS]" +:+ NC +:+ " " +:+ "Copied " +:+ target +:+ " binary")
            ∈ out w'
      | _ =>
          fs w' !! artifact target = fs w !! artifact target /\
          (RED +:+ "[ERROR]" +:+ NC +:+ " " +:+
             "Binary not found: " +:+ path_str (binary_path target)) ∈ out w'
      end.
Proof.
  intros Hl. exists (snd (copy_binaries w)). split; [|split].
  - by rewrite copy_binaries_eq.
  - by apply copy_binaries_release.
  - intros target Hin. rewrite copy_binaries_artifact by done.
    destruct (regular_layout_spec _ Hl) as [_ Hts].
    destruct (Hts _ Hin) as [Hsrc _].
    assert (copy_report (fs w) target ∈ out (snd (copy_binaries w))) as Hout.
    { rewrite copy_binaries_eq by done. cbn [snd out].
      apply elem_of_app. right. apply list_elem_of_fmap. eauto. }
    unfold copy_report, Fs.exists_ in Hout. unfold Fs.is_dir in Hsrc.
    rewrite node_at_binary in Hout, Hsrc.
    destruct (fs w !! binary_path target) as [[f|]|]; try done.
    split; [|done]. exists (collected f). unfold collected.
    by destruct (String.eqb (platform_system H) "Windows").
Qed.

(** C4, as the script behaves: for a triple whose OS component can be
    derived, the build is skipped exactly when the host is Windows and the
    component is linux.  A skipped build returns without spawning a process
    or touching the tree, and for a configured target without a binary at
    the expected build path the collection step then leaves the artifact
    path as it was.  A build that is not skipped starts by spawning the
    release build of the target. *)
Theorem skip_policy w target o :
  derive_os target = Some o ->
  (skips target = true <->
   Py.lower (platform_system H) = "windows" /\ o = "linux") /\
  (skips target = true ->
   fst (build_target target w) = Normal tt /\
   spawned_since w (snd (build_target target w)) = [] /\
   fs (snd (build_target target w)) = fs w /\
   (target ∈ targets ->
    regular_layout (fs w) = true ->
    Fs.exists_ (fs w) (binary_path target) = false ->
    fs (snd (copy_binaries (snd (build_target target w)))) !! artifact target =
    fs w !! artifact target)) /\
  (skips target = false ->
   exists later,
     spawned_since w (snd (build_target target w)) =
     (cargo_build target, fst (exec H (cargo_build target) (fs w, env w))) :: later).
Proof.
  intros Ho. split; [|split].
  - unfold skips. rewrite Ho, andb_true_iff, !String.eqb_eq. done.
  - intros Hs. rewrite build_target_eq, Ho, Hs. cbn [fst snd fs printed].
    repeat split.
    + apply spawned_since_app. simpl. by rewrite app_nil_r.
    + intros Hin Hl Hb. rewrite copy_binaries_artifact by done.
      unfold printed; cbn [fs]. unfold Fs.exists_ in Hb.
      rewrite node_at_binary in Hb.
      by destruct (fs w !! binary_path target).
  - intros Hs. rewrite build_target_eq, Ho, Hs. cbn zeta.
    destruct (exited_zero _).
    + destruct (_ && _)%bool.
      * eexists. apply spawned_since_app. cbn [snd trace after_run printed].
        rewrite <- app_assoc. reflexivity.
      * exists []. by apply spawned_since_app.
    + exists []. by apply spawned_since_app.
Qed.

(** *** Directory listings *)

Lemma child_name_spec d p n : Fs.child_name d p = Some n <-> p = d ++ [n].
Proof.
  revert p. induction d as [|x d IH]; intros p; simpl.
  - destruct p as [|y [|z p]]; naive_solver.
  - destruct p as [|y p]; [split; intros E; discriminate E|].
    destruct (String.eqb_spec x y) as [->|Hne].
    + rewrite IH. split; [by intros ->|by intros [= ->]].
    + split; [done|]. intros [= E _]. by destruct Hne.
Qed.

Lemma elem_of_entries (t : FS) d n :
  n ∈ Fs.entries t d <-> is_Some (t !! (d ++ [n])).
Proof.
  unfold Fs.entries. rewrite list_elem_of_omap. split.
  - intros [[p x] [Hin Hc]]. simpl in Hc. apply child_name_spec in Hc as ->.
    apply elem_of_map_to_list in Hin. eauto.
  - intros [x Hx]. exists (d ++ [n], x). split.
    + by apply elem_of_map_to_list.
    + by apply child_name_spec.
Qed.

Lemma NoDup_entries (t : FS) d : NoDup (Fs.entries t d).
Proof.
  unfold Fs.entries. pose proof (NoDup_fst_map_to_list t) as Hnd.
  induction (map_to_list t) as [|[p x] l IH]; simpl in *; [constructor|].
  apply NoDup_cons in Hnd as [Hp Hl].
  destruct (Fs.child_name d p) as [n|] eqn:E; simpl; [|by apply IH].
  apply NoDup_cons. split; [|by apply IH].
  rewrite list_elem_of_omap. intros [[p' x'] [Hin Hc]]. simpl in Hc.
  apply child_name_spec in E, Hc. subst. apply Hp.
  apply list_elem_of_fmap. by exists (d ++ [n], x').
Qed.

Lemma elem_of_globbed (t : FS) p :
  p ∈ globbed t <->
  exists n, p = release_dir ++ [n] /\
            Py.startswith "rbx-studio-mcp-" n = true /\ is_Some (t !! p).
Proof.
  unfold globbed. rewrite list_elem_of_fmap. split.
  - intros [n [-> Hn]]. apply list_elem_of_filter in Hn as [Hp Hn].
    apply elem_of_entries in Hn. exists n. by rewrite <- Is_true_true.
  - intros [n (-> & Hp & Hn)]. exists n. split; [done|].
    apply list_elem_of_filter. split; [by apply Is_true_true|].
    by apply elem_of_entries.
Qed.

Lemma NoDup_globbed (t : FS) : NoDup (globbed t).
Proof.
  unfold globbed. apply NoDup_fmap_2_strong.
  - intros x y _ _ E. by simplify_list_eq.
  - apply NoDup_filter, NoDup_entries.
Qed.

Lemma checksum_not_globbed (t : FS) : checksum_file ∉ globbed t.
Proof.
  rewrite elem_of_globbed. intros [n (E & Hp & _)].
  unfold checksum_file, release_dir in E. simplify_list_eq.
Qed.

(** *** Writing the manifest *)

Lemma create_checksums_unfold :
  create_checksums =
  bind (print_status "Creating checksums...") (fun _ =>
  bind (open_w checksum_file) (fun _ =>
  bind (glob release_dir "rbx-studio-mcp-") (fun binaries =>
  for_ binaries checksum_round))).
Proof. reflexivity. Qed.

Lemma append_assoc (a b c : string) : (a +:+ b) +:+ c = a +:+ (b +:+ c).
Proof.
  induction a as [|x a IH]; [done|].
  unfold String.append; fold String.append. by rewrite IH.
Qed.

Lemma append_empty_r (a : string) : a +:+ EmptyString = a.
Proof.
  induction a as [|x a IH]; [done|].
  unfold String.append; fold String.append. by rewrite IH.
Qed.

Lemma manifest_text_cons h hs :
  manifest_text (h :: hs) =
  match manifest_entry h with
  | Some line => line +:+ manifest_text hs
  | None => manifest_text hs
  end.
Proof. unfold manifest_text, manifest_entries. simpl. by destruct (manifest_entry h). Qed.

Lemma checksum_round_step w m b :
  hashing_reads_only ->
  fs w !! checksum_file = Some (File m) ->
  checksum_round b w =
  if Fs.is_file (fs w) b then
    let x := exec H (hash_cmd b) (fs w, env w) in
    (if started (fst x) then Normal tt else Raise FileNotFoundError,
     mkWorld
       (<[checksum_file := File (extended m (b, fst x) (now H (snd (snd x))))]> (fs w))
       (snd (snd x)) (out w) (trace w ++ [(hash_cmd b, fst x)]))
  else (Normal tt, w).
Proof.
  intros Hro Hm.
  unfold checksum_round, bind, path_is_file, gets, ret. simpl.
  destruct (Fs.is_file (fs w) b); [|reflexivity].
  pose proof (Hro b (fs w, env w)) as Hfs. simpl in Hfs.
  unfold extended, manifest_entry, hash_line, hash_cmd in *.
  unfold subprocess_run, write, set_fs.
  destruct (String.eqb (platform_system H) "Windows"); simpl in *;
    (destruct (exec H _ (fs w, env w)) as [[|rc so se] [t e]]; simpl in *; subst t;
     [by rewrite insert_id|];
     destruct (rc =? 0); simpl; [by rewrite Hm|by rewrite insert_id]).
Qed.

Lemma is_file_insert_other (t : FS) p q n :
  p <> q -> Fs.is_file (<[q := n]> t) p = Fs.is_file t p.
Proof.
  intros Hne. unfold Fs.is_file, Fs.node_at.
  destruct p; [done|]. by rewrite lookup_insert_ne.
Qed.

Lemma filter_is_file_ext (t t' : FS) (bs : list (list string)) :
  (forall b, b ∈ bs -> Fs.is_file t' b = Fs.is_file t b) ->
  filter (fun b => Is_true (Fs.is_file t' b)) bs =
  filter (fun b => Is_true (Fs.is_file t b)) bs.
Proof.
  induction bs as [|b bs IH]; intros Hext; [done|].
  rewrite !filter_cons, (Hext b) by apply list_elem_of_here.
  rewrite IH by (intros c Hc; by apply Hext, list_elem_of_further).
  reflexivity.
Qed.

Lemma checksum_loop (bs : list (list string)) : forall w m,
  hashing_reads_only ->
  fs w !! checksum_file = Some (File m) ->
  checksum_file ∉ bs ->
  exists hs m',
    fs (snd (for_ bs checksum_round w)) = <[checksum_file := File m']> (fs w) /\
    data m' = data m +:+ manifest_text hs /\
    mode m' = mode m /\
    out (snd (for_ bs checksum_round w)) = out w /\
    trace (snd (for_ bs checksum_round w)) = trace w ++ (hash_event <$> hs) /\
    Forall (fun h => exists s, snd h = fst (exec H (hash_cmd (fst h)) s)) hs /\
    (fst (for_ bs checksum_round w) = Normal tt /\
       hs.*1 = filter (fun b => Is_true (Fs.is_file (fs w) b)) bs /\
       Forall (fun h => started (snd h) = true) hs
     \/ fst (for_ bs checksum_round w) = Raise FileNotFoundError /\
        hs.*1 `prefix_of` filter (fun b => Is_true (Fs.is_file (fs w) b)) bs /\
        exists hs0 b, hs = hs0 ++ [(b, NotFound)] /\
                      Forall (fun h => started (snd h) = true) hs0).
Proof.
  induction bs as [|b bs IH]; intros w m Hro Hm Hcs.
  - exists [], m. simpl. rewrite insert_id, append_empty_r, app_nil_r by done.
    conjuncts; try done. left. by conjuncts.
  - apply not_elem_of_cons in Hcs as [Hb Hcs].
    simpl for_. unfold bind. rewrite (checksum_round_step _ _ _ Hro Hm).
    destruct (Fs.is_file (fs w) b) eqn:Ef.
    + cbn zeta.
      set (r := fst (exec H (hash_cmd b) (fs w, env w))).
      set (e1 := snd (snd (exec H (hash_cmd b) (fs w, env w)))).
      set (m1 := extended m (b, r) (now H e1)).
      destruct (started r) eqn:Es.
      * set (w1 := mkWorld (<[checksum_file := File m1]> (fs w)) e1 (out w)
                     (trace w ++ [(hash_cmd b, r)])).
        destruct (IH w1 m1 Hro) as (hs & m' & Hfs & Hd & Hmo & Ho & Ht & Hall & Hr);
          [apply lookup_insert_eq|done|].
        assert (filter (fun c => Is_true (Fs.is_file (fs w1) c)) bs =
                filter (fun c => Is_true (Fs.is_file (fs w) c)) bs) as Hfil.
        { apply filter_is_file_ext. intros c Hc. apply is_file_insert_other.
          intros ->. done. }
        exists ((b, r) :: hs), m'. conjuncts.
        -- rewrite Hfs. unfold w1. cbn [fs]. by rewrite insert_insert_eq.
        -- rewrite Hd, manifest_text_cons. unfold m1, extended.
           destruct (manifest_entry (b, r)); [|done]. simpl. by rewrite append_assoc.
        -- rewrite Hmo. unfold m1, extended. by destruct (manifest_entry (b, r)).
        -- by rewrite Ho.
        -- rewrite Ht. unfold w1. cbn [trace]. by rewrite <- app_assoc.
        -- constructor; [|done]. by exists (fs w, env w).
        -- rewrite filter_cons_True by (by rewrite Ef). rewrite <- Hfil.
           destruct Hr as [(Hr1 & Hr2 & Hr3)|(Hr1 & Hr2 & (hs0 & c & Hc & Hs0))].
           ++ left. split; [done|]. split; [csimpl; by rewrite Hr2|].
              by constructor.
           ++ right. split; [done|]. split; [csimpl; by apply prefix_cons|].
              exists ((b, r) :: hs0), c. split; [by rewrite Hc|]. by constructor.
      * exists [(b, r)], m. cbn [fst snd fs out trace]. conjuncts; try done.
        -- unfold m1, extended, manifest_entry. cbn [snd]. by destruct r.
        -- rewrite manifest_text_cons. unfold manifest_entry. cbn [snd].
           destruct r; [by rewrite append_empty_r|done].
        -- constructor; [|constructor]. by exists (fs w, env w).
        -- right. split; [done|]. rewrite filter_cons_True by (by rewrite Ef).
           split; [apply prefix_cons, prefix_nil|].
           exists [], b. split; [|constructor]. by destruct r.
    + destruct (IH w m Hro Hm Hcs) as (hs & m' & Hfs & Hd & Hmo & Ho & Ht & Hall & Hr).
      exists hs, m'. rewrite filter_cons_False by (rewrite Ef; simpl; tauto).
      conjuncts; done.
Qed.

Lemma artifact_is_not_manifest (t : FS) p : is_artifact t p -> p <> checksum_file.
Proof.
  intros [n (-> & Hp & _)] E. unfold checksum_file, release_dir in E.
  simplify_list_eq.
Qed.

Lemma is_artifact_opened (t : FS) md time p :
  is_artifact (opened t md time) p <-> is_artifact t p.
Proof.
  unfold opened. split; intros Ha; pose proof (artifact_is_not_manifest _ _ Ha) as Hne;
    destruct Ha as [n (E & Hp & Hf)]; exists n;
    rewrite is_file_insert_other in * by done; done.
Qed.

Lemma elem_of_artifacts (t : FS) p :
  p ∈ filter (fun b => Is_true (Fs.is_file t b)) (globbed t) <-> is_artifact t p.
Proof.
  rewrite list_elem_of_filter, elem_of_globbed, Is_true_true. split.
  - intros [Hf [n (E & Hp & _)]]. by exists n.
  - intros [n (E & Hp & Hf)]. split; [done|]. exists n. split; [done|]. split; [done|].
    subst p. unfold Fs.is_file, Fs.node_at, release_dir in Hf. simpl in Hf.
    unfold release_dir. simpl. by destruct (t !! ["release"; n]).
Qed.

Lemma open_manifest w :
  manifest_writable (fs w) = true ->
  exists md,
    open_w checksum_file w =
    (Normal tt, mkWorld (opened (fs w) md (now H (env w))) (env w) (out w) (trace w)).
Proof.
  unfold manifest_writable, Fs.is_dir. rewrite node_at_release, node_at_checksum.
  rewrite andb_true_iff, negb_true_iff. intros [Hr Hc].
  unfold open_w, create, set_fs, opened. rewrite node_at_checksum.
  destruct (fs w !! checksum_file) as [[f|]|]; [by eexists|done|].
  change (Fs.node_at (fs w) (Fs.parent checksum_file)) with (fs w !! release_dir).
  destruct (fs w !! release_dir) as [[|]|]; try done. by eexists.
Qed.

Lemma create_checksums_run w :
  hashing_reads_only ->
  manifest_writable (fs w) = true ->
  exists hs m',
    fs (snd (create_checksums w)) = <[checksum_file := File m']> (fs w) /\
    data m' = manifest_text hs /\
    trace (snd (create_checksums w)) = trace w ++ (hash_event <$> hs) /\
    Forall (fun h => exists s, snd h = fst (exec H (hash_cmd (fst h)) s)) hs /\
    NoDup hs.*1 /\
    (forall p, p ∈ hs.*1 -> is_artifact (fs w) p) /\
    (fst (create_checksums w) = Normal tt /\
       (forall p, is_artifact (fs w) p -> p ∈ hs.*1) /\
       Forall (fun h => started (snd h) = true) hs
     \/ fst (create_checksums w) = Raise FileNotFoundError /\
        exists hs0 b, hs = hs0 ++ [(b, NotFound)] /\
                      Forall (fun h => started (snd h) = true) hs0).
Proof.
  intros Hro Hw.
  destruct (open_manifest (printed [BLUE +:+ "[INFO]" +:+ NC +:+ " " +:+ "Creating checksums..."] w) Hw)
    as [md Hopen].
  set (t1 := opened (fs w) md (now H (env w))).
  set (w1 := mkWorld t1 (env w)
               (out w ++ [BLUE +:+ "[INFO]" +:+ NC +:+ " " +:+ "Creating checksums..."])
               (trace w)).
  assert (Fs.is_dir t1 release_dir = true) as Hdir.
  { unfold t1, opened, Fs.is_dir. rewrite node_at_release, lookup_insert_ne by done.
    unfold manifest_writable, Fs.is_dir in Hw. rewrite node_at_release in Hw.
    by apply andb_true_iff in Hw as [Hw _]. }
  assert (create_checksums w = for_ (globbed t1) checksum_round w1) as ->.
  { rewrite create_checksums_unfold. unfold bind at 1. unfold print_status.
    rewrite print_eq. unfold bind at 1. rewrite Hopen.
    unfold bind, glob, gets. cbn [printed fs env out trace]. fold t1.
    by rewrite Hdir. }
  destruct (checksum_loop (globbed t1) w1 (mkFile EmptyString md (now H (env w))) Hro)
    as (hs & m' & Hfs & Hd & _ & _ & Ht & Hall & Hr).
  { apply lookup_insert_eq. }
  { apply checksum_not_globbed. }
  exists hs, m'.
  assert (hs.*1 `prefix_of` filter (fun b => Is_true (Fs.is_file t1 b)) (globbed t1)) as Hpre.
  { destruct Hr as [(_ & -> & _)|(_ & Hp & _)]; done. }
  conjuncts.
  - rewrite Hfs. unfold w1, t1, opened. cbn [fs]. by rewrite insert_insert_eq.
  - by rewrite Hd.
  - by rewrite Ht.
  - done.
  - destruct Hpre as [k Hk].
    assert (NoDup (filter (fun b => Is_true (Fs.is_file t1 b)) (globbed t1))) as Hnd
      by apply NoDup_filter, NoDup_globbed.
    rewrite Hk in Hnd. by apply NoDup_app in Hnd as [Hnd _].
  - intros p Hp. apply (is_artifact_opened _ md (now H (env w))). fold t1.
    apply elem_of_artifacts. destruct Hpre as [k ->]. apply elem_of_app. by left.
  - destruct Hr as [(Hr1 & Hr2 & Hr3)|(Hr1 & _ & Hr3)]; [left|right]; split; try done.
    split; [|done]. intros p Hp. rewrite Hr2. apply elem_of_artifacts.
    by apply is_artifact_opened.
Qed.

(** C5, as the script behaves: with the output directory in place and a
    hashing utility that only reads the tree, [create_checksums] leaves a
    manifest that is the text of one list of hashed files, nothing of an
    earlier manifest in it.  The files of the list are artifact files of
    the output directory, none of them twice, each with the outcome of the
    one hashing process spawned for it; a file whose hashing exited with
    status 0 contributes its line and a file whose hashing exited with
    another status contributes nothing and does not end the step.  The step
    returns exactly when every hashing process could be started, and then
    every artifact file is in the list; a hashing utility that cannot be
    started ends the step with [FileNotFoundError] at that file, the later
    files not hashed. *)
Theorem manifest_has_one_entry_per_artifact w :
  hashing_reads_only ->
  manifest_writable (fs w) = true ->
  exists hs m,
    fs (snd (create_checksums w)) !! checksum_file = Some (File m) /\
    data m = manifest_text hs /\
    spawned_since w (snd (create_checksums w)) = hash_event <$> hs /\
    NoDup hs.*1 /\
    (forall p, p ∈ hs.*1 -> is_artifact (fs w) p) /\
    Forall (fun h => exists s, snd h = fst (exec H (hash_cmd (fst h)) s)) hs /\
    (fst (create_checksums w) = Normal tt <->
     Forall (fun h => started (snd h) = true) hs) /\
    (fst (create_checksums w) = Normal tt ->
     forall p, is_artifact (fs w) p -> p ∈ hs.*1) /\
    (fst (create_checksums w) <> Normal tt ->
     fst (create_checksums w) = Raise FileNotFoundError /\
     exists hs0 b, hs = hs0 ++ [(b, NotFound)] /\
                   Forall (fun h => started (snd h) = true) hs0).
Proof.
  intros Hro Hw.
  destruct (create_checksums_run w Hro Hw)
    as (hs & m & Hfs & Hd & Ht & Hall & Hnd & Hsub & Hr).
  exists hs, m. conjuncts; try done.
  - rewrite Hfs. apply lookup_insert_eq.
  - by apply spawned_since_app.
  - destruct Hr as [(Hr1 & _ & Hr3)|(Hr1 & hs0 & b & -> & _)]; split; try done.
    + rewrite Hr1. done.
    + intros [_ Hb]%Forall_app. by inversion Hb.
  - destruct Hr as [(_ & Hr2 & _)|(Hr1 & _)]; [done|]. by rewrite Hr1.
  - destruct Hr as [(Hr1 & _)|Hr]; done.
Qed.

(** C10: with the output directory in place and a hashing utility that only
    reads the tree, whatever the directory holds [create_checksums] leaves a
    regular file at the manifest path whose content is the text of the files
    it hashed, nothing of an earlier manifest; the processes it spawns are
    the hashing commands of those files, each an artifact file and none the
    manifest itself; with no artifact file it returns normally, spawns
    nothing and leaves the manifest empty. *)
Theorem manifest_is_produced_and_never_lists_itself w :
  hashing_reads_only ->
  manifest_writable (fs w) = true ->
  exists hs m,
    fs (snd (create_checksums w)) !! checksum_file = Some (File m) /\
    data m = manifest_text hs /\
    spawned_since w (snd (create_checksums w)) = hash_event <$> hs /\
    (forall p, p ∈ hs.*1 -> is_artifact (fs w) p /\ p <> checksum_file) /\
    ((forall p, ~ is_artifact (fs w) p) ->
     fst (create_checksums w) = Normal tt /\ hs = [] /\ data m = EmptyString).
Proof.
  intros Hro Hw.
  destruct (create_checksums_run w Hro Hw)
    as (hs & m & Hfs & Hd & Ht & Hall & Hnd & Hsub & Hr).
  exists hs, m. conjuncts.
  - rewrite Hfs. apply lookup_insert_eq.
  - done.
  - by apply spawned_since_app.
  - intros p Hp. split; [by apply Hsub|].
    eapply artifact_is_not_manifest, Hsub, Hp.
  - intros Hnone. assert (hs = []) as ->.
    { destruct hs as [|[p r] hs]; [done|].
      destruct (Hnone p). apply Hsub. csimpl. apply list_elem_of_here. }
    destruct Hr as [[Hr _]|(_ & hs0 & b & Hb & _)]; [|by destruct hs0].
    by rewrite Hd.
Qed.

(** C2: the guard of the OS derivation only asks for one separator, so a
    triple with one separator reaches the indexing with two fields and
    [build_target] raises [IndexError] instead of taking ["unknown"]. *)
Theorem two_field_triple_raises_IndexError w :
  Py.split "-" "a-b" = ["a"; "b"] /\
  derive_os "a-b" = None /\
  target_os_of "a-b" w = (Raise IndexError, w) /\
  fst (build_target "a-b" w) = Raise IndexError.
Proof.
  conjuncts; reflexivity.
Qed.

Lemma contains_false_split c s : Py.contains c s = false -> Py.split c s = [s].
Proof.
  induction s as [|d s IH]; simpl; [done|].
  destruct (Ascii.eqb d c); [done|]. intros E. by rewrite IH.
Qed.

Lemma split_nonempty c s : Py.split c s <> [].
Proof.
  destruct s as [|d s]; simpl; [done|].
  destruct (Ascii.eqb d c); [done|]. by destruct (Py.split c s).
Qed.

Lemma split_single c s a : Py.split c s = [a] -> Py.contains c s = false.
Proof.
  revert a. induction s as [|d s IH]; intros a; simpl; [done|].
  destruct (Ascii.eqb d c).
  - intros [= _ E]. by destruct (split_nonempty c s).
  - destruct (Py.split c s) as [|f [|g l]] eqn:Es; try done.
    + by destruct (split_nonempty c s).
    + intros _. by apply (IH f).
Qed.

(** Where the triple has at least three fields the derivation takes the
    third, with two fields it raises, and without a separator it takes
    ["unknown"]. *)
Lemma derive_os_spec target :
  match Py.split "-" target with
  | _ :: _ :: o :: _ => derive_os target = Some o
  | [_; _] => derive_os target = None
  | _ => derive_os target = Some "unknown"
  end.
Proof.
  unfold derive_os. destruct (Py.contains "-" target) eqn:E.
  - destruct (Py.split "-" target) as [|a [|b [|o l]]] eqn:Es; try done.
    + by destruct (split_nonempty "-" target).
    + apply split_single in Es. congruence.
  - by rewrite (contains_false_split _ _ E).
Qed.

(** *** What the later steps depend on *)


















(** C7: without [Cargo.toml] in the working directory [main] prints its
    opening line and the error, then exits with status 1; the tree and the
    machine are untouched and no process has been spawned. *)
Theorem missing_marker_exits_before_any_work w :
  Fs.exists_ (fs w) ["Cargo.toml"] = false ->
  main w =
    (Raise (SystemExit 1),
     mkWorld (fs w) (env w)
       (out w ++
        [BLUE +:+ "[INFO]" +:+ NC +:+ " " +:+
           "Starting cross-platform Linux build process..."] ++
        [RED +:+ "[ERROR]" +:+ NC +:+ " " +:+
           "Please run this script from the project root directory"])
       (trace w)) /\
  exit_status (fst (main w)) = 1.
Proof.
  intros E.
  assert (main w = (Raise (SystemExit 1),
     mkWorld (fs w) (env w)
       (out w ++
        [BLUE +:+ "[INFO]" +:+ NC +:+ " " +:+
           "Starting cross-platform Linux build process..."] ++
        [RED +:+ "[ERROR]" +:+ NC +:+ " " +:+
           "Please run this script from the project root directory"])
       (trace w))) as ->; [|done].
  unfold main, bind, print_status, print_error, print, path_exists, gets; simpl.
  rewrite E; simpl. by rewrite <- app_assoc.
Qed.

End Properties.

(** ** Further properties of the build script *)

Section FurtherProperties.

Context {H : Host}.

Implicit Types (w : @World H) (p : list string).

Ltac conjuncts := repeat match goal with |- _ /\ _ => split end.

(** *** Inverting a sequence *)

Lemma bind_normal_inv {A B} (m : M World A) (k : A -> M World B) w b :
  fst (bind m k w) = Normal b ->
  exists a, fst (m w) = Normal a /\ bind m k w = k a (snd (m w)).
Proof.
  unfold bind. destruct (m w) as [[a|e] w1]; simpl; [eauto|done].
Qed.

Lemma bind_eq_normal {A B} (m : M World A) (k : A -> M World B) w a :
  fst (m w) = Normal a -> bind m k w = k a (snd (m w)).
Proof. unfold bind. by destruct (m w) as [r w1]; simpl; intros ->. Qed.

Lemma bind_eq_raise {A B} (m : M World A) (k : A -> M World B) w e :
  fst (m w) = Raise e -> bind m k w = (Raise e, snd (m w)).
Proof. unfold bind. by destruct (m w) as [r w1]; simpl; intros ->. Qed.

(** *** [run_command] *)

(** X1: [run_command] spawns its command exactly once and hands the tree
    and the machine on as the process left them.  It returns only for a
    process that exited with status 0, and then the returned record carries
    that status; for any other outcome it raises the exception of
    [subprocess.run], after an error line when the process ran. *)
Theorem run_command_returns_only_success cmd w :
  trace (snd (run_command cmd true w)) = trace w ++ [(cmd, outcome cmd w)] /\
  state_of (snd (run_command cmd true w)) = snd (exec H cmd (fs w, env w)) /\
  (forall c, fst (run_command cmd true w) = Normal c ->
     returncode c = 0 /\ exited_zero (outcome cmd w) = true) /\
  (exited_zero (outcome cmd w) = false ->
     fst (run_command cmd true w) = Raise (failure cmd (outcome cmd w))) /\
  (forall rc so se, outcome cmd w = Completed rc so se -> rc <> 0 ->
     (RED +:+ "[ERROR]" +:+ NC +:+ " " +:+
        ("Command failed: " +:+ str_CalledProcessError H cmd rc))
       ∈ out (snd (run_command cmd true w))).
Proof.
  rewrite run_command_eq. unfold outcome, state_of, after_run. cbn [fst snd fs env trace out].
  conjuncts.
  - done.
  - by destruct (exec H cmd (fs w, env w)) as [r [t e]].
  - intros c Hc. destruct (exec H cmd (fs w, env w)) as [[|rc so se] s]; [done|].
    simpl in *. destruct (rc =? 0) eqn:E; [|done].
    simplify_eq. simpl. split; [|done]. by apply Z.eqb_eq.
  - apply run_outcome_raise.
  - intros rc so se -> Hrc. unfold run_log. apply Z.eqb_neq in Hrc. rewrite Hrc.
    apply elem_of_app. right. apply list_elem_of_further, list_elem_of_here.
Qed.

(** *** The toolchain probe *)

(** X2: [check_rust_installed] catches the two failures its [except]
    clause names.  A version query that ran and exited with another status
    than 0, or whose program was not found, makes it return [false] with
    the installation hint as the last line printed; the package manager
    counts only once the compiler has answered with status 0; and it
    returns [true] exactly when both queries exit with status 0. *)
Theorem check_rust_installed_catches_failed_queries w :
  (fst (check_rust_installed w) = Normal true <->
   exited_zero (outcome rustc_version w) = true /\
   exited_zero (outcome cargo_version (after_run rustc_version w)) = true) /\
  (forall rc so se,
     outcome rustc_version w = Completed rc so se -> rc <> 0 ->
     reports_no_toolchain w) /\
  (outcome rustc_version w = NotFound -> reports_no_toolchain w) /\
  (exited_zero (outcome rustc_version w) = true ->
   (forall rc so se,
      outcome cargo_version (after_run rustc_version w) = Completed rc so se ->
      rc <> 0 -> reports_no_toolchain w) /\
   (outcome cargo_version (after_run rustc_version w) = NotFound ->
    reports_no_toolchain w)).
Proof.
  unfold reports_no_toolchain. rewrite check_rust_installed_eq.
  unfold outcome. cbn zeta.
  destruct (exec H rustc_version (fs w, env w)).1 as [|rc so se] eqn:E1; simpl.
  - conjuncts; try done.
    + split; [done|by intros [? _]].
    + intros _. split; [done|apply last_snoc].
  - destruct (rc =? 0) eqn:Erc.
    + destruct (exec H cargo_version _).1 as [|rc2 so2 se2] eqn:E2; simpl.
      * conjuncts; try done.
        -- split; [done|by intros [_ ?]].
        -- intros ? ? ? [= -> _ _] Hrc. by apply Z.eqb_eq in Erc.
        -- intros _. split; [done|]. intros _. split; [done|apply last_snoc].
      * destruct (rc2 =? 0) eqn:Erc2.
        -- conjuncts; try done.
           ++ intros ? ? ? [= -> _ _] Hrc. by apply Z.eqb_eq in Erc.
           ++ intros _. split; [|done].
              intros ? ? ? [= -> _ _] Hrc. by apply Z.eqb_eq in Erc2.
        -- conjuncts; try done.
           ++ split; [done|by intros [_ ?]].
           ++ intros ? ? ? [= -> _ _] Hrc. by apply Z.eqb_eq in Erc.
           ++ intros _. split; [|done]. intros ? ? ? _ _. split; [done|apply last_snoc].
    + conjuncts; try done.
      * split; [done|by intros [? _]].
      * intros ? ? ? _ _. split; [done|apply last_snoc].
Qed.

(** *** Installing the targets *)

Lemma install_targets_unfold : install_targets = for_ targets install_round.
Proof. reflexivity. Qed.

Lemma install_round_eq target w :
  install_round target w =
  (match run_outcome (rustup_add target) (outcome (rustup_add target) w) with
   | Normal _ => Normal tt
   | Raise e => Raise e
   end,
   after_run (rustup_add target)
     (printed [BLUE +:+ "[INFO]" +:+ NC +:+ " " +:+ ("Installing target: " +:+ target)] w)).
Proof.
  unfold install_round, bind, print_status. rewrite print_eq, run_command_eq.
  unfold outcome, printed; cbn [fs env].
  by destruct (run_outcome _ _).
Qed.

Lemma install_round_outcome target w :
  fst (install_round target w) =
    (if exited_zero (outcome (rustup_add target) w) then Normal tt
     else Raise (failure (rustup_add target) (outcome (rustup_add target) w))) /\
  trace (snd (install_round target w)) =
    trace w ++ [(rustup_add target, outcome (rustup_add target) w)] /\
  state_of (snd (install_round target w)) =
    state_of (after_run (rustup_add target) w).
Proof.
  rewrite install_round_eq. cbn [fst snd]. conjuncts; try done.
  destruct (exited_zero _) eqn:Z.
  - by destruct (run_outcome_normal (rustup_add target) _ Z) as [c ->].
  - by rewrite (run_outcome_raise _ _ Z).
Qed.

Lemma install_loop ts : forall w,
  fst (for_ ts install_round w) = Normal tt ->
  exists evs,
    trace (snd (for_ ts install_round w)) = trace w ++ evs /\
    map fst evs = map rustup_add ts /\
    Forall (fun ev => exited_zero (snd ev) = true) evs.
Proof.
  induction ts as [|t ts IH]; intros w Hn.
  - exists []. simpl. by rewrite app_nil_r.
  - simpl in *. destruct (bind_normal_inv _ _ _ _ Hn) as ([] & Ht & Hb).
    rewrite Hb in *. destruct (install_round_outcome t w) as (Hr & Htr & _).
    rewrite Ht in Hr. destruct (exited_zero (outcome (rustup_add t) w)) eqn:Z; [|done].
    destruct (IH _ Hn) as (evs & -> & Hm & Hall).
    exists ((rustup_add t, outcome (rustup_add t) w) :: evs). conjuncts.
    + rewrite Htr. by rewrite <- app_assoc.
    + simpl. by rewrite Hm.
    + by constructor.
Qed.

(** X3: when [install_targets] returns, it has spawned
    [rustup target add] once for each configured target, in the order of the
    list, and each of them exited with status 0. *)
Theorem install_targets_adds_each_target w :
  fst (install_targets w) = Normal tt ->
  map fst (spawned_since w (snd (install_targets w))) = map rustup_add targets /\
  Forall (fun ev => exited_zero (snd ev) = true)
    (spawned_since w (snd (install_targets w))).
Proof.
  intros Hn. rewrite install_targets_unfold in *.
  destruct (install_loop _ _ Hn) as (evs & Ht & Hm & Hall).
  by rewrite (spawned_since_app _ _ _ Ht).
Qed.

Lemma bind_for_app {A B} (xs ys : list A) (f : A -> M World unit)
    (k : unit -> M World B) w :
  bind (for_ (xs ++ ys) f) k w =
  bind (for_ xs f) (fun _ => bind (for_ ys f) k) w.
Proof.
  unfold bind at 1. rewrite for_app. unfold bind.
  by destruct (for_ xs f w) as [[[]|e] w1].
Qed.

Lemma main_stages w :
  main w =
  bind before_install (fun _ =>
  bind (for_ targets install_round) (fun _ =>
  bind (for_ targets build_target) (fun _ => after_builds))) w.
Proof.
  unfold main, before_install, after_builds.
  change install_targets with (for_ targets install_round).
  unfold bind. repeat case_match; simplify_eq; done.
Qed.

Lemma main_reaches_install w added target rest :
  targets = added ++ target :: rest ->
  fst (installed_until added w) = Normal tt ->
  main w =
  bind (install_round target)
    (fun _ => bind (for_ rest install_round)
       (fun _ => bind (for_ targets build_target) (fun _ => after_builds)))
    (reached_install added w).
Proof.
  intros Ht Hr. unfold reached_install, installed_until in *.
  rewrite main_stages.
  destruct (bind_normal_inv _ _ _ _ Hr) as ([] & H0 & Hb).
  rewrite Hb in *. rewrite (bind_eq_normal _ _ _ _ H0).
  rewrite Ht at 1. rewrite bind_for_app, (bind_eq_normal _ _ _ _ Hr).
  simpl for_. by rewrite bind_assoc.
Qed.

(** X4: a target installation that does not exit with status 0 ends the
    run: the exception of [run_command] leaves [main], the exit status is 1,
    and the failed installation is the last process spawned, so no later
    target is installed and nothing is built. *)
Theorem failed_installation_aborts_the_run w added target rest :
  targets = added ++ target :: rest ->
  fst (installed_until added w) = Normal tt ->
  exited_zero (outcome (rustup_add target) (reached_install added w)) = false ->
  fst (main w) =
    Raise (failure (rustup_add target)
             (outcome (rustup_add target) (reached_install added w))) /\
  exit_status (fst (main w)) = 1 /\
  trace (snd (main w)) =
    trace (reached_install added w) ++
    [(rustup_add target, outcome (rustup_add target) (reached_install added w))] /\
  state_of (snd (main w)) =
    state_of (after_run (rustup_add target) (reached_install added w)).
Proof.
  intros Ht Hr Z. rewrite (main_reaches_install _ _ _ _ Ht Hr).
  set (w1 := reached_install added w) in *.
  destruct (install_round_outcome target w1) as (Hres & Htr & Hst).
  rewrite Z in Hres. rewrite (bind_eq_raise _ _ _ _ Hres). cbn [fst snd].
  conjuncts; try done. by destruct (outcome (rustup_add target) w1).
Qed.

(** *** Which processes a step spawns *)

Lemma spawns_only_weaken {A} (P Q : list string -> Prop) (m : M World A) :
  (forall c, P c -> Q c) -> spawns_only P m -> spawns_only Q m.
Proof.
  intros HPQ Hm w. destruct (Hm w) as (evs & Ht & Hall).
  exists evs. split; [done|]. eapply Forall_impl; [done|]. intros ev. apply HPQ.
Qed.

Lemma spawns_only_silent {A} (P : list string -> Prop) (m : M World A) :
  (forall w, trace (snd (m w)) = trace w) -> spawns_only P m.
Proof. intros Hm w. exists []. by rewrite app_nil_r. Qed.

Lemma spawns_only_bind_post {A B} (P : list string -> Prop) (Q : A -> Prop)
    (m : M World A) (k : A -> M World B) :
  spawns_only P m ->
  (forall w a, fst (m w) = Normal a -> Q a) ->
  (forall a, Q a -> spawns_only P (k a)) ->
  spawns_only P (bind m k).
Proof.
  intros Hm HQ Hk w. unfold bind.
  destruct (Hm w) as (evs & Ht & Hall). specialize (HQ w).
  destruct (m w) as [[a|e] w1]; simpl in *; [|by exists evs].
  destruct (Hk a (HQ a eq_refl) w1) as (evs' & Ht' & Hall').
  exists (evs ++ evs'). split.
  - by rewrite Ht', Ht, app_assoc.
  - by apply Forall_app.
Qed.

Lemma spawns_only_bind {A B} (P : list string -> Prop)
    (m : M World A) (k : A -> M World B) :
  spawns_only P m -> (forall a, spawns_only P (k a)) -> spawns_only P (bind m k).
Proof.
  intros Hm Hk. apply (spawns_only_bind_post P (fun _ => True)); auto.
Qed.

Lemma spawns_only_for {A} (P : list string -> Prop) (xs : list A)
    (body : A -> M World unit) :
  (forall x, x ∈ xs -> spawns_only P (body x)) -> spawns_only P (for_ xs body).
Proof.
  induction xs as [|x xs IH]; intros Hb; simpl.
  - by apply spawns_only_silent.
  - apply spawns_only_bind; [apply Hb, list_elem_of_here|].
    intros _. apply IH. intros y Hy. by apply Hb, list_elem_of_further.
Qed.

Lemma spawns_only_try {A} (P : list string -> Prop) (m : M World A)
    (h : exn -> option (M World A)) :
  spawns_only P m ->
  (forall e k, h e = Some k -> spawns_only P k) ->
  spawns_only P (try_except m h).
Proof.
  intros Hm Hh w. unfold try_except.
  destruct (Hm w) as (evs & Ht & Hall).
  destruct (m w) as [[a|e] w1]; simpl in *; [by exists evs|].
  destruct (h e) as [k|] eqn:E; [|by exists evs].
  destruct (Hh e k E w1) as (evs' & Ht' & Hall').
  exists (evs ++ evs'). split.
  - by rewrite Ht', Ht, app_assoc.
  - by apply Forall_app.
Qed.

Lemma spawns_only_subprocess_run (P : list string -> Prop) cmd check :
  P cmd -> spawns_only P (subprocess_run cmd check).
Proof.
  intros HP w. exists [(cmd, outcome cmd w)]. unfold subprocess_run, outcome.
  destruct (exec H cmd (fs w, env w)) as [[|rc so se] [t e]]; simpl.
  - split; [done|]. by repeat constructor.
  - destruct (check && negb (rc =? 0))%bool; simpl; (split; [done|]);
      by repeat constructor.
Qed.

Lemma spawns_only_run_command (P : list string -> Prop) cmd :
  P cmd -> spawns_only P (run_command cmd true).
Proof.
  intros HP w. exists [(cmd, outcome cmd w)]. rewrite run_command_eq.
  split; [done|]. by repeat constructor.
Qed.

Ltac silent_step :=
  apply spawns_only_silent; intros [? ? ? ?];
  repeat autounfold with steps; simpl; repeat case_match; done.

Create HintDb steps.
Hint Unfold print_status print_success print_warning print_error print
  path_exists path_is_file shutil_which gets ret raise sys_exit when
  mkdir_exist_ok open_w write read_text copy2 chmod glob iterdir stat_size
  create set_fs target_os_of index : steps.

Lemma spawns_only_print (P : list string -> Prop) s : spawns_only P (print s).
Proof. silent_step. Qed.

Lemma spawns_only_copy_binaries (P : list string -> Prop) :
  spawns_only P copy_binaries.
Proof.
  unfold copy_binaries.
  apply spawns_only_bind; [silent_step|intros _].
  apply spawns_only_for. intros target _.
  apply spawns_only_bind; [silent_step|intros []]; [|silent_step].
  apply spawns_only_bind; [silent_step|intros _].
  apply spawns_only_bind; [|intros _; silent_step].
  destruct (negb _); silent_step.
Qed.

Lemma checksum_round_spawns binary :
  spawns_only (fun c => c = hash_cmd binary) (checksum_round binary).
Proof.
  unfold checksum_round, hash_cmd.
  apply spawns_only_bind; [silent_step|intros []]; [|silent_step].
  destruct (String.eqb _ _);
    (apply spawns_only_bind; [by apply spawns_only_subprocess_run|intros r];
     destruct (returncode r =? 0); silent_step).
Qed.

Lemma spawns_only_create_checksums : spawns_only hash_command create_checksums.
Proof.
  rewrite create_checksums_unfold.
  apply spawns_only_bind; [silent_step|intros _].
  apply spawns_only_bind; [silent_step|intros _].
  apply (spawns_only_bind_post _
    (fun bs => forall b, b ∈ bs ->
       exists n, Py.startswith "rbx-studio-mcp-" n = true /\ b = release_dir ++ [n])).
  - silent_step.
  - intros w bs. unfold glob, gets. simpl. intros [= <-].
    destruct (Fs.is_dir _ _); [|by intros b Hb%elem_of_nil].
    intros b Hb. apply list_elem_of_fmap in Hb as [n [-> Hn]].
    apply list_elem_of_filter in Hn as [Hp _]. exists n. by rewrite <- Is_true_true.
  - intros bs Hbs. apply spawns_only_for. intros b Hb.
    destruct (Hbs b Hb) as (n & Hp & ->).
    eapply spawns_only_weaken; [|apply checksum_round_spawns].
    intros c ->. by exists n.
Qed.

Lemma spawns_only_display_results (P : list string -> Prop) :
  spawns_only P display_results.
Proof.
  unfold display_results.
  apply spawns_only_bind; [silent_step|intros _].
  apply spawns_only_bind; [silent_step|intros _].
  apply spawns_only_bind; [silent_step|intros items].
  apply spawns_only_bind.
  - apply spawns_only_for. intros item _.
    apply spawns_only_bind; [silent_step|intros []]; [|silent_step].
    apply spawns_only_bind; [silent_step|intros size]. silent_step.
  - intros _. apply spawns_only_bind; [silent_step|intros _].
    apply spawns_only_bind; [silent_step|intros []]; [|silent_step].
    apply spawns_only_bind; [silent_step|intros content]. silent_step.
Qed.

Lemma spawns_only_check_rust_installed :
  spawns_only setup_command check_rust_installed.
Proof.
  unfold check_rust_installed. apply spawns_only_try.
  - apply spawns_only_bind;
      [apply spawns_only_run_command; by left|intros _].
    apply spawns_only_bind;
      [apply spawns_only_run_command; right; by left|intros _].
    silent_step.
  - intros e k. destruct e; intros [= <-];
      (apply spawns_only_bind; [silent_step|intros _; silent_step]).
Qed.

Lemma spawns_only_install_targets : spawns_only setup_command install_targets.
Proof.
  unfold install_targets. apply spawns_only_for. intros target Hin.
  apply spawns_only_bind; [silent_step|intros _].
  apply spawns_only_bind; [|intros _; silent_step].
  apply spawns_only_run_command. right. right. by exists target.
Qed.

Lemma spawns_only_build_target target :
  target ∈ targets -> spawns_only build_command (build_target target).
Proof.
  intros Hin. unfold build_target.
  apply spawns_only_bind; [silent_step|intros _].
  apply spawns_only_bind; [silent_step|intros o].
  destruct (_ && _)%bool.
  - apply spawns_only_bind; [silent_step|intros _].
    apply spawns_only_bind; [silent_step|intros _].
    apply spawns_only_bind; [silent_step|intros _]. silent_step.
  - apply spawns_only_bind;
      [apply spawns_only_run_command; exists target; auto|intros _].
    apply spawns_only_bind; [silent_step|intros s].
    apply spawns_only_bind; [silent_step|intros present].
    destruct (_ && _)%bool; [|silent_step].
    apply spawns_only_bind; [silent_step|intros _].
    apply spawns_only_bind; [|intros _; silent_step].
    apply spawns_only_run_command. exists target. auto.
Qed.

Lemma main_spawns (Pb : list string -> Prop) :
  (forall target, target ∈ targets -> spawns_only Pb (build_target target)) ->
  spawns_only (fun c => setup_command c \/ Pb c \/ hash_command c) main.
Proof.
  intros Hb. unfold main.
  apply spawns_only_bind; [silent_step|intros _].
  apply spawns_only_bind; [silent_step|intros marker].
  apply spawns_only_bind.
  { destruct (negb marker); [|silent_step].
    apply spawns_only_bind; [silent_step|intros _]. silent_step. }
  intros _. apply spawns_only_bind.
  { eapply spawns_only_weaken; [|apply spawns_only_check_rust_installed]. auto. }
  intros installed. apply spawns_only_bind.
  { destruct (negb installed); silent_step. }
  intros _. apply spawns_only_bind.
  { eapply spawns_only_weaken; [|apply spawns_only_install_targets]. auto. }
  intros _. apply spawns_only_bind.
  { apply spawns_only_for. intros target Hin.
    eapply spawns_only_weaken; [|by apply Hb]. auto. }
  intros _. apply spawns_only_bind; [apply spawns_only_copy_binaries|intros _].
  apply spawns_only_bind.
  { eapply spawns_only_weaken; [|apply spawns_only_create_checksums]. auto. }
  intros _. apply spawns_only_bind; [apply spawns_only_display_results|intros _].
  silent_step.
Qed.

(** X5: whatever the host does, every process [main] spawns is one of the
    two version queries, the installation, the release build or the
    stripping of a configured target, or the hashing of an entry of the
    output directory whose name carries the prefix. *)
Theorem main_spawns_only_its_tools w :
  Forall (fun ev => setup_command (fst ev) \/ build_command (fst ev) \/
                    hash_command (fst ev))
    (spawned_since w (snd (main w))).
Proof.
  destruct (main_spawns build_command spawns_only_build_target w)
    as (evs & Ht & Hall).
  by rewrite (spawned_since_app _ _ _ Ht).
Qed.

(** *** The exit status *)

Lemma exits_bind {A B} (m : M World A) (k : A -> M World B) :
  exits_with_1_only m -> (forall a, exits_with_1_only (k a)) ->
  exits_with_1_only (bind m k).
Proof.
  intros Hm Hk w c. unfold bind. specialize (Hm w c).
  destruct (m w) as [[a|e] w1]; simpl in *; [apply Hk|].
  intros [= ->]. by apply Hm.
Qed.

Lemma exits_for {A} (xs : list A) (body : A -> M World unit) :
  (forall x, exits_with_1_only (body x)) -> exits_with_1_only (for_ xs body).
Proof.
  intros Hb. induction xs as [|x xs IH]; simpl.
  - by intros w c.
  - apply exits_bind; [apply Hb|done].
Qed.

Lemma exits_try {A} (m : M World A) (h : exn -> option (M World A)) :
  exits_with_1_only m ->
  (forall e k, h e = Some k -> exits_with_1_only k) ->
  exits_with_1_only (try_except m h).
Proof.
  intros Hm Hh w c. unfold try_except. specialize (Hm w c).
  destruct (m w) as [[a|e] w1]; simpl in *; [done|].
  destruct (h e) as [k|] eqn:E; [by eapply Hh|apply Hm].
Qed.

Ltac quiet_step :=
  intros [? ? ? ?] ?; repeat autounfold with steps; simpl;
  repeat case_match; simpl; intros; simplify_eq; done.

Lemma exits_run_command cmd : exits_with_1_only (run_command cmd true).
Proof.
  intros w c. rewrite run_command_eq. cbn [fst]. unfold run_outcome.
  repeat case_match; intros; simplify_eq.
Qed.

Lemma exits_subprocess_run cmd check : exits_with_1_only (subprocess_run cmd check).
Proof.
  intros w c. unfold subprocess_run.
  repeat case_match; simpl; intros; simplify_eq.
Qed.

Lemma exits_check_rust_installed : exits_with_1_only check_rust_installed.
Proof.
  intros w c. rewrite check_rust_installed_eq. cbn zeta.
  by repeat case_match.
Qed.

Lemma exits_build_target target : exits_with_1_only (build_target target).
Proof.
  unfold build_target.
  apply exits_bind; [quiet_step|intros _].
  apply exits_bind; [quiet_step|intros o].
  destruct (_ && _)%bool.
  - repeat (apply exits_bind; [quiet_step|intros _]). quiet_step.
  - apply exits_bind; [apply exits_run_command|intros _].
    apply exits_bind; [quiet_step|intros s].
    apply exits_bind; [quiet_step|intros present].
    destruct (_ && _)%bool; [|quiet_step].
    apply exits_bind; [quiet_step|intros _].
    apply exits_bind; [apply exits_run_command|intros _; quiet_step].
Qed.

Lemma exits_copy_binaries : exits_with_1_only copy_binaries.
Proof.
  unfold copy_binaries.
  apply exits_bind; [quiet_step|intros _].
  apply exits_for. intros target.
  apply exits_bind; [quiet_step|intros []]; [|quiet_step].
  apply exits_bind; [quiet_step|intros _].
  apply exits_bind; [|intros _; quiet_step].
  destruct (negb _); quiet_step.
Qed.

Lemma exits_create_checksums : exits_with_1_only create_checksums.
Proof.
  unfold create_checksums.
  apply exits_bind; [quiet_step|intros _].
  apply exits_bind; [quiet_step|intros _].
  apply exits_bind; [quiet_step|intros bs].
  apply exits_for. intros b.
  apply exits_bind; [quiet_step|intros []]; [|quiet_step].
  destruct (String.eqb _ _);
    (apply exits_bind; [apply exits_subprocess_run|intros r];
     destruct (returncode r =? 0); quiet_step).
Qed.

Lemma exits_display_results : exits_with_1_only display_results.
Proof.
  unfold display_results.
  apply exits_bind; [quiet_step|intros _].
  apply exits_bind; [quiet_step|intros _].
  apply exits_bind; [quiet_step|intros items].
  apply exits_bind.
  - apply exits_for. intros item.
    apply exits_bind; [quiet_step|intros []]; [|quiet_step].
    apply exits_bind; [quiet_step|intros size]. quiet_step.
  - intros _. apply exits_bind; [quiet_step|intros _].
    apply exits_bind; [quiet_step|intros []]; [|quiet_step].
    apply exits_bind; [quiet_step|intros content]. quiet_step.
Qed.

Lemma exits_main : exits_with_1_only main.
Proof.
  unfold main.
  apply exits_bind; [quiet_step|intros _].
  apply exits_bind; [quiet_step|intros marker].
  apply exits_bind.
  { destruct (negb marker); [|quiet_step].
    apply exits_bind; [quiet_step|intros _]. quiet_step. }
  intros _. apply exits_bind; [apply exits_check_rust_installed|].
  intros installed. apply exits_bind.
  { destruct (negb installed); quiet_step. }
  intros _. apply exits_bind.
  { apply exits_for. intros target.
    apply exits_bind; [quiet_step|intros _].
    apply exits_bind; [apply exits_run_command|intros _; quiet_step]. }
  intros _. apply exits_bind; [apply exits_for, exits_build_target|intros _].
  apply exits_bind; [apply exits_copy_binaries|intros _].
  apply exits_bind; [apply exits_create_checksums|intros _].
  apply exits_bind; [apply exits_display_results|intros _].
  quiet_step.
Qed.

(** X6: the exit status of a run is 0 or 1, and it is 0 only when [main]
    returns: [sys.exit] is never called with another code, and every other
    way out of [main] is an uncaught exception. *)
Theorem main_exit_status w :
  (exit_status (fst (main w)) = 0 <-> fst (main w) = Normal tt) /\
  (exit_status (fst (main w)) = 0 \/ exit_status (fst (main w)) = 1).
Proof.
  pose proof (exits_main w) as Hx.
  destruct (fst (main w)) as [[]|e]; simpl.
  - split; [done|by left].
  - destruct e; simpl; try (split; [split; done|by right]).
    rewrite (Hx code eq_refl). split; [split; done|by right].
Qed.

(** *** Building *)

(** X7: for a configured target, [build_target] returns exactly when the
    build is skipped, or the release build exits with status 0 and the
    stripping, if it is called for, does too.  [strip] is spawned only for
    a build that is not skipped, after a release build that exited with
    status 0, and only with [strip] on the search path and the binary in
    place. *)
Theorem build_target_returns_iff target w :
  target ∈ targets ->
  (fst (build_target target w) = Normal tt <->
   skips target = true \/
   (exited_zero (outcome (cargo_build target) w) = true /\
    (strips target (after_run (cargo_build target) w) = true ->
     exited_zero (outcome (strip_cmd target) (after_run (cargo_build target) w)) = true))) /\
  (forall r,
     (strip_cmd target, r) ∈ spawned_since w (snd (build_target target w)) ->
     skips target = false /\
     exited_zero (outcome (cargo_build target) w) = true /\
     strips target (after_run (cargo_build target) w) = true /\
     r = outcome (strip_cmd target) (after_run (cargo_build target) w)).
Proof.
  intros Hin. rewrite build_target_eq, (configured_os _ Hin).
  unfold strips, outcome. cbn zeta.
  destruct (skips target) eqn:Hs.
  { split.
    - split; [by left|done].
    - intros r. erewrite spawned_since_app by (cbn; by rewrite app_nil_r).
      by intros ?%elem_of_nil. }
  cbn [fs env after_run printed].
  destruct (exited_zero (exec H (cargo_build target) (fs w, env w)).1) eqn:Z.
  2:{ split.
      - split; [done|]. intros [|[? _]]; done.
      - intros r. erewrite spawned_since_app by (cbn; reflexivity).
        intros [[=]|?%elem_of_nil]%elem_of_cons; done. }
  destruct (which H "strip" _ && Fs.exists_ _ (binary_path target))%bool eqn:S.
  2:{ split.
      - split; [|done]. intros _. right. by conjuncts.
      - intros r. erewrite spawned_since_app by (cbn; reflexivity).
        intros [[=]|?%elem_of_nil]%elem_of_cons; done. }
  split.
  - cbn [fst]. destruct (exited_zero (exec H (strip_cmd target) _).1) eqn:Z2.
    + split; [|done]. intros _. right. by conjuncts.
    + split; [done|]. intros [|[_ Hz]]; [done|]. by specialize (Hz eq_refl).
  - intros r. erewrite spawned_since_app by (cbn; by rewrite <- app_assoc).
    intros [[=]|[[= ->]|?%elem_of_nil]%elem_of_cons]%elem_of_cons; done.
Qed.

Lemma skipped_loop ts : forall w,
  (forall t, t ∈ ts -> skips t = true) ->
  fst (for_ ts build_target w) = Normal tt /\
  state_of (snd (for_ ts build_target w)) = state_of w /\
  trace (snd (for_ ts build_target w)) = trace w.
Proof.
  induction ts as [|t ts IH]; intros w Hs; [done|].
  simpl. unfold bind. rewrite build_target_eq.
  pose proof (Hs t (list_elem_of_here _ _)) as Ht. rewrite Ht.
  destruct (derive_os t) as [o|] eqn:Eo.
  2:{ unfold skips in Ht. by rewrite Eo, andb_false_r in Ht. }
  cbn zeta. set (w1 := printed _ (printed _ w)).
  destruct (IH w1) as (Hr & Hst & Htr).
  { intros x Hx. by apply Hs, list_elem_of_further. }
  by rewrite Hr, Hst, Htr.
Qed.

Lemma windows_skips target :
  Py.lower (platform_system H) = "windows" -> target ∈ targets -> skips target = true.
Proof. intros Hw Hin. unfold skips. by rewrite Hw, (configured_os _ Hin). Qed.

(** X8: on a Windows host the build loop of [main] returns without
    spawning a process or touching the tree, and the whole run spawns no
    release build and no [strip]: only the toolchain queries, the target
    installations and the hashing. *)
Theorem windows_host_builds_nothing w :
  Py.lower (platform_system H) = "windows" ->
  fst (for_ targets build_target w) = Normal tt /\
  state_of (snd (for_ targets build_target w)) = state_of w /\
  spawned_since w (snd (for_ targets build_target w)) = [] /\
  Forall (fun ev => setup_command (fst ev) \/ hash_command (fst ev))
    (spawned_since w (snd (main w))).
Proof.
  intros Hw.
  destruct (skipped_loop targets w) as (Hr & Hst & Htr).
  { intros t Ht. by apply windows_skips. }
  conjuncts; try done.
  - apply spawned_since_app. by rewrite app_nil_r.
  - destruct (main_spawns (fun _ => False)) with (w := w) as (evs & Ht & Hall).
    { intros t Hin. apply spawns_only_silent. intros w0.
      rewrite build_target_eq, (configured_os _ Hin), (windows_skips _ Hw Hin). done. }
    rewrite (spawned_since_app _ _ _ Ht).
    eapply Forall_impl; [done|]. intros ev [?|[[]|?]]; auto.
Qed.

(** *** Displaying the results *)

Lemma printed_nil w : printed [] w = w.
Proof. destruct w. unfold printed. simpl. by rewrite app_nil_r. Qed.

Lemma printed_app l1 l2 w : printed l2 (printed l1 w) = printed (l1 ++ l2) w.
Proof. unfold printed. simpl. by rewrite <- app_assoc. Qed.

Lemma display_round_eq item w :
  display_round item w = (Normal tt, printed (size_lines (fs w) item) w).
Proof.
  unfold display_round, size_lines, bind, path_is_file, gets, stat_size, print, ret,
    Fs.is_file.
  destruct (Fs.node_at (fs w) item) as [[f|]|] eqn:E; simpl; rewrite ?E;
    by rewrite ?printed_nil.
Qed.

Lemma display_loop items : forall w,
  for_ items display_round w =
  (Normal tt, printed (concat (size_lines (fs w) <$> items)) w).
Proof.
  induction items as [|i items IH]; intros w; simpl.
  - by rewrite printed_nil.
  - unfold bind. rewrite display_round_eq, IH. by rewrite printed_app.
Qed.

Lemma display_results_eq w :
  display_results w =
  match Fs.node_at (fs w) release_dir with
  | Some Dir =>
      let lines := completed_lines ++ concat (size_lines (fs w) <$> listing (fs w)) ++
                   [checksums_heading] in
      match fs w !! checksum_file with
      | Some Dir => (Raise IsADirectoryError, printed lines w)
      | _ => (Normal tt, printed (lines ++ manifest_lines (fs w)) w)
      end
  | Some (File _) => (Raise NotADirectoryError, printed completed_lines w)
  | None => (Raise FileNotFoundError, printed completed_lines w)
  end.
Proof.
  unfold display_results.
  change (fun item : list string => _) with display_round.
  unfold bind at 1. unfold print_success. rewrite print_eq.
  unfold bind at 1. unfold print_status at 1. rewrite print_eq, printed_app.
  unfold bind at 1. unfold iterdir. cbn [fs printed].
  destruct (Fs.node_at (fs w) release_dir) as [[f|]|]; [done| |done].
  unfold bind at 1. rewrite display_loop, printed_app.
  unfold bind at 1. unfold print_status. rewrite print_eq, printed_app.
  unfold bind at 1. unfold path_exists, gets, Fs.exists_. rewrite node_at_checksum.
  cbn [fs printed]. unfold manifest_lines.
  destruct (fs w !! checksum_file) as [[f|]|] eqn:E.
  - unfold bind, read_text. rewrite node_at_checksum. cbn [fs printed]. rewrite E.
    rewrite print_eq, printed_app. by rewrite <- !app_assoc.
  - unfold bind, read_text. rewrite node_at_checksum. cbn [fs printed]. rewrite E.
    by rewrite <- !app_assoc.
  - unfold ret. by rewrite app_nil_r, <- !app_assoc.
Qed.

(** X9: [display_results] changes nothing but the output.  It returns
    exactly when the output directory is a directory and the manifest path
    is not one; what it then prints is the two opening lines, one size line
    for each regular file of the output directory and none for any other
    entry, the heading, and the text of the manifest when there is one. *)
Theorem display_results_only_prints w :
  state_of (snd (display_results w)) = state_of w /\
  trace (snd (display_results w)) = trace w /\
  (fst (display_results w) = Normal tt <->
   Fs.is_dir (fs w) release_dir = true /\ Fs.is_dir (fs w) checksum_file = false) /\
  (fst (display_results w) = Normal tt ->
   out (snd (display_results w)) =
     out w ++ completed_lines ++ concat (size_lines (fs w) <$> listing (fs w)) ++
     [checksums_heading] ++ manifest_lines (fs w)).
Proof.
  rewrite display_results_eq. unfold Fs.is_dir. rewrite node_at_checksum.
  destruct (Fs.node_at (fs w) release_dir) as [[f|]|]; cbn zeta.
  - conjuncts; try done. split; [done|by intros [? _]].
  - destruct (fs w !! checksum_file) as [[f|]|]; cbn [fst snd printed out];
      conjuncts; try done; try (split; [done|by intros [_ ?]]);
      intros _; by rewrite <- !app_assoc.
  - conjuncts; try done. split; [done|by intros [? _]].
Qed.

(** *** Collecting, again *)

Lemma collect_all_idem (t : FS) ts :
  foldl collect (foldl collect t ts) ts = foldl collect t ts.
Proof.
  apply map_eq. intros p.
  destruct (decide (p ∈ artifact <$> ts)) as [Hin|Hnin].
  - apply list_elem_of_fmap in Hin as (x & -> & Hx).
    rewrite (collect_all_artifact (foldl collect t ts)) by done.
    rewrite (collect_all_other t ts (binary_path x))
      by (intros y _; apply binary_not_artifact).
    destruct (t !! binary_path x) as [[f|]|] eqn:E; try done.
    by rewrite collect_all_artifact, E.
  - apply collect_all_other. intros x Hx ->. apply Hnin, list_elem_of_fmap. eauto.
Qed.

Lemma with_release_dir_id (t : FS) :
  Fs.is_dir t release_dir = true -> with_release_dir t = t.
Proof.
  unfold Fs.is_dir, with_release_dir. rewrite node_at_release.
  by destruct (t !! release_dir).
Qed.

Lemma regular_layout_intro (t : FS) :
  Fs.is_file t release_dir = false ->
  (forall x, x ∈ targets ->
     Fs.is_dir t (binary_path x) = false /\ Fs.is_dir t (artifact x) = false) ->
  regular_layout t = true.
Proof.
  intros Hr Hts. unfold regular_layout.
  rewrite andb_true_iff, negb_true_iff, forallb_forall. split; [done|].
  intros x Hx%list_elem_of_In. destruct (Hts x Hx) as [-> ->]. done.
Qed.

Lemma copy_binaries_keeps_layout w :
  regular_layout (fs w) = true ->
  regular_layout (fs (snd (copy_binaries w))) = true.
Proof.
  intros Hl. pose proof (copy_binaries_release w Hl) as Hrel.
  destruct (regular_layout_spec _ Hl) as [_ Hts].
  apply regular_layout_intro.
  - unfold Fs.is_dir, Fs.is_file in *.
    by destruct (Fs.node_at _ release_dir) as [[|]|].
  - intros x Hx. destruct (Hts x Hx) as [Hs Hd]. split.
    + rewrite copy_binaries_eq by done. cbn [snd fs].
      unfold Fs.is_dir in *. rewrite node_at_binary in *.
      rewrite collect_all_other by (intros y _; apply binary_not_artifact).
      rewrite with_release_dir_other by done. done.
    + unfold Fs.is_dir in *. rewrite node_at_artifact in *.
      rewrite copy_binaries_artifact by done.
      by destruct (fs w !! binary_path x) as [[f|]|].
Qed.

(** X10: collecting is idempotent.  On a regular layout a second
    [copy_binaries] finds a regular layout again, returns normally and
    leaves the tree exactly as the first one left it. *)
Theorem copy_binaries_twice w :
  regular_layout (fs w) = true ->
  regular_layout (fs (snd (copy_binaries w))) = true /\
  fst (copy_binaries (snd (copy_binaries w))) = Normal tt /\
  fs (snd (copy_binaries (snd (copy_binaries w)))) = fs (snd (copy_binaries w)).
Proof.
  intros Hl. pose proof (copy_binaries_keeps_layout w Hl) as Hl1.
  pose proof (copy_binaries_release w Hl) as Hrel.
  split; [done|]. rewrite (copy_binaries_eq (snd (copy_binaries w))) by done.
  split; [done|]. cbn [snd fs]. rewrite with_release_dir_id by done.
  rewrite copy_binaries_eq by done. cbn [snd fs]. apply collect_all_idem.
Qed.

(** X11: with a regular file where the output directory should be,
    [copy_binaries] raises [FileExistsError] at once: nothing is copied,
    printed or spawned. *)
Theorem copy_binaries_needs_a_directory w :
  Fs.is_file (fs w) release_dir = true ->
  copy_binaries w = (Raise FileExistsError, w).
Proof.
  unfold Fs.is_file. intros Hf.
  rewrite copy_binaries_unfold. unfold bind, mkdir_exist_ok.
  by destruct (Fs.node_at (fs w) release_dir) as [[f|]|].
Qed.

(** *** A run that returns *)

Lemma before_install_normal w :
  fst (before_install w) = Normal tt ->
  exists r1 r2,
    trace (snd (before_install w)) =
      trace w ++ [(rustc_version, r1); (cargo_version, r2)] /\
    exited_zero r1 = true /\ exited_zero r2 = true.
Proof.
  unfold before_install, bind, print_status, print_error, print, path_exists,
    gets, sys_exit, raise, ret; simpl.
  destruct (Fs.exists_ (fs w) ["Cargo.toml"]); simpl; [|done].
  rewrite check_rust_installed_eq. cbn zeta.
  destruct (exited_zero (exec H rustc_version _).1) eqn:Z1; simpl; [|done].
  destruct (exited_zero (exec H cargo_version _).1) eqn:Z2; simpl; [|done].
  intros _. eexists _, _. split; [|split; [exact Z1|exact Z2]].
  by rewrite <- app_assoc.
Qed.

Lemma build_round_normal target w :
  fst (build_target target w) = Normal tt ->
  exists evs,
    trace (snd (build_target target w)) = trace w ++ evs /\
    Forall (fun ev => exited_zero (snd ev) = true) evs /\
    Forall (fun ev => fst ev = cargo_build target \/ fst ev = strip_cmd target) evs /\
    (skips target = false -> cargo_build target ∈ map fst evs).
Proof.
  rewrite build_target_eq. cbn zeta.
  destruct (derive_os target) as [o|]; [|done].
  destruct (skips target).
  { intros _. exists []. cbn. by rewrite app_nil_r. }
  destruct (exited_zero (exec H (cargo_build target) _).1) eqn:Z; [|done].
  destruct (_ && _)%bool.
  - destruct (exited_zero (exec H (strip_cmd target) _).1) eqn:Z2; [|done].
    intros _. eexists [_; _]. cbn [fst snd trace after_run printed]. conjuncts.
    + by rewrite <- app_assoc.
    + repeat constructor; [exact Z|exact Z2].
    + constructor; [by left|]. constructor; [by right|]. constructor.
    + intros _. apply list_elem_of_here.
  - intros _. eexists [_]. cbn [fst snd trace after_run printed]. conjuncts.
    + done.
    + repeat constructor. exact Z.
    + constructor; [by left|]. constructor.
    + intros _. apply list_elem_of_here.
Qed.

Lemma build_loop_normal ts : forall w,
  fst (for_ ts build_target w) = Normal tt ->
  exists evs,
    trace (snd (for_ ts build_target w)) = trace w ++ evs /\
    Forall (fun ev => exited_zero (snd ev) = true) evs /\
    Forall (fun ev => exists t, t ∈ ts /\
              (fst ev = cargo_build t \/ fst ev = strip_cmd t)) evs /\
    (forall t, t ∈ ts -> skips t = false -> cargo_build t ∈ map fst evs).
Proof.
  induction ts as [|t ts IH]; intros w Hn.
  - exists []. simpl. rewrite app_nil_r. conjuncts; try done.
    by intros t ?%elem_of_nil.
  - simpl in *. destruct (bind_normal_inv _ _ _ _ Hn) as ([] & Ht & Hb).
    rewrite Hb in *.
    destruct (build_round_normal t w Ht) as (e1 & Htr1 & Hz1 & Hc1 & Hb1).
    destruct (IH _ Hn) as (e2 & Htr2 & Hz2 & Hc2 & Hb2).
    exists (e1 ++ e2). conjuncts.
    + by rewrite Htr2, Htr1, app_assoc.
    + by apply Forall_app.
    + apply Forall_app. split.
      * eapply Forall_impl; [exact Hc1|]. intros ev Hev. exists t.
        split; [apply list_elem_of_here|done].
      * eapply Forall_impl; [exact Hc2|]. intros ev (x & Hx & Hev). exists x.
        split; [by apply list_elem_of_further|done].
    + intros x [->|Hx]%elem_of_cons Hs; rewrite map_app; apply elem_of_app.
      * left. by apply Hb1.
      * right. by apply Hb2.
Qed.

Lemma display_results_normal w :
  fst (display_results w) = Normal tt ->
  Fs.is_dir (fs w) release_dir = true /\
  Fs.is_dir (fs w) checksum_file = false /\
  fs (snd (display_results w)) = fs w.
Proof.
  rewrite display_results_eq. unfold Fs.is_dir. rewrite node_at_checksum.
  destruct (Fs.node_at (fs w) release_dir) as [[f|]|]; [done| |done].
  cbn zeta. by destruct (fs w !! checksum_file) as [[f|]|].
Qed.

Lemma after_builds_normal w :
  fst (after_builds w) = Normal tt ->
  exists hashes,
    trace (snd (after_builds w)) = trace w ++ hashes /\
    Forall (fun ev => hash_command (fst ev)) hashes /\
    Fs.is_dir (fs (snd (after_builds w))) release_dir = true /\
    Fs.is_dir (fs (snd (after_builds w))) checksum_file = false.
Proof.
  intros Hn.
  assert (spawns_only hash_command after_builds) as Hsp.
  { unfold after_builds.
    apply spawns_only_bind; [apply spawns_only_copy_binaries|intros _].
    apply spawns_only_bind; [apply spawns_only_create_checksums|intros _].
    apply spawns_only_bind; [apply spawns_only_display_results|intros _].
    apply spawns_only_print. }
  destruct (Hsp w) as (hashes & Ht & Hall). exists hashes.
  split; [done|]. split; [done|].
  unfold after_builds in *.
  destruct (bind_normal_inv _ _ _ _ Hn) as ([] & _ & E1). rewrite E1 in *. clear E1.
  destruct (bind_normal_inv _ _ _ _ Hn) as ([] & _ & E2). rewrite E2 in *. clear E2.
  destruct (bind_normal_inv _ _ _ _ Hn) as ([] & Hd & E3). rewrite E3 in *. clear E3.
  destruct (display_results_normal _ Hd) as (Hr & Hc & Hfs).
  unfold print_success. rewrite print_eq. cbn [snd fs printed].
  by rewrite Hfs.
Qed.

(** X12: a run that returns went through its phases in order.  The
    processes it spawned are the two version queries, then one installation
    for each configured target, then the builds, then the hashing, and
    nothing else; every process before the hashing exited with status 0;
    every configured target that is not skipped had its release build; and
    at the end the output directory is a directory and the manifest path is
    not one. *)
Theorem a_run_that_returns w :
  fst (main w) = Normal tt ->
  exists probe installs builds hashes,
    spawned_since w (snd (main w)) = probe ++ installs ++ builds ++ hashes /\
    map fst probe = [rustc_version; cargo_version] /\
    map fst installs = map rustup_add targets /\
    Forall (fun ev => build_command (fst ev)) builds /\
    (forall target, target ∈ targets -> skips target = false ->
       cargo_build target ∈ map fst builds) /\
    Forall (fun ev => hash_command (fst ev)) hashes /\
    Forall (fun ev => exited_zero (snd ev) = true) (probe ++ installs ++ builds) /\
    Fs.is_dir (fs (snd (main w))) release_dir = true /\
    Fs.is_dir (fs (snd (main w))) checksum_file = false.
Proof.
  intros Hn. rewrite main_stages in *.
  destruct (bind_normal_inv _ _ _ _ Hn) as ([] & H1 & E1). rewrite E1 in *. clear E1.
  destruct (bind_normal_inv _ _ _ _ Hn) as ([] & H2 & E2). rewrite E2 in *. clear E2.
  destruct (bind_normal_inv _ _ _ _ Hn) as ([] & H3 & E3). rewrite E3 in *. clear E3.
  destruct (before_install_normal _ H1) as (r1 & r2 & Ht1 & Z1 & Z2).
  destruct (install_loop _ _ H2) as (e2 & Ht2 & Hm2 & Hz2).
  destruct (build_loop_normal _ _ H3) as (e3 & Ht3 & Hz3 & Hc3 & Hb3).
  destruct (after_builds_normal _ Hn) as (e4 & Ht4 & Hh4 & Hr & Hc).
  exists [(rustc_version, r1); (cargo_version, r2)], e2, e3, e4. conjuncts; try done.
  - apply spawned_since_app. rewrite Ht4, Ht3, Ht2, Ht1. by rewrite <- !app_assoc.
  - rewrite !Forall_app. conjuncts; try done. by repeat constructor.
Qed.

(** ** Properties of the test script *)

Lemma presence_loop found missing items : forall acc w,
  TestConfig.for_with items acc (fun item all_exist =>
    present <- path_exists (TestConfig.Path item) ;;
    if present then print_success (found +:+ item) ;; ret all_exist
    else print_error (missing +:+ item) ;; ret false) w =
  (Normal (acc && all_present items (fs w)),
   printed (map (presence_line found missing (fs w)) items) w).
Proof.
  induction items as [|i items IH]; intros acc w; simpl.
  - by rewrite printed_nil, andb_true_r.
  - unfold bind at 1. unfold bind at 1. unfold path_exists, gets, presence_line.
    cbn [fst snd]. destruct (Fs.exists_ (fs w) (TestConfig.Path i)) eqn:E.
    + unfold bind, print_success. rewrite print_eq. unfold ret.
      rewrite IH, printed_app. done.
    + unfold bind, print_error. rewrite print_eq. unfold ret.
      rewrite IH, printed_app. by rewrite andb_false_r.
Qed.

(** X13: [check_build_scripts] reports on every script, also after one
    that is missing: it prints one line for each of the three scripts, in
    the order of the list, changes nothing else, and returns whether all
    three exist. *)
Theorem check_build_scripts_reports_every_script w :
  fst (TestConfig.check_build_scripts w) =
    Normal (all_present TestConfig.scripts (fs w)) /\
  out (snd (TestConfig.check_build_scripts w)) =
    out w ++ map (presence_line "Build script found: " "Build script not found: " (fs w))
               TestConfig.scripts /\
  state_of (snd (TestConfig.check_build_scripts w)) = state_of w /\
  trace (snd (TestConfig.check_build_scripts w)) = trace w.
Proof.
  unfold TestConfig.check_build_scripts. by rewrite presence_loop.
Qed.

Lemma test_probe_eq w :
  TestConfig.check_rust_installed w =
  (Normal (exited_zero (outcome rustc_version w)),
   let x := exec H rustc_version (fs w, env w) in
   mkWorld (fst (snd x)) (snd (snd x))
     (out w ++ [match fst x with
                | Completed rc so _ =>
                    if rc =? 0
                    then GREEN +:+ "[SUCCESS]" +:+ NC +:+ " " +:+
                         ("Rust is installed: " +:+ Py.strip so)
                    else RED +:+ "[ERROR]" +:+ NC +:+ " " +:+ "Rust is not installed"
                | NotFound => RED +:+ "[ERROR]" +:+ NC +:+ " " +:+ "Rust is not installed"
                end])
     (trace w ++ [(rustc_version, fst x)])).
Proof.
  unfold TestConfig.check_rust_installed, try_except, bind, subprocess_run, outcome,
    print_success, print_error, print, ret, rustc_version.
  destruct (exec H ["rustc"; "--version"] (fs w, env w)) as [[|rc so se] [t e]]; simpl.
  - done.
  - by destruct (rc =? 0).
Qed.

(** X14: the toolchain probe of the test script asks for the compiler
    only.  It spawns the version query of the compiler once and leaves
    tree and machine as that process left them; for a query that ran it
    returns whether the status is 0, and for a compiler that is not found
    it returns [false].  It does not ask for [cargo], so it passes whenever
    the probe of the build script does. *)
Theorem test_probe_asks_for_the_compiler_only w :
  spawned_since w (snd (TestConfig.check_rust_installed w)) =
    [(rustc_version, outcome rustc_version w)] /\
  state_of (snd (TestConfig.check_rust_installed w)) =
    snd (exec H rustc_version (fs w, env w)) /\
  (forall rc so se,
     outcome rustc_version w = Completed rc so se ->
     fst (TestConfig.check_rust_installed w) = Normal (rc =? 0)) /\
  (outcome rustc_version w = NotFound ->
   fst (TestConfig.check_rust_installed w) = Normal false) /\
  (fst (check_rust_installed w) = Normal true ->
   fst (TestConfig.check_rust_installed w) = Normal true).
Proof.
  rewrite test_probe_eq. cbn [fst snd]. conjuncts.
  - by apply spawned_since_app.
  - unfold state_of. cbn [fs env]. by destruct (exec H rustc_version _) as [r [t e]].
  - by intros rc so se ->.
  - by intros ->.
  - rewrite check_rust_installed_eq. cbn zeta. unfold outcome.
    by destruct (exited_zero (exec H rustc_version (fs w, env w)).1).
Qed.

Lemma decides_cargo_toml :
  decides TestConfig.check_cargo_toml (has_text ["Cargo.toml"] ["zenity-dialog"]).
Proof.
  intros w. unfold TestConfig.check_cargo_toml, has_text.
  change (TestConfig.Path "Cargo.toml") with ["Cargo.toml"].
  unfold bind, path_exists, gets, read_text, Fs.exists_, print_success, print_error,
    print, ret, Fs.node_at. cbn [fst snd fs].
  destruct (fs w !! ["Cargo.toml"]) as [[f|]|] eqn:E; simpl; rewrite ?E.
  - rewrite andb_true_r. destruct (TestConfig.contains _ (data f)); simpl; by conjuncts.
  - by conjuncts.
  - by conjuncts.
Qed.

Lemma decides_install_rs :
  decides TestConfig.check_install_rs
    (has_text ["src"; "install.rs"] ["zenity_dialog"; TestConfig.target_os_linux]).
Proof.
  intros w. unfold TestConfig.check_install_rs, has_text.
  change (TestConfig.Path "src/install.rs") with ["src"; "install.rs"].
  unfold bind, path_exists, gets, read_text, Fs.exists_, print_success, print_error,
    print, ret, Fs.node_at. cbn [fst snd fs].
  destruct (fs w !! ["src"; "install.rs"]) as [[f|]|] eqn:E; simpl; rewrite ?E.
  - rewrite andb_true_r.
    destruct (TestConfig.contains "zenity_dialog" (data f) &&
              TestConfig.contains TestConfig.target_os_linux (data f))%bool;
      simpl; by conjuncts.
  - by conjuncts.
  - by conjuncts.
Qed.

Lemma decides_github_actions :
  decides TestConfig.check_github_actions
    (fun t => Fs.exists_ t [".github"; "workflows"; "build-linux.yml"]).
Proof.
  intros w. unfold TestConfig.check_github_actions.
  change (TestConfig.Path ".github/workflows/build-linux.yml")
    with [".github"; "workflows"; "build-linux.yml"].
  unfold bind, path_exists, gets, print_success, print_error, print, ret.
  cbn [fst snd fs].
  destruct (Fs.exists_ (fs w) _); simpl; by conjuncts.
Qed.

Lemma decides_build_scripts :
  decides TestConfig.check_build_scripts (all_present TestConfig.scripts).
Proof.
  intros w. unfold TestConfig.check_build_scripts. rewrite presence_loop.
  cbn [fst snd andb]. conjuncts; [done|done| |done].
  split; [intros [= E]; exact E|intros E; f_equal; exact E].
Qed.

Lemma decides_documentation :
  decides TestConfig.check_documentation (all_present TestConfig.docs).
Proof.
  intros w. unfold TestConfig.check_documentation. rewrite presence_loop.
  cbn [fst snd andb]. conjuncts; [done|done| |done].
  split; [intros [= E]; exact E|intros E; f_equal; exact E].
Qed.

Lemma tally_round_eq test passed w :
  tally_round test passed w =
  let w0 := printed [BLUE +:+ "[INFO]" +:+ NC +:+ " " +:+
                       ("Testing " +:+ fst test +:+ "...")] w in
  match snd test w0 with
  | (Normal ok, w1) =>
      (Normal (if ok then S passed else passed), printed [EmptyString] w1)
  | (Raise e, w1) => (Raise e, w1)
  end.
Proof.
  unfold tally_round, bind, print_status. rewrite print_eq. cbn zeta.
  by destruct (snd test _) as [[ok|e] w1].
Qed.

Lemma tally_loop ts Ps :
  Forall2 (fun test P => decides (snd test) P) ts Ps ->
  forall n w,
    state_of (snd (TestConfig.for_with ts n tally_round w)) = state_of w /\
    trace (snd (TestConfig.for_with ts n tally_round w)) = trace w /\
    (forall k, fst (TestConfig.for_with ts n tally_round w) = Normal k ->
       (k <= n + length ts)%nat) /\
    (fst (TestConfig.for_with ts n tally_round w) = Normal (n + length ts)%nat <->
     forallb (fun P => P (fs w)) Ps = true) /\
    (forall code,
       fst (TestConfig.for_with ts n tally_round w) <> Raise (SystemExit code)).
Proof.
  induction 1 as [|test P ts Ps Hd _ IH]; intros n w.
  - simpl. rewrite Nat.add_0_r. conjuncts; try done. intros k [= <-]. lia.
  - simpl. unfold bind. rewrite tally_round_eq. cbn zeta.
    set (w0 := printed _ w).
    destruct (Hd w0) as (Hst & Htr & Hiff & Hex).
    change (fs w0) with (fs w) in Hiff.
    change (state_of w0) with (state_of w) in Hst.
    change (trace w0) with (trace w) in Htr.
    destruct (snd test w0) as [[ok|e] w1]; cbn [fst snd] in *.
    + set (n' := if ok then S n else n).
      destruct (IH n' (printed [EmptyString] w1)) as (Hst' & Htr' & Hle & Hiff' & Hex').
      assert (fs w1 = fs w) as Hfs by (by injection Hst).
      cbn [fs printed] in Hiff'. rewrite Hfs in Hiff'.
      conjuncts.
      * by rewrite Hst'.
      * by rewrite Htr'.
      * intros k Hk. specialize (Hle k Hk). subst n'. destruct ok; lia.
      * rewrite andb_true_iff, <- Hiff, <- Hiff'. split.
        -- intros Hk. destruct ok.
           ++ split; [done|]. subst n'. rewrite Hk. f_equal. lia.
           ++ specialize (Hle _ Hk). subst n'. lia.
        -- intros [[= ->] Hk]. subst n'. rewrite Hk. f_equal. lia.
      * done.
    + conjuncts; try done.
      * rewrite andb_true_iff, <- Hiff. split; [done|]. by intros [? _].
      * intros code [= ->]. by apply (Hex code).
Qed.

Lemma requirements_decided :
  Forall2 (fun test P => decides (snd test) P) (tail TestConfig.tests) requirements.
Proof.
  unfold requirements. simpl tail.
  constructor; [apply decides_cargo_toml|].
  constructor; [apply decides_install_rs|].
  constructor; [apply decides_github_actions|].
  constructor; [apply decides_build_scripts|].
  constructor; [apply decides_documentation|].
  constructor.
Qed.

Lemma bind_print {A} s (k : unit -> M World A) w :
  bind (print s) k w = k tt (printed [s] w).
Proof. reflexivity. Qed.

Lemma report_eq passed w :
  fst (report passed w) =
    (if Nat.eqb passed 6 then Normal tt else Raise (SystemExit 1)) /\
  state_of (snd (report passed w)) = state_of w /\
  trace (snd (report passed w)) = trace w.
Proof.
  unfold report. cbn zeta. change (length TestConfig.tests) with 6%nat.
  unfold print_status, print_success, print_error.
  rewrite bind_print. destruct (Nat.eqb passed 6).
  - rewrite !bind_print, print_eq. done.
  - rewrite bind_print. done.
Qed.

Lemma test_main_unfold w :
  TestConfig.main w =
  if Fs.exists_ (fs w) ["Cargo.toml"] then
    bind (tally_round ("Rust Installation", TestConfig.check_rust_installed) 0%nat)
      (fun n => bind (TestConfig.for_with (tail TestConfig.tests) n tally_round) report)
      (printed [BLUE +:+ "[INFO]" +:+ NC +:+ " " +:+ "Testing Linux build configuration...";
                EmptyString] w)
  else
    (Raise (SystemExit 1),
     printed [BLUE +:+ "[INFO]" +:+ NC +:+ " " +:+ "Testing Linux build configuration...";
              EmptyString;
              RED +:+ "[ERROR]" +:+ NC +:+ " " +:+
                "Please run this script from the project root directory"] w).
Proof.
  change (TestConfig.main w) with
    ((print_status "Testing Linux build configuration..." ;;
      print EmptyString ;;
      marker <- path_exists ["Cargo.toml"] ;;
      (if negb marker then
         print_error "Please run this script from the project root directory" ;;
         sys_exit 1
       else ret tt) ;;
      passed <- TestConfig.for_with TestConfig.tests 0%nat tally_round ;;
      report passed) w).
  unfold print_status at 1. rewrite !bind_print, printed_app.
  unfold bind at 1. unfold path_exists, gets. cbn [fs printed].
  destruct (Fs.exists_ (fs w) ["Cargo.toml"]); cbn [negb].
  - unfold bind at 1. unfold ret at 1. simpl TestConfig.for_with at 1.
    by rewrite bind_assoc.
  - unfold bind, print_error, sys_exit, raise. rewrite print_eq, printed_app. done.
Qed.

Lemma test_main_after_probe w :
  Fs.exists_ (fs w) ["Cargo.toml"] = true ->
  exists w1,
    TestConfig.main w =
      bind (TestConfig.for_with (tail TestConfig.tests)
              (if exited_zero (outcome rustc_version w) then 1 else 0)%nat tally_round)
        report w1 /\
    state_of w1 = snd (exec H rustc_version (fs w, env w)) /\
    trace w1 = trace w ++ [(rustc_version, outcome rustc_version w)].
Proof.
  intros Hm. eexists. split.
  - rewrite test_main_unfold, Hm.
    unfold bind at 1. rewrite tally_round_eq. cbn [snd fst]. cbn zeta.
    rewrite test_probe_eq. reflexivity.
  - unfold state_of, outcome. cbn [fs env trace printed].
    by destruct (exec H rustc_version (fs w, env w)) as [r [t e]].
Qed.

Lemma test_main_run w :
  Fs.exists_ (fs w) ["Cargo.toml"] = true ->
  (fst (TestConfig.main w) = Normal tt <->
   exited_zero (outcome rustc_version w) &&
   configured (fst (snd (exec H rustc_version (fs w, env w)))) = true) /\
  (forall code, fst (TestConfig.main w) = Raise (SystemExit code) -> code = 1) /\
  trace (snd (TestConfig.main w)) = trace w ++ [(rustc_version, outcome rustc_version w)] /\
  state_of (snd (TestConfig.main w)) = snd (exec H rustc_version (fs w, env w)).
Proof.
  intros Hm. destruct (test_main_after_probe w Hm) as (w1 & -> & Hs1 & Ht1).
  set (n := if exited_zero (outcome rustc_version w) then 1%nat else 0%nat).
  destruct (tally_loop _ _ requirements_decided n w1) as (Hst & Htr & Hle & Hiff & Hex).
  change (length (tail TestConfig.tests)) with 5%nat in *.
  change (forallb (fun P => P (fs w1)) requirements) with (configured (fs w1)) in Hiff.
  assert (fs w1 = fst (snd (exec H rustc_version (fs w, env w)))) as Hfs
    by (by rewrite <- Hs1).
  rewrite Hfs in Hiff. rewrite Hs1 in Hst. rewrite Ht1 in Htr.
  unfold bind.
  destruct (TestConfig.for_with (tail TestConfig.tests) n tally_round w1)
    as [[k|ex] w2]; cbn [fst snd] in *.
  - destruct (report_eq k w2) as (Hr & Hst2 & Htr2).
    rewrite Hr, Hst2, Htr2, Hst, Htr. conjuncts; try done.
    + specialize (Hle k eq_refl). rewrite andb_true_iff, <- Hiff.
      destruct (Nat.eqb_spec k 6) as [->|Hk].
      * split; [intros _|done]. subst n.
        destruct (exited_zero (outcome rustc_version w)); [done|lia].
      * split; [done|]. intros [Hz [= ->]]. subst n. rewrite Hz in Hk. done.
    + destruct (Nat.eqb k 6); [done|]. by intros code [= <-].
  - rewrite Hst, Htr. conjuncts; try done.
    + split; [done|]. rewrite andb_true_iff, <- Hiff. by intros [_ ?].
    + intros code [= ->]. by destruct (Hex code).
Qed.


(** X16: the test script leaves the tree to the compiler.  Without the
    marker file it spawns nothing and changes nothing; with it, the version
    query of the compiler is the one process of the run, and tree and
    machine are at the end as that process left them. *)
Theorem test_script_spawns_one_query w :
  spawned_since w (snd (TestConfig.main w)) =
    (if Fs.exists_ (fs w) ["Cargo.toml"]
     then [(rustc_version, outcome rustc_version w)] else []) /\
  state_of (snd (TestConfig.main w)) =
    (if Fs.exists_ (fs w) ["Cargo.toml"]
     then snd (exec H rustc_version (fs w, env w)) else state_of w).
Proof.
  destruct (Fs.exists_ (fs w) ["Cargo.toml"]) eqn:Hm.
  - destruct (test_main_run w Hm) as (_ & _ & Htr & Hst).
    split; [by apply spawned_since_app|done].
  - rewrite test_main_unfold, Hm. cbn [snd]. split; [|done].
    apply spawned_since_app. cbn. by rewrite app_nil_r.
Qed.

End FurtherProperties.


(** ** The properties on concrete hosts *)

Import Scenario.

(** The claim of C1 fails on a Linux host where the first build exits with
    status 101: the run ends with status 1 and never builds the second
    target. *)
Lemma isolation_counterexample : ~ isolation_as_specified w_build_fails.
Proof.
  intros Hc.
  destruct (Hc x86_64 (Completed 101 "" "error: linker `cc` not found")) as [Hex _].
  - apply list_elem_of_In. vm_compute. auto 10.
  - reflexivity.
  - vm_compute in Hex. discriminate Hex.
Qed.

Lemma failed_build_witness :
  fst (main w_build_fails) =
    Raise (failure (cargo_build x86_64)
             (outcome (cargo_build x86_64) (reached [] w_build_fails))) /\
  exit_status (fst (main w_build_fails)) = 1 /\
  trace (snd (main w_build_fails)) =
    trace (reached [] w_build_fails) ++
    [(cargo_build x86_64, outcome (cargo_build x86_64) (reached [] w_build_fails))] /\
  state_of (snd (main w_build_fails)) =
    state_of (after_run (cargo_build x86_64) (reached [] w_build_fails)).
Proof.
  apply (failed_build_aborts_the_run (H:=linux_build_fails) w_build_fails
           [] x86_64 [aarch64]);
    vm_compute; reflexivity.
Defined.

(** The claim of C3 fails on a Linux host whose [strip] exits with status 1:
    the run does not return normally. *)
Lemma strip_counterexample : ~ strip_tolerated_as_specified w_strip_fails.
Proof.
  intros Hc.
  destruct (Hc x86_64 (Completed 1 "" "strip: file format not recognized")) as [Hex _].
  - apply list_elem_of_In. vm_compute. auto 10.
  - reflexivity.
  - vm_compute in Hex. discriminate Hex.
Qed.

Lemma strip_witness :
  trace (reached ([] ++ [x86_64]) w_strip_fails) =
    trace (reached [] w_strip_fails) ++
    [(cargo_build x86_64, outcome (cargo_build x86_64) (reached [] w_strip_fails));
     (strip_cmd (H:=linux_strip_fails) x86_64,
      outcome (strip_cmd (H:=linux_strip_fails) x86_64)
        (after_run (cargo_build x86_64) (reached [] w_strip_fails)))] /\
  (exited_zero
     (outcome (strip_cmd (H:=linux_strip_fails) x86_64)
        (after_run (cargo_build x86_64) (reached [] w_strip_fails)))
   = false ->
   fst (main w_strip_fails) =
     Raise (failure (strip_cmd (H:=linux_strip_fails) x86_64)
              (outcome (strip_cmd (H:=linux_strip_fails) x86_64)
                 (after_run (cargo_build x86_64) (reached [] w_strip_fails)))) /\
   exit_status (fst (main w_strip_fails)) = 1 /\
   trace (snd (main w_strip_fails)) =
     trace (reached [] w_strip_fails) ++
     [(cargo_build x86_64, outcome (cargo_build x86_64) (reached [] w_strip_fails));
      (strip_cmd (H:=linux_strip_fails) x86_64,
       outcome (strip_cmd (H:=linux_strip_fails) x86_64)
         (after_run (cargo_build x86_64) (reached [] w_strip_fails)))] /\
   state_of (snd (main w_strip_fails)) =
     state_of (after_run (strip_cmd (H:=linux_strip_fails) x86_64)
                 (after_run (cargo_build x86_64) (reached [] w_strip_fails)))).
Proof.
  apply (strip_runs_and_its_failure_aborts (H:=linux_strip_fails) w_strip_fails
           [] x86_64 [aarch64]);
    vm_compute; reflexivity.
Defined.

(** The claim of C4 fails on a Windows host with an old aarch64 binary in
    the target tree: the build is skipped and the artifact appears. *)
Lemma skip_counterexample : ~ skip_as_specified w_windows_stale.
Proof.
  intros Hc. specialize (Hc aarch64).
  assert (Fs.exists_ (fs (snd (main w_windows_stale))) (artifact aarch64) = true) as Hex
    by (vm_compute; reflexivity).
  rewrite Hc in Hex; [discriminate Hex| |reflexivity|reflexivity].
  apply list_elem_of_In. vm_compute. auto.
Qed.

Lemma skip_policy_witness :
  (skips (H:=windows) aarch64 = true <->
   Py.lower (platform_system windows) = "windows" /\ "linux" = "linux") /\
  (skips (H:=windows) aarch64 = true ->
   fst (build_target aarch64 w_windows_stale) = Normal tt /\
   spawned_since w_windows_stale (snd (build_target aarch64 w_windows_stale)) = [] /\
   fs (snd (build_target aarch64 w_windows_stale)) = fs w_windows_stale /\
   (aarch64 ∈ targets ->
    regular_layout (fs w_windows_stale) = true ->
    Fs.exists_ (fs w_windows_stale) (binary_path aarch64) = false ->
    fs (snd (copy_binaries (snd (build_target aarch64 w_windows_stale))))
      !! artifact aarch64 =
    fs w_windows_stale !! artifact aarch64)) /\
  (skips (H:=windows) aarch64 = false ->
   exists later,
     spawned_since w_windows_stale (snd (build_target aarch64 w_windows_stale)) =
     (cargo_build aarch64,
      fst (exec windows (cargo_build aarch64)
             (fs w_windows_stale, env w_windows_stale))) :: later).
Proof.
  apply (skip_policy (H:=windows) w_windows_stale aarch64 "linux"). reflexivity.
Defined.

(** The claim of C6 fails on a host without [rustc]: the run exits with
    status 1 after the failed query of the compiler and never queries the
    package manager. *)
Lemma probe_counterexample : ~ probe_as_specified w_no_rustc.
Proof.
  intros Hc. destruct Hc as (_ & _ & Hcargo & _).
  - left. reflexivity.
  - vm_compute in Hcargo. discriminate Hcargo.
Qed.

Lemma failed_probe_witness :
  fst (main w_no_rustc) = Raise (SystemExit 1) /\
  exit_status (fst (main w_no_rustc)) = 1 /\
  spawned_since w_no_rustc (snd (main w_no_rustc)) =
    (if exited_zero (outcome rustc_version w_no_rustc)
     then [(rustc_version, outcome rustc_version w_no_rustc);
           (cargo_version, outcome cargo_version (after_run rustc_version w_no_rustc))]
     else [(rustc_version, outcome rustc_version w_no_rustc)]) /\
  state_of (snd (main w_no_rustc)) =
    state_of (if exited_zero (outcome rustc_version w_no_rustc)
              then after_run cargo_version (after_run rustc_version w_no_rustc)
              else after_run rustc_version w_no_rustc).
Proof.
  apply (failed_probe_exits_at_first_failure (H:=linux_no_rustc) w_no_rustc);
    vm_compute; reflexivity.
Defined.

Lemma missing_marker_witness :
  main w_outside_project =
    (Raise (SystemExit 1),
     mkWorld (fs w_outside_project) (env w_outside_project)
       (out w_outside_project ++
        [BLUE +:+ "[INFO]" +:+ NC +:+ " " +:+
           "Starting cross-platform Linux build process..."] ++
        [RED +:+ "[ERROR]" +:+ NC +:+ " " +:+
           "Please run this script from the project root directory"])
       (trace w_outside_project)) /\
  exit_status (fst (main w_outside_project)) = 1.
Proof.
  apply (missing_marker_exits_before_any_work (H:=linux) w_outside_project).
  reflexivity.
Defined.

Lemma copy_binaries_witness :
  exists w',
    copy_binaries w_stale = (Normal tt, w') /\
    Fs.is_dir (fs w') release_dir = true /\
    forall target, target ∈ targets ->
      match fs w_stale !! binary_path target with
      | Some (File f) =>
          (exists g, fs w' !! artifact target = Some (File g) /\
             data g = data f /\ mtime g = mtime f /\
             mode g = if String.eqb (platform_system linux) "Windows"
                      then mode f else 493%N) /\
          (GREEN +:+ "[SUCCESS]" +:+ NC +:+ " " +:+ "Copied " +:+ target +:+ " binary")
            ∈ out w'
      | _ =>
          fs w' !! artifact target = fs w_stale !! artifact target /\
          (RED +:+ "[ERROR]" +:+ NC +:+ " " +:+
             "Binary not found: " +:+ path_str (H:=linux) (binary_path target)) ∈ out w'
      end.
Proof.
  apply (copy_binaries_collects (H:=linux) w_stale). vm_compute. reflexivity.
Defined.


Lemma sha256sum_reads_only : hashing_reads_only (H:=linux_hash_fails).
Proof. intros b s. reflexivity. Qed.

(** The claim of C5 fails on a Linux host without a hashing utility: the
    first artifact file ends the step with [FileNotFoundError]. *)
Lemma hashing_counterexample :
  ~ failed_hashing_tolerated_as_specified w_release_no_sha256sum.
Proof.
  intros Hc.
  specialize (Hc (artifact aarch64) NotFound).
  assert (fst (create_checksums w_release_no_sha256sum) = Raise FileNotFoundError) as Hex
    by (vm_compute; reflexivity).
  rewrite Hc in Hex; [discriminate Hex| |reflexivity].
  apply list_elem_of_In. vm_compute. auto.
Qed.

Lemma manifest_entries_witness :
  exists hs m,
    fs (snd (create_checksums w_release)) !! checksum_file = Some (File m) /\
    data m = manifest_text (H:=linux_hash_fails) hs /\
    spawned_since w_release (snd (create_checksums w_release)) =
      hash_event (H:=linux_hash_fails) <$> hs /\
    NoDup hs.*1 /\
    (forall p, p ∈ hs.*1 -> is_artifact (fs w_release) p) /\
    Forall (fun h => exists s,
              snd h = fst (exec linux_hash_fails (hash_cmd (H:=linux_hash_fails) (fst h)) s)) hs /\
    (fst (create_checksums w_release) = Normal tt <->
     Forall (fun h => started (snd h) = true) hs) /\
    (fst (create_checksums w_release) = Normal tt ->
     forall p, is_artifact (fs w_release) p -> p ∈ hs.*1) /\
    (fst (create_checksums w_release) <> Normal tt ->
     fst (create_checksums w_release) = Raise FileNotFoundError /\
     exists hs0 b, hs = hs0 ++ [(b, NotFound)] /\
                   Forall (fun h => started (snd h) = true) hs0).
Proof.
  apply (manifest_has_one_entry_per_artifact (H:=linux_hash_fails) w_release).
  - exact sha256sum_reads_only.
  - vm_compute. reflexivity.
Defined.

Lemma manifest_produced_witness :
  exists hs m,
    fs (snd (create_checksums w_release)) !! checksum_file = Some (File m) /\
    data m = manifest_text (H:=linux_hash_fails) hs /\
    spawned_since w_release (snd (create_checksums w_release)) =
      hash_event (H:=linux_hash_fails) <$> hs /\
    (forall p, p ∈ hs.*1 -> is_artifact (fs w_release) p /\ p <> checksum_file) /\
    ((forall p, ~ is_artifact (fs w_release) p) ->
     fst (create_checksums w_release) = Normal tt /\ hs = [] /\ data m = EmptyString).
Proof.
  apply (manifest_is_produced_and_never_lists_itself (H:=linux_hash_fails) w_release).
  - exact sha256sum_reads_only.
  - vm_compute. reflexivity.
Defined.

(** *** The runs behind the examples above *)

(** On the healthy Linux host the run builds, strips, and hashes both
    targets, in this order, and ends with status 0. *)
Example linux_run :
  exit_status (fst (main (start linux project tt))) = 0 /\
  map fst (trace (snd (main (start linux project tt)))) =
    [rustc_version; cargo_version; rustup_add x86_64; rustup_add aarch64;
     cargo_build x86_64; ["strip"; "target/x86_64-unknown-linux-gnu/release/rbx-studio-mcp"];
     cargo_build aarch64; ["strip"; "target/aarch64-unknown-linux-gnu/release/rbx-studio-mcp"];
     ["sha256sum"; "release/rbx-studio-mcp-aarch64-unknown-linux-gnu"];
     ["sha256sum"; "release/rbx-studio-mcp-x86_64-unknown-linux-gnu"]].
Proof. split; vm_compute; reflexivity. Qed.

(** The first build fails: status 1, and the failed build is the last
    process; the output directory was never created. *)
Example build_fails_run :
  exit_status (fst (main w_build_fails)) = 1 /\
  map fst (trace (snd (main w_build_fails))) =
    [rustc_version; cargo_version; rustup_add x86_64; rustup_add aarch64;
     cargo_build x86_64] /\
  Fs.exists_ (fs (snd (main w_build_fails))) release_dir = false.
Proof. repeat split; vm_compute; reflexivity. Qed.

(** [strip] fails on the first binary: status 1, the second target is never
    built and the output directory was never created. *)
Example strip_fails_run :
  exit_status (fst (main w_strip_fails)) = 1 /\
  map fst (trace (snd (main w_strip_fails))) =
    [rustc_version; cargo_version; rustup_add x86_64; rustup_add aarch64;
     cargo_build x86_64; ["strip"; "target/x86_64-unknown-linux-gnu/release/rbx-studio-mcp"]] /\
  Fs.exists_ (fs (snd (main w_strip_fails))) release_dir = false.
Proof. repeat split; vm_compute; reflexivity. Qed.

(** On Windows both builds are skipped, no build is spawned, and the old
    aarch64 binary is collected and hashed all the same. *)
Example windows_stale_run :
  exit_status (fst (main w_windows_stale)) = 0 /\
  map fst (trace (snd (main w_windows_stale))) =
    [rustc_version; cargo_version; rustup_add x86_64; rustup_add aarch64;
     ["powershell"; "-Command";
      "Get-FileHash 'release\rbx-studio-mcp-aarch64-unknown-linux-gnu' -Algorithm SHA256 | Select-Object -ExpandProperty Hash"]] /\
  fs (snd (main w_windows_stale)) !! artifact aarch64 =
    Some (File (mkFile "ELF stale" 493 1600000000)) /\
  fs (snd (main w_windows_stale)) !! checksum_file =
    Some (File (mkFile ("9F86D081884C7D65  rbx-studio-mcp-aarch64-unknown-linux-gnu" +:+ newline)
                  420 1700000200)).
Proof. repeat split; vm_compute; reflexivity. Qed.

(** Without [rustc] the only process is the failed query of the compiler. *)
Example no_rustc_run :
  exit_status (fst (main w_no_rustc)) = 1 /\
  trace (snd (main w_no_rustc)) = [(rustc_version, NotFound)].
Proof. split; vm_compute; reflexivity. Qed.

(** The manifest of the prepared output directory: the old line is gone,
    the file whose hashing failed and the directory with the prefix have no
    line, the mode of the existing manifest is kept. *)
Example release_manifest :
  fst (create_checksums w_release) = Normal tt /\
  fs (snd (create_checksums w_release)) !! checksum_file =
    Some (File (mkFile
      ("9f86d081884c7d65  release/rbx-studio-mcp-x86_64-unknown-linux-gnu" +:+ newline)
      384 1700000200)) /\
  map fst (trace (snd (create_checksums w_release))) =
    [["sha256sum"; "release/rbx-studio-mcp-aarch64-unknown-linux-gnu"];
     ["sha256sum"; "release/rbx-studio-mcp-x86_64-unknown-linux-gnu"]].
Proof. repeat split; vm_compute; reflexivity. Qed.

(** Collection on Linux with only the old aarch64 binary in place: it is
    copied with mode 0755 and its own modification time, and the missing
    x86_64 binary is reported. *)
Example stale_collection :
  fst (copy_binaries w_stale) = Normal tt /\
  fs (snd (copy_binaries w_stale)) !! artifact aarch64 =
    Some (File (mkFile "ELF stale" 493 1600000000)) /\
  fs (snd (copy_binaries w_stale)) !! artifact x86_64 = None /\
  out (snd (copy_binaries w_stale)) =
    [RED +:+ "[ERROR]" +:+ NC +:+ " " +:+
       "Binary not found: target/x86_64-unknown-linux-gnu/release/rbx-studio-mcp";
     GREEN +:+ "[SUCCESS]" +:+ NC +:+ " " +:+ "Copied aarch64-unknown-linux-gnu binary"].
Proof. repeat split; vm_compute; reflexivity. Qed.

(** *** Outside the assumptions *)

(** The layout asked of [copy_binaries] is needed: with a regular file named
    [release] the step raises at [mkdir] and copies nothing. *)
Example release_is_a_file :
  regular_layout (fs w_release_file) = false /\
  fst (copy_binaries w_release_file) = Raise FileExistsError /\
  fs (snd (copy_binaries w_release_file)) !! artifact aarch64 = None.
Proof. repeat split; vm_compute; reflexivity. Qed.

(** So is the output directory asked of [create_checksums]: without it the
    manifest cannot be opened. *)
Example no_output_directory :
  manifest_writable (fs w_stale) = false /\
  fst (create_checksums w_stale) = Raise FileNotFoundError.
Proof. split; vm_compute; reflexivity. Qed.

(** Without a hashing utility that can be started the first artifact file
    ends the step with [FileNotFoundError], the manifest already
    truncated. *)
Example no_hashing_utility :
  fst (create_checksums w_release_no_sha256sum) = Raise FileNotFoundError /\
  trace (snd (create_checksums w_release_no_sha256sum)) =
    [(["sha256sum"; "release/rbx-studio-mcp-aarch64-unknown-linux-gnu"], NotFound)] /\
  fs (snd (create_checksums w_release_no_sha256sum)) !! checksum_file =
    Some (File (mkFile EmptyString 384 1700000200)).
Proof. repeat split; vm_compute; reflexivity. Qed.

(** ** The further properties on concrete hosts *)

Import Cases.

Lemma install_targets_witness :
  map fst (spawned_since w_project (snd (install_targets w_project))) =
    map rustup_add targets /\
  Forall (fun ev => exited_zero (snd ev) = true)
    (spawned_since w_project (snd (install_targets w_project))).
Proof.
  apply (install_targets_adds_each_target (H:=linux) w_project).
  vm_compute. reflexivity.
Defined.

Lemma failed_installation_witness :
  fst (main w_without_aarch64) =
    Raise (failure (rustup_add aarch64)
             (outcome (rustup_add aarch64) (reached_install [x86_64] w_without_aarch64))) /\
  exit_status (fst (main w_without_aarch64)) = 1 /\
  trace (snd (main w_without_aarch64)) =
    trace (reached_install [x86_64] w_without_aarch64) ++
    [(rustup_add aarch64,
      outcome (rustup_add aarch64) (reached_install [x86_64] w_without_aarch64))] /\
  state_of (snd (main w_without_aarch64)) =
    state_of (after_run (rustup_add aarch64) (reached_install [x86_64] w_without_aarch64)).
Proof.
  apply (failed_installation_aborts_the_run (H:=linux_without_aarch64)
           w_without_aarch64 [x86_64] aarch64 []);
    vm_compute; reflexivity.
Defined.

Lemma build_target_returns_witness :
  (fst (build_target x86_64 w_project) = Normal tt <->
   skips (H:=linux) x86_64 = true \/
   (exited_zero (outcome (cargo_build x86_64) w_project) = true /\
    (strips x86_64 (after_run (cargo_build x86_64) w_project) = true ->
     exited_zero
       (outcome (strip_cmd (H:=linux) x86_64)
          (after_run (cargo_build x86_64) w_project)) = true))) /\
  (forall r,
     (strip_cmd (H:=linux) x86_64, r)
       ∈ spawned_since w_project (snd (build_target x86_64 w_project)) ->
     skips (H:=linux) x86_64 = false /\
     exited_zero (outcome (cargo_build x86_64) w_project) = true /\
     strips x86_64 (after_run (cargo_build x86_64) w_project) = true /\
     r = outcome (strip_cmd (H:=linux) x86_64)
           (after_run (cargo_build x86_64) w_project)).
Proof.
  apply (build_target_returns_iff (H:=linux) x86_64 w_project).
  apply list_elem_of_here.
Defined.

Lemma windows_host_witness :
  fst (for_ targets build_target w_windows_stale) = Normal tt /\
  state_of (snd (for_ targets build_target w_windows_stale)) = state_of w_windows_stale /\
  spawned_since w_windows_stale (snd (for_ targets build_target w_windows_stale)) = [] /\
  Forall (fun ev => setup_command (fst ev) \/ hash_command (H:=windows) (fst ev))
    (spawned_since w_windows_stale (snd (main w_windows_stale))).
Proof.
  apply (windows_host_builds_nothing (H:=windows) w_windows_stale).
  reflexivity.
Defined.

Lemma copy_binaries_twice_witness :
  regular_layout (fs (snd (copy_binaries w_stale))) = true /\
  fst (copy_binaries (snd (copy_binaries w_stale))) = Normal tt /\
  fs (snd (copy_binaries (snd (copy_binaries w_stale)))) = fs (snd (copy_binaries w_stale)).
Proof.
  apply (copy_binaries_twice (H:=linux) w_stale).
  vm_compute. reflexivity.
Defined.

Lemma copy_binaries_needs_a_directory_witness :
  copy_binaries w_release_file = (Raise FileExistsError, w_release_file).
Proof.
  apply (copy_binaries_needs_a_directory (H:=linux) w_release_file).
  vm_compute. reflexivity.
Defined.

Lemma a_run_that_returns_witness :
  exists probe installs builds hashes,
    spawned_since w_project (snd (main w_project)) =
      probe ++ installs ++ builds ++ hashes /\
    map fst probe = [rustc_version; cargo_version] /\
    map fst installs = map rustup_add targets /\
    Forall (fun ev => build_command (H:=linux) (fst ev)) builds /\
    (forall target, target ∈ targets -> skips (H:=linux) target = false ->
       cargo_build target ∈ map fst builds) /\
    Forall (fun ev => hash_command (H:=linux) (fst ev)) hashes /\
    Forall (fun ev => exited_zero (snd ev) = true) (probe ++ installs ++ builds) /\
    Fs.is_dir (fs (snd (main w_project))) release_dir = true /\
    Fs.is_dir (fs (snd (main w_project))) checksum_file = false.
Proof.
  apply (a_run_that_returns (H:=linux) w_project).
  vm_compute. reflexivity.
Defined.

(** *** Runs of the test script *)

(** In a repository that is set up, all six tests pass and the script ends
    with status 0, having asked the compiler for its version and nothing
    else. *)
Example repository_passes :
  ready w_repository = true /\
  exit_status (fst (TestConfig.main w_repository)) = 0 /\
  nth_error (out (snd (TestConfig.main w_repository))) 22 =
    Some (BLUE +:+ "[INFO]" +:+ NC +:+ " " +:+ "Test Results: 6/6 tests passed") /\
  trace (snd (TestConfig.main w_repository)) = [(rustc_version, ok "rustc 1.75.0")].
Proof. split; [|split; [|split]]; vm_compute; reflexivity. Qed.

(** Without the PowerShell build script one test fails, the scripts after
    the missing one are still reported, and the status is 1. *)
Example missing_script_fails :
  ready w_repository_without_ps1 = false /\
  fst (TestConfig.main w_repository_without_ps1) = Raise (SystemExit 1) /\
  out (snd (TestConfig.check_build_scripts w_repository_without_ps1)) =
    [GREEN +:+ "[SUCCESS]" +:+ NC +:+ " " +:+ "Build script found: scripts/build-linux.sh";
     RED +:+ "[ERROR]" +:+ NC +:+ " " +:+ "Build script not found: scripts/build-linux.ps1";
     GREEN +:+ "[SUCCESS]" +:+ NC +:+ " " +:+
       "Build script found: scripts/build-cross-platform.py"] /\
  In (BLUE +:+ "[INFO]" +:+ NC +:+ " " +:+ "Test Results: 5/6 tests passed")
    (out (snd (TestConfig.main w_repository_without_ps1))).
Proof. split; [|split; [|split]]; vm_compute; auto 30. Qed.

(** In the bare project tree only the toolchain probe passes. *)
Example bare_project_fails :
  exit_status (fst (TestConfig.main w_project)) = 1 /\
  In (BLUE +:+ "[INFO]" +:+ NC +:+ " " +:+ "Test Results: 1/6 tests passed")
    (out (snd (TestConfig.main w_project))).
Proof. split; vm_compute; auto 30. Qed.

(** Where the aarch64 target cannot be installed, the run of the build
    script ends there. *)
Example without_aarch64_run :
  exit_status (fst (main w_without_aarch64)) = 1 /\
  map fst (trace (snd (main w_without_aarch64))) =
    [rustc_version; cargo_version; rustup_add x86_64; rustup_add aarch64].
Proof. split; vm_compute; reflexivity. Qed.

(** Without [rustc] both probes answer that there is no toolchain. *)
Example no_rustc_probes :
  reports_no_toolchain w_no_rustc /\
  fst (TestConfig.check_rust_installed w_no_rustc) = Normal false.
Proof. split; [split|]; vm_compute; reflexivity. Qed.
